(** * VoteValidator: video-metadata normalisation service (src/main.py)

    A shallow embedding of the Python module: the identity extractor, the
    duration codec, the quirk engine ([preprocess]), the pseudonymizer
    ([hash_str]), the two provider adapters with their caches
    ([fetch_youtube], [fetch_ytdlp]) and the batch entry point
    ([update_item]).

    Conventions of the embedding.
    - A Python [str] is a [string] holding its UTF-8 bytes, so
      [str.encode()] is the identity on the carrier; every character the
      program searches for or compares with is ASCII, hence one byte.
    - A Python exception is a value of [exn]; code that may raise returns
      a [result].
    - The two module-level caches and an instrumentation log of the calls
      made to the two providers form the [state], threaded explicitly.
    - The two remote providers and the two host-dependent library
      functions are the fields of a [world]. *)

From Stdlib Require Import ZArith String Ascii List Lia Bool.
From Stdlib Require Import DecimalString DecimalN DecimalPos DecimalFacts.
From Stdlib Require Import Floats.PrimFloat Numbers.Cyclic.Int63.Uint63.
From stdpp Require Import gmap strings.

Local Open Scope Z_scope.

(** ** Exceptions and fallible results *)

Inductive exn : Set :=
  | KeyError | ValueError | IndexError | TypeError | AttributeError.

Inductive result (A : Type) : Type :=
  | Ok (a : A)
  | Raise (e : exn).
Arguments Ok {A} a.
Arguments Raise {A} e.

Definition rbind {A B : Type} (r : result A) (k : A -> result B) : result B :=
  match r with
  | Ok a => k a
  | Raise e => Raise e
  end.

Module PyStr.

(** ** The [str] methods the module uses *)

Definition chr_eqb (a b : ascii) : bool := Ascii.eqb a b.

Fixpoint len (s : string) : Z :=
  match s with
  | EmptyString => 0
  | String _ s' => 1 + len s'
  end.

(** [c in s] for a one-character [c]. *)
Fixpoint contains (c : ascii) (s : string) : bool :=
  match s with
  | EmptyString => false
  | String a s' => chr_eqb a c || contains c s'
  end.

(** [s.find(c)]: index of the first occurrence, [-1] when there is none. *)
Fixpoint find (c : ascii) (s : string) : Z :=
  match s with
  | EmptyString => -1
  | String a s' =>
      if chr_eqb a c then 0
      else let i := find c s' in if i <? 0 then -1 else 1 + i
  end.

(** [s.rfind(c)]: index of the last occurrence, [-1] when there is none. *)
Fixpoint rfind (c : ascii) (s : string) : Z :=
  match s with
  | EmptyString => -1
  | String a s' =>
      let i := rfind c s' in
      if 0 <=? i then 1 + i else if chr_eqb a c then 0 else -1
  end.

(** [s.split(c)]: never empty, one more piece than occurrences of [c]. *)
Fixpoint split (c : ascii) (s : string) : list string :=
  match s with
  | EmptyString => [EmptyString]
  | String a s' =>
      if chr_eqb a c then EmptyString :: split c s'
      else match split c s' with
           | [] => [String a EmptyString]
           | h :: t => String a h :: t
           end
  end.

(** [s.split(c, 1)]: at most one cut, at the first occurrence. *)
Fixpoint split1 (c : ascii) (s : string) : list string :=
  match s with
  | EmptyString => [EmptyString]
  | String a s' =>
      if chr_eqb a c then [EmptyString; s']
      else match split1 c s' with
           | [] => [String a EmptyString]
           | h :: t => String a h :: t
           end
  end.

(** [s.replace(c, "")]. *)
Fixpoint remove (c : ascii) (s : string) : string :=
  match s with
  | EmptyString => EmptyString
  | String a s' => if chr_eqb a c then remove c s' else String a (remove c s')
  end.

(** [s.rstrip(c)]. *)
Fixpoint rstrip (c : ascii) (s : string) : string :=
  match s with
  | EmptyString => EmptyString
  | String a s' =>
      match rstrip c s' with
      | EmptyString => if chr_eqb a c then EmptyString else String a EmptyString
      | r => String a r
      end
  end.

Fixpoint take (n : nat) (s : string) : string :=
  match n, s with
  | S n', String a s' => String a (take n' s')
  | _, _ => EmptyString
  end.

Fixpoint drop (n : nat) (s : string) : string :=
  match n, s with
  | S n', String _ s' => drop n' s'
  | _, _ => s
  end.

(** A slice bound as Python reads it: negative counts from the end, and
    the result is clamped to [0 .. len s]. *)
Definition bound (s : string) (k : Z) : nat :=
  Z.to_nat (Z.min (len s) (if k <? 0 then Z.max 0 (len s + k) else k)).

(** [s[0:k]] and [s[k:]]. *)
Definition slice_to (s : string) (k : Z) : string := take (bound s k) s.
Definition slice_from (s : string) (k : Z) : string := drop (bound s k) s.

Fixpoint startswith (p s : string) : bool :=
  match p, s with
  | EmptyString, _ => true
  | String a p', String b s' => chr_eqb a b && startswith p' s'
  | String _ _, EmptyString => false
  end.

Definition endswith (p s : string) : bool :=
  (len p <=? len s) && String.eqb (slice_from s (len s - len p)) p.

(** [seq[-1]] of a list of strings (every list the program indexes this
    way comes from [split] and is not empty). *)
Definition last_piece (l : list string) : result string :=
  match rev l with
  | [] => Raise IndexError
  | x :: _ => Ok x
  end.

(** *** [int(s)] *)

Definition digit_value (a : ascii) : option Z :=
  let n := Z.of_N (N_of_ascii a) in
  if (48 <=? n) && (n <=? 57) then Some (n - 48) else None.

(** White space as [int] skips it in front of and behind an ASCII
    text. *)
Definition is_space (a : ascii) : bool :=
  match a with
  | "009" | "010" | "011" | "012" | "013" | " " => true
  | _ => false
  end%char.

Fixpoint lstrip_space (s : string) : string :=
  match s with
  | String a s' => if is_space a then lstrip_space s' else s
  | EmptyString => EmptyString
  end.

Fixpoint rstrip_space (s : string) : string :=
  match s with
  | EmptyString => EmptyString
  | String a s' =>
      match rstrip_space s' with
      | EmptyString => if is_space a then EmptyString else String a EmptyString
      | r => String a r
      end
  end.

(** Where the digit scanner stands: nothing read yet, just after a
    digit, or just after an underscore. *)
Inductive scan := AtStart | AfterDigit | AfterUnderscore.

(** Decimal digits with single underscores allowed between two digits. *)
Fixpoint digits (st : scan) (acc : Z) (s : string) : option Z :=
  match s with
  | EmptyString =>
      match st with AfterDigit => Some acc | _ => None end
  | String a s' =>
      match digit_value a with
      | Some d => digits AfterDigit (10 * acc + d) s'
      | None =>
          if chr_eqb a "_"%char then
            match st with
            | AfterDigit => digits AfterUnderscore acc s'
            | _ => None
            end
          else None
      end
  end.

(** The decimal digits beyond ASCII (Unicode 14.0, the version of
    CPython 3.11): each entry is the code point of a digit zero, which the
    digits one to nine of its script follow. *)
Definition decimal_zeros : list N :=
  [1632; 1776; 1984; 2406; 2534; 2662; 2790; 2918; 3046; 3174; 3302; 3430;
   3558; 3664; 3792; 3872; 4160; 4240; 6112; 6160; 6470; 6608; 6784; 6800;
   6992; 7088; 7232; 7248; 42528; 43216; 43264; 43472; 43504; 43600; 44016;
   65296; 66720; 68912; 69734; 69872; 69942; 70096; 70384; 70736; 70864;
   71248; 71360; 71472; 71904; 72016; 72784; 73040; 73120; 92768; 92864;
   93008; 120782; 120792; 120802; 120812; 120822; 123200; 123632; 125264;
   130032]%N.

(** The white space beyond ASCII. *)
Definition wide_spaces : list N :=
  [133; 160; 5760; 8192; 8193; 8194; 8195; 8196; 8197; 8198; 8199; 8200;
   8201; 8202; 8232; 8233; 8239; 8287; 12288]%N.

(** What a code point beyond ASCII becomes before the text is read: a
    space, the ASCII digit of its value, or a question mark. *)
Definition narrow (cp : N) : ascii :=
  if existsb (N.eqb cp) wide_spaces then " "%char
  else match List.find (fun z => (z <=? cp) && (cp <? z + 10))%N
                       decimal_zeros with
       | Some z => ascii_of_N (48 + (cp - z))%N
       | None => "?"%char
       end.

(** The six low bits of a continuation byte. *)
Definition continuation (a : ascii) : option N :=
  let n := N_of_ascii a in
  if ((128 <=? n) && (n <? 192))%N then Some (n - 128)%N else None.

(** The text [int] reads in place of a [str]: its UTF-8 text with every
    code point beyond ASCII narrowed.  (A byte that starts no sequence
    becomes a question mark; such a text is the encoding of no [str].) *)
Fixpoint to_ascii (s : string) : string :=
  match s with
  | EmptyString => EmptyString
  | String a s1 =>
      let n := N_of_ascii a in
      if (n <? 128)%N then String a (to_ascii s1)
      else
        match s1 with
        | String b s2 =>
            match continuation b with
            | Some x =>
                if (n <? 194)%N then String "?" (to_ascii s1)
                else if (n <? 224)%N then
                  String (narrow ((n - 192) * 64 + x)%N) (to_ascii s2)
                else
                  match s2 with
                  | String c s3 =>
                      match continuation c with
                      | Some y =>
                          if (n <? 240)%N then
                            String (narrow (((n - 224) * 64 + x) * 64 + y)%N)
                                   (to_ascii s3)
                          else
                            match s3 with
                            | String d s4 =>
                                match continuation d with
                                | Some z =>
                                    if (n <? 245)%N then
                                      String
                                        (narrow ((((n - 240) * 64 + x) * 64 + y)
                                                 * 64 + z)%N)
                                        (to_ascii s4)
                                    else String "?" (to_ascii s1)
                                | None => String "?" (to_ascii s1)
                                end
                            | EmptyString => String "?" (to_ascii s1)
                            end
                      | None => String "?" (to_ascii s1)
                      end
                  | EmptyString => String "?" (to_ascii s1)
                  end
            | None => String "?" (to_ascii s1)
            end
        | EmptyString => String "?" EmptyString
        end
  end.

(** The number of digits of a text. *)
Fixpoint count_digits (s : string) : Z :=
  match s with
  | EmptyString => 0
  | String a s' =>
      (match digit_value a with Some _ => 1 | None => 0 end) + count_digits s'
  end.

(** [sys.get_int_max_str_digits()] as the interpreter sets it at start-up
    (CPython 3.11; interpreters before 3.10.7 have no limit). *)
Definition int_max_str_digits : Z := 4300.

(** [int(s)] for a [str]: digits and white space beyond ASCII are read as
    their ASCII counterparts, surrounding white space is dropped, one sign
    is allowed, the rest is read in base ten; anything else is a
    [ValueError], and so is a number of more than [int_max_str_digits]
    digits. *)
Definition int (s : string) : result Z :=
  let body := rstrip_space (lstrip_space (to_ascii s)) in
  let signed :=
    match body with
    | String "-" r => option_map Z.opp (digits AtStart 0 r)
    | String "+" r => digits AtStart 0 r
    | _ => digits AtStart 0 body
    end in
  match signed with
  | Some z =>
      if int_max_str_digits <? count_digits body then Raise ValueError
      else Ok z
  | None => Raise ValueError
  end.

End PyStr.

(** ** Duration codec *)

(** [a, b = s.split(c)]: exactly two pieces, else the unpacking raises
    [ValueError]. *)
Definition unpack2 (l : list string) : result (string * string) :=
  match l with
  | [a; b] => Ok (a, b)
  | _ => Raise ValueError
  end.

Definition convert_iso8601_duration_to_seconds (iso8601_duration : string)
  : result Z :=
  let dur0 := if PyStr.startswith "PT" iso8601_duration
            then PyStr.slice_from iso8601_duration 2
            else iso8601_duration in
  rbind (if PyStr.contains "H"%char dur0
         then rbind (unpack2 (PyStr.split "H"%char dur0)) (fun '(hours_part, rest) =>
              rbind (PyStr.int hours_part) (fun hours => Ok (hours, rest)))
         else Ok (0, dur0)) (fun '(hours, dur1) =>
  rbind (if PyStr.contains "M"%char dur1
         then rbind (unpack2 (PyStr.split "M"%char dur1)) (fun '(minutes_part, rest) =>
              rbind (PyStr.int minutes_part) (fun minutes => Ok (minutes, rest)))
         else Ok (0, dur1)) (fun '(minutes, dur2) =>
  rbind (if PyStr.contains "S"%char dur2
         then PyStr.int (PyStr.remove "S"%char dur2)
         else Ok 0) (fun seconds =>
  Ok (hours * 3600 + minutes * 60 + seconds)))).

(** ** SHA-256 (FIPS 180-4), as [hashlib.sha256] computes it *)

Module Sha256.

Definition wrap (x : Z) : Z := x mod 2 ^ 32.

Definition rotr (n x : Z) : Z :=
  Z.lor (Z.shiftr x n) (wrap (Z.shiftl x (32 - n))).

Definition ch (x y z : Z) : Z :=
  Z.lxor (Z.land x y) (Z.land (Z.lnot x) z).

Definition maj (x y z : Z) : Z :=
  Z.lxor (Z.lxor (Z.land x y) (Z.land x z)) (Z.land y z).

Definition big_sigma0 (x : Z) : Z :=
  Z.lxor (Z.lxor (rotr 2 x) (rotr 13 x)) (rotr 22 x).
Definition big_sigma1 (x : Z) : Z :=
  Z.lxor (Z.lxor (rotr 6 x) (rotr 11 x)) (rotr 25 x).
Definition small_sigma0 (x : Z) : Z :=
  Z.lxor (Z.lxor (rotr 7 x) (rotr 18 x)) (Z.shiftr x 3).
Definition small_sigma1 (x : Z) : Z :=
  Z.lxor (Z.lxor (rotr 17 x) (rotr 19 x)) (Z.shiftr x 10).

(** The fractional parts of the cube roots of the first sixty-four
    primes, thirty-two bits each. *)
Definition round_constants : list Z :=
  [
   1116352408; 1899447441; 3049323471; 3921009573; 961987163;
   1508970993; 2453635748; 2870763221; 3624381080; 310598401;
   607225278; 1426881987; 1925078388; 2162078206; 2614888103;
   3248222580; 3835390401; 4022224774; 264347078; 604807628;
   770255983; 1249150122; 1555081692; 1996064986; 2554220882;
   2821834349; 2952996808; 3210313671; 3336571891; 3584528711;
   113926993; 338241895; 666307205; 773529912; 1294757372;
   1396182291; 1695183700; 1986661051; 2177026350; 2456956037;
   2730485921; 2820302411; 3259730800; 3345764771; 3516065817;
   3600352804; 4094571909; 275423344; 430227734; 506948616;
   659060556; 883997877; 958139571; 1322822218; 1537002063;
   1747873779; 1955562222; 2024104815; 2227730452; 2361852424;
   2428436474; 2756734187; 3204031479; 3329325298 ].

(** The eight chaining words. *)
Record words : Set := mkWords {
  wa : Z; wb : Z; wc : Z; wd : Z; we : Z; wf : Z; wg : Z; wh : Z
}.

(** The fractional parts of the square roots of the first eight primes. *)
Definition initial_words : words :=
  mkWords 1779033703 3144134277 1013904242 2773480762 1359893119 2600822924 528734635 1541459225.

(** The message followed by the byte [0x80], zero bytes up to 56 modulo
    64, and the bit length of the message on eight bytes, high byte
    first. *)
Definition big_endian (n : nat) (x : Z) : list Z :=
  map (fun i => Z.shiftr x (8 * Z.of_nat i) mod 256) (rev (seq 0 n)).

Definition pad (msg : list Z) : list Z :=
  let l := Z.of_nat (List.length msg) in
  let zeros := Z.to_nat ((55 - l) mod 64) in
  msg ++ [128] ++ repeat 0 zeros ++ big_endian 8 (8 * l).

(** Four bytes to one word, high byte first. *)
Fixpoint to_words (bytes : list Z) : list Z :=
  match bytes with
  | b0 :: b1 :: b2 :: b3 :: rest =>
      (((b0 * 256 + b1) * 256 + b2) * 256 + b3) :: to_words rest
  | _ => []
  end.

(** The message schedule, latest word first: [n] more words after the
    ones at hand. *)
Fixpoint schedule (n : nat) (recent : list Z) : list Z :=
  match n with
  | O => recent
  | S n' =>
      let w := wrap (small_sigma1 (nth 1 recent 0) + nth 6 recent 0
                     + small_sigma0 (nth 14 recent 0) + nth 15 recent 0) in
      schedule n' (w :: recent)
  end.

Definition round (s : words) (kw : Z * Z) : words :=
  let t1 := wh s + big_sigma1 (we s) + ch (we s) (wf s) (wg s)
            + fst kw + snd kw in
  let t2 := big_sigma0 (wa s) + maj (wa s) (wb s) (wc s) in
  mkWords (wrap (t1 + t2)) (wa s) (wb s) (wc s)
          (wrap (wd s + t1)) (we s) (wf s) (wg s).

Definition compress (s : words) (block : list Z) : words :=
  let w := rev (schedule 48 (rev block)) in
  let r := fold_left round (combine round_constants w) s in
  mkWords (wrap (wa s + wa r)) (wrap (wb s + wb r))
          (wrap (wc s + wc r)) (wrap (wd s + wd r))
          (wrap (we s + we r)) (wrap (wf s + wf r))
          (wrap (wg s + wg r)) (wrap (wh s + wh r)).

(** One block of sixteen words after the other; [n] bounds the number of
    blocks. *)
Fixpoint blocks (n : nat) (s : words) (ws : list Z) : words :=
  match n, ws with
  | S n', _ :: _ => blocks n' (compress s (firstn 16 ws)) (skipn 16 ws)
  | _, _ => s
  end.

Definition digest_words (msg : list Z) : words :=
  let ws := to_words (pad msg) in
  blocks (List.length ws) initial_words ws.

Definition hex_digits : list ascii :=
  ["0"; "1"; "2"; "3"; "4"; "5"; "6"; "7";
   "8"; "9"; "a"; "b"; "c"; "d"; "e"; "f"]%char.

Definition hex_digit (x : Z) : ascii :=
  nth (Z.to_nat (x mod 16)) hex_digits "0"%char.

(** A word as eight lower-case hexadecimal digits, followed by [k]. *)
Definition hex8 (w : Z) (k : string) : string :=
  String (hex_digit (Z.shiftr w 28)) (String (hex_digit (Z.shiftr w 24))
  (String (hex_digit (Z.shiftr w 20)) (String (hex_digit (Z.shiftr w 16))
  (String (hex_digit (Z.shiftr w 12)) (String (hex_digit (Z.shiftr w 8))
  (String (hex_digit (Z.shiftr w 4)) (String (hex_digit w) k))))))).

Fixpoint bytes_of (s : string) : list Z :=
  match s with
  | EmptyString => []
  | String a s' => Z.of_N (N_of_ascii a) :: bytes_of s'
  end.

(** [hashlib.sha256(data).hexdigest()] *)
Definition hexdigest (data : string) : string :=
  let s := digest_words (bytes_of data) in
  hex8 (wa s) (hex8 (wb s) (hex8 (wc s) (hex8 (wd s)
  (hex8 (we s) (hex8 (wf s) (hex8 (wg s) (hex8 (wh s) EmptyString))))))).

End Sha256.

(** ** Patterns of the identity extractor *)

Module Re.

(** The character class [[a-zA-Z0-9_-]]. *)
Definition id_char (a : ascii) : bool :=
  let n := N_of_ascii a in
  ((97 <=? n) && (n <=? 122) || (65 <=? n) && (n <=? 90)
   || (48 <=? n) && (n <=? 57) || (n =? 95) || (n =? 45))%N.

(** The longest run of [id_char]s at the head of [s]: what a greedy
    [[a-zA-Z0-9_-]+] group captures when it matches there. *)
Fixpoint id_run (s : string) : string :=
  match s with
  | String a s' => if id_char a then String a (id_run s') else EmptyString
  | EmptyString => EmptyString
  end.

(** [re.match(literal + "([a-zA-Z0-9_-]+)", s)]: [Some] of group 1,
    [None] when there is no match. *)
Definition match_after (literal s : string) : option string :=
  if PyStr.startswith literal s then
    match id_run (PyStr.drop (String.length literal) s) with
    | EmptyString => None
    | g => Some g
    end
  else None.

(** [re.match("^/live/([a-zA-Z0-9_-]+)", path)] *)
Definition livestream_match : string -> option string := match_after "/live/".

(** [re.match("^/([a-zA-Z0-9_-]+)", path)] *)
Definition shortened_match : string -> option string := match_after "/".

End Re.

(** ** [urllib.parse] *)

Module Url.

(** [ParseResult]: the six components [urlparse] returns. *)
Record ParseResult : Set := mkParseResult {
  scheme : string;
  netloc : string;
  path : string;
  params : string;
  query : string;
  fragment : string
}.

Definition lower_chr (a : ascii) : ascii :=
  let n := N_of_ascii a in
  if ((65 <=? n) && (n <=? 90))%N then ascii_of_N (n + 32) else a.

Fixpoint lower (s : string) : string :=
  match s with
  | EmptyString => EmptyString
  | String a s' => String (lower_chr a) (lower s')
  end.

Definition is_alpha (a : ascii) : bool :=
  let n := N_of_ascii a in
  ((97 <=? n) && (n <=? 122) || (65 <=? n) && (n <=? 90))%N.

(** [scheme_chars]: letters, digits, [+], [-] and [.]. *)
Definition scheme_char (a : ascii) : bool :=
  let n := N_of_ascii a in
  (is_alpha a || (48 <=? n) && (n <=? 57)
   || (n =? 43) || (n =? 45) || (n =? 46))%N.

Fixpoint all_chars (p : ascii -> bool) (s : string) : bool :=
  match s with
  | EmptyString => true
  | String a s' => p a && all_chars p s'
  end.

(** Leading C0 control characters and spaces are dropped. *)
Fixpoint lstrip_c0 (s : string) : string :=
  match s with
  | String a s' => if (N_of_ascii a <=? 32)%N then lstrip_c0 s' else s
  | EmptyString => EmptyString
  end.

(** Tab, line feed and carriage return are removed wherever they stand. *)
Definition remove_unsafe (s : string) : string :=
  PyStr.remove "010" (PyStr.remove "013" (PyStr.remove "009" s)).

(** The scheme, when the text before the first colon is one. *)
Definition split_scheme (url : string) : string * string :=
  let i := PyStr.find ":" url in
  let head := PyStr.slice_to url i in
  match url with
  | String a _ =>
      if (0 <? i) && is_alpha a && all_chars scheme_char head
      then (lower head, PyStr.slice_from url (i + 1))
      else (EmptyString, url)
  | EmptyString => (EmptyString, url)
  end.

Definition is_delim (a : ascii) : bool :=
  PyStr.chr_eqb a "/" || PyStr.chr_eqb a "?" || PyStr.chr_eqb a "#".

(** [_splitnetloc]: the text up to the first of [/], [?], [#], and the
    rest from that character on. *)
Fixpoint splitnetloc (s : string) : string * string :=
  match s with
  | EmptyString => (EmptyString, EmptyString)
  | String a s' =>
      if is_delim a then (EmptyString, s)
      else let '(n, r) := splitnetloc s' in (String a n, r)
  end.

(** [a, b = s.split(c, 1)] when [c] is in [s]. *)
Definition cut (c : ascii) (s : string) : string * string :=
  match PyStr.split1 c s with
  | [a; b] => (a, b)
  | _ => (s, EmptyString)
  end.

(** [urlsplit].  A host with one square bracket and not the other is a
    [ValueError]; the further checks of a bracketed host and of a
    non-ASCII host are left out. *)
Definition urlsplit (url0 : string)
  : result (string * string * string * string * string) :=
  let url1 := remove_unsafe (lstrip_c0 url0) in
  let '(sch, url2) := split_scheme url1 in
  rbind (if PyStr.startswith "//" url2 then
           let '(nl, rest) := splitnetloc (PyStr.drop 2 url2) in
           if xorb (PyStr.contains "[" nl) (PyStr.contains "]" nl)
           then Raise ValueError else Ok (nl, rest)
         else Ok (EmptyString, url2)) (fun '(nl, url3) =>
  let '(url4, frag) :=
    if PyStr.contains "#" url3 then cut "#" url3 else (url3, EmptyString) in
  let '(url5, qry) :=
    if PyStr.contains "?" url4 then cut "?" url4 else (url4, EmptyString) in
  Ok (sch, nl, url5, qry, frag)).

Definition uses_params : list string :=
  [""; "ftp"; "hdl"; "prospero"; "http"; "imap"; "https"; "shttp"; "rtsp";
   "rtspu"; "sip"; "sips"; "mms"; "sftp"; "tel"].

Definition uses_netloc : list string :=
  [""; "ftp"; "http"; "gopher"; "nntp"; "telnet"; "imap"; "wais"; "file";
   "mms"; "https"; "shttp"; "snews"; "prospero"; "rtsp"; "rtspu"; "rsync";
   "svn"; "svn+ssh"; "sftp"; "nfs"; "git"; "git+ssh"; "ws"; "wss";
   "itms-services"].

Definition mem (x : string) (l : list string) : bool :=
  existsb (String.eqb x) l.

(** [_splitparams]: the parameters follow the first [;] of the last path
    segment. *)
Definition splitparams (url : string) : string * string :=
  let k := if PyStr.contains "/" url then PyStr.rfind "/" url else 0 in
  let j := PyStr.find ";" (PyStr.slice_from url k) in
  if j <? 0 then (url, EmptyString)
  else (PyStr.slice_to url (k + j), PyStr.slice_from url (k + j + 1)).

Definition urlparse (url : string) : result ParseResult :=
  rbind (urlsplit url) (fun '(sch, nl, p, qry, frag) =>
  let '(p', prm) :=
    if mem sch uses_params && PyStr.contains ";" p
    then splitparams p else (p, EmptyString) in
  Ok (mkParseResult sch nl p' prm qry frag)).

Definition nonempty (s : string) : bool :=
  match s with EmptyString => false | _ => true end.

(** [ParseResult.geturl()], that is [urlunparse]. *)
Definition geturl (u : ParseResult) : string :=
  let url0 := if nonempty (params u) then path u +:+ ";" +:+ params u
              else path u in
  let url1 :=
    if nonempty (netloc u)
       || (nonempty (scheme u) && mem (scheme u) uses_netloc
           && negb (PyStr.startswith "//" url0))
    then "//" +:+ netloc u +:+
         (if nonempty url0 && negb (PyStr.startswith "/" url0)
          then "/" +:+ url0 else url0)
    else url0 in
  let url2 := if nonempty (scheme u) then scheme u +:+ ":" +:+ url1 else url1 in
  let url3 := if nonempty (query u) then url2 +:+ "?" +:+ query u else url2 in
  if nonempty (fragment u) then url3 +:+ "#" +:+ fragment u else url3.

(** *** [parse_qs] *)

Definition hex_value (a : ascii) : option N :=
  let n := N_of_ascii a in
  (if (48 <=? n) && (n <=? 57) then Some (n - 48)
   else if (97 <=? n) && (n <=? 102) then Some (n - 87)
   else if (65 <=? n) && (n <=? 70) then Some (n - 55)
   else None)%N.

(** [unquote]: each [%XX] with two hexadecimal digits becomes the byte
    [XX]; the bytes are kept as they are (an escape that is not UTF-8
    would be replaced by Python). *)
Fixpoint unquote (s : string) : string :=
  match s with
  | String "%" (String h (String l r) as s') =>
      match hex_value h, hex_value l with
      | Some x, Some y => String (ascii_of_N (16 * x + y)) (unquote r)
      | _, _ => String "%" (unquote s')
      end
  | String a s' => String a (unquote s')
  | EmptyString => EmptyString
  end.

Fixpoint plus_to_space (s : string) : string :=
  match s with
  | EmptyString => EmptyString
  | String a s' =>
      String (if PyStr.chr_eqb a "+" then " "%char else a) (plus_to_space s')
  end.

(** [parse_qsl] with its defaults: fields are cut at [&]; a field with no
    [=] or with an empty value is skipped. *)
Definition parse_qsl (qs : string) : list (string * string) :=
  flat_map (fun name_value =>
    match PyStr.split1 "=" name_value with
    | [n; v] =>
        if nonempty v
        then [(unquote (plus_to_space n), unquote (plus_to_space v))]
        else []
    | _ => []
    end) (PyStr.split "&" qs).

(** [parse_qs]: every name with the list of its values in order. *)
Definition parse_qs (qs : string) : gmap string (list string) :=
  fold_left (fun d '(n, v) =>
    match d !! n with
    | Some vs => <[n := vs ++ [v]]> d
    | None => <[n := [v]]> d
    end) (parse_qsl qs) ∅.

End Url.

Import Url.

(** ** Identity extractor of the managed platform *)

(** [extract_video_id]: [Ok None] is Python's [None]. *)
Definition extract_video_id (url_components : ParseResult)
  : result (option string) :=
  let path := path url_components in
  let query_params := parse_qs (query url_components) in
  if String.eqb path "/watch" then
    match query_params !! "v" with
    | None => Raise KeyError
    | Some [] => Raise IndexError
    | Some (v :: _) => Ok (Some v)
    end
  else
    match Re.livestream_match path, Re.shortened_match path with
    | Some g, _ => Ok (Some g)
    | None, Some g => Ok (Some g)
    | None, None => Ok None
    end.

(** ** Python values, dictionaries and dates *)

(** The scalar values a provider record or a normalised record holds. *)
Inductive pyval : Set :=
  | PNone
  | PInt (z : Z)
  | PFloat (f : float)
  | PStr (s : string).

(** A [dict] with [str] keys read and written by key. *)
Abbreviation pydict := (gmap string pyval).

(** [d.get(k)]: [None] for a missing key. *)
Definition dict_get (d : pydict) (k : string) : pyval := default PNone (d !! k).

(** Truth value of a [dict]: false exactly when it is empty. *)
Definition truthy (d : pydict) : bool := negb (Nat.eqb (size d) 0).

(** The float nearest to an integer (exact below [2^53]). *)
Definition float_of_Z (z : Z) : float :=
  if z <? 0 then PrimFloat.opp (PrimFloat.of_uint63 (Uint63.of_Z (- z)))
  else PrimFloat.of_uint63 (Uint63.of_Z z).

Definition str_of_Z (z : Z) : string := NilZero.string_of_int (Z.to_int z).

Module Date.

Definition is_leap (y : Z) : bool :=
  (y mod 4 =? 0) && (negb (y mod 100 =? 0) || (y mod 400 =? 0)).

Definition days_in_month (y m : Z) : Z :=
  if m =? 2 then (if is_leap y then 29 else 28)
  else if (m =? 4) || (m =? 6) || (m =? 9) || (m =? 11) then 30 else 31.

(** Days from 1970-01-01 to the given day of the proleptic Gregorian
    calendar. *)
Definition days_from_civil (y m d : Z) : Z :=
  let y' := if m <=? 2 then y - 1 else y in
  let era := y' / 400 in
  let yoe := y' - era * 400 in
  let doy := (153 * (if 2 <? m then m - 3 else m + 9) + 2) / 5 + d - 1 in
  let doe := yoe * 365 + yoe / 4 - yoe / 100 + doy in
  era * 146097 + doe - 719468.

Definition digit_in (lo hi : Z) (a : ascii) : option Z :=
  match PyStr.digit_value a with
  | Some d => if (lo <=? d) && (d <=? hi) then Some d else None
  | None => None
  end.

(** The alternatives of a directive, in the order the pattern lists them:
    each gives the value read and the text left. *)
Definition month_alternatives (s : string) : list (Z * string) :=
  match s with
  | String a s1 =>
      (match a, s1 with
       | "1"%char, String b s2 =>
           match digit_in 0 2 b with Some d => [(10 + d, s2)] | None => [] end
       | _, _ => []
       end) ++
      (match a, s1 with
       | "0"%char, String b s2 =>
           match digit_in 1 9 b with Some d => [(d, s2)] | None => [] end
       | _, _ => []
       end) ++
      (match digit_in 1 9 a with Some d => [(d, s1)] | None => [] end)
  | EmptyString => []
  end.

Definition day_alternatives (s : string) : list (Z * string) :=
  match s with
  | String a s1 =>
      (match a, s1 with
       | "3"%char, String b s2 =>
           match digit_in 0 1 b with Some d => [(30 + d, s2)] | None => [] end
       | _, _ => []
       end) ++
      (match digit_in 1 2 a, s1 with
       | Some t, String b s2 =>
           match digit_in 0 9 b with Some d => [(10 * t + d, s2)] | None => [] end
       | _, _ => []
       end) ++
      (match a, s1 with
       | "0"%char, String b s2 =>
           match digit_in 1 9 b with Some d => [(d, s2)] | None => [] end
       | _, _ => []
       end) ++
      (match digit_in 1 9 a with Some d => [(d, s1)] | None => [] end) ++
      (match a, s1 with
       | " "%char, String b s2 =>
           match digit_in 1 9 b with Some d => [(d, s2)] | None => [] end
       | _, _ => []
       end)
  | EmptyString => []
  end.

Definition year_digits (s : string) : option (Z * string) :=
  match s with
  | String a (String b (String c (String d r))) =>
      match PyStr.digit_value a, PyStr.digit_value b,
            PyStr.digit_value c, PyStr.digit_value d with
      | Some x3, Some x2, Some x1, Some x0 =>
          Some (((x3 * 10 + x2) * 10 + x1) * 10 + x0, r)
      | _, _, _, _ => None
      end
  | _ => None
  end.

(** [datetime.strptime(s, "%Y%m%d")] followed by
    [pytz.utc.localize(...).timestamp()], as whole seconds: the first
    month alternative that a day alternative can follow is taken, the
    whole text must be used up and the day must exist. *)
Definition strptime_Ymd (s : string) : result Z :=
  match year_digits s with
  | None => Raise ValueError
  | Some (y, r1) =>
      let found :=
        flat_map (fun '(m, r2) =>
          map (fun '(d, r3) => (m, d, r3)) (day_alternatives r2))
          (month_alternatives r1) in
      match found with
      | (m, d, EmptyString) :: _ =>
          if (1 <=? y) && (d <=? days_in_month y m)
          then Ok (86400 * days_from_civil y m d)
          else Raise ValueError
      | _ => Raise ValueError
      end
  end.

End Date.

(** ** The outside world *)

(** One item of the video API's answer: the parts of [snippet] and
    [contentDetails] the program reads. *)
Record yt_item : Set := mkYtItem {
  snippet_title : string;
  snippet_channelTitle : string;
  snippet_publishedAt : string;
  contentDetails_duration : string
}.

(** A record of the extraction library: the two identity fields it always
    sets, and the fields the program reads with [get]. *)
Record ydl_info : Set := mkYdlInfo {
  display_id : string;
  webpage_url_domain : string;
  fields : pydict
}.

(** What [extract_info] does: it raises [DownloadError], or returns one
    record, or a collection with its [entries]. *)
Inductive ydl_outcome : Set :=
  | DownloadError
  | Info (r : ydl_info)
  | Entries (l : list ydl_info).

Record world : Type := mkWorld {
  (** [response["items"]] of [yt.videos().list(..., id=video_id).execute()] *)
  yt_videos_list : string -> list yt_item;
  (** [ydl.extract_info(url, download=False)] *)
  ydl_extract_info : string -> ydl_outcome;
  (** [int(datetime.fromisoformat(s).timestamp())], which depends on the
      interpreter's version and, for a time without offset, on the host's
      time zone *)
  fromisoformat_timestamp : string -> result Z;
  (** [str] of a float *)
  float_repr : float -> string
}.

(** ** State: the two caches and the log of provider calls *)

Record state : Type := mkState {
  yt_cache : gmap string pydict;
  ytdlp_cache : gmap string (gmap string pydict);
  yt_calls : list string;
  ydl_calls : list string
}.

Definition M (A : Type) : Type := state -> result A * state.

Definition ret {A : Type} (a : A) : M A := fun st => (Ok a, st).

Definition lift {A : Type} (r : result A) : M A := fun st => (r, st).

Definition bind {A B : Type} (m : M A) (k : A -> M B) : M B :=
  fun st =>
    match m st with
    | (Ok a, st') => k a st'
    | (Raise e, st') => (Raise e, st')
    end.

Definition get_state : M state := fun st => (Ok st, st).

Definition modify (f : state -> state) : M unit := fun st => (Ok tt, f st).

Notation "'do' x <- m ; k" := (bind m (fun x => k))
  (at level 10, x name, m at level 100, k at level 200,
   format "'[v' 'do'  x  <-  m ; '/' k ']'").

(** ** Pseudonymizer *)

(** [hash_str]: an argument without [encode] is an [AttributeError]. *)
Definition hash_str (v : pyval) : result string :=
  match v with
  | PStr string => Ok (PyStr.take 5 (Sha256.hexdigest string))
  | _ => Raise AttributeError
  end.

(** ** Managed-platform adapter *)

(** A rejection object. *)
Definition invalid (reason : string) : pydict := {[ "Invalid" := PStr reason ]}.

(** The four-key record both adapters build. *)
Definition make_video_data (title uploader upload_date duration : pyval)
  : pydict :=
  <["title" := title]> (<["uploader" := uploader]>
  (<["upload_date" := upload_date]> (<["duration" := duration]> ∅))).

(** [cache.get(key)] followed by the truth test [if video_data:]. *)
Definition cache_hit (cache : gmap string pydict) (key : string)
  : option pydict :=
  match cache !! key with
  | Some video_data => if truthy video_data then Some video_data else None
  | None => None
  end.

Definition log_yt_call (video_id : string) : M unit :=
  modify (fun st => mkState (yt_cache st) (ytdlp_cache st)
                            (yt_calls st ++ [video_id]) (ydl_calls st)).

Definition log_ydl_call (url : string) : M unit :=
  modify (fun st => mkState (yt_cache st) (ytdlp_cache st)
                            (yt_calls st) (ydl_calls st ++ [url])).

(** [yt_cache[video_id] = video_data] *)
Definition store_yt (video_id : string) (video_data : pydict) : M unit :=
  modify (fun st => mkState (<[video_id := video_data]> (yt_cache st))
                            (ytdlp_cache st) (yt_calls st) (ydl_calls st)).

Definition fetch_youtube (w : world) (url_components : ParseResult)
  : M pydict :=
  do extracted <- lift (extract_video_id url_components);
  match extracted with
  | None | Some EmptyString => ret (invalid "No video id present")
  | Some video_id =>
      do st <- get_state;
      match cache_hit (yt_cache st) video_id with
      | Some video_data => ret video_data
      | None =>
          do _ <- log_yt_call video_id;
          match yt_videos_list w video_id with
          | [] => ret (invalid "Url doesn't point to a video")
          | response_item :: _ =>
              do upload_date <- lift (fromisoformat_timestamp w
                                        (snippet_publishedAt response_item));
              do duration <- lift (convert_iso8601_duration_to_seconds
                                     (contentDetails_duration response_item));
              let video_data :=
                make_video_data (PStr (snippet_title response_item))
                                (PStr (snippet_channelTitle response_item))
                                (PInt upload_date) (PInt duration) in
              do _ <- store_yt video_id video_data;
              ret video_data
          end
      end
  end.

(** ** Quirk engine *)

Definition accepted_domains : list string :=
  ["dailymotion.com"; "pony.tube"; "vimeo.com"; "bilibili.com";
   "thishorsie.rocks"; "tiktok.com"; "twitter.com"; "x.com"; "odysee.com";
   "newgrounds.com"].

(** What a rule set stores under a key: [None], a [str], or a function of
    the provider record. *)
Inductive correction : Type :=
  | CNull
  | CStr (s : string)
  | CFun (f : pydict -> result pyval).

(** The rule set: a [dict] in insertion order. *)
Definition changes : Type := list (string * correction).

(** [d[k] = v]: a present key keeps its place, a new one goes last. *)
Fixpoint chg_set (k : string) (v : correction) (d : changes) : changes :=
  match d with
  | [] => [(k, v)]
  | (k', v') :: t =>
      if String.eqb k k' then (k, v) :: t else (k', v') :: chg_set k v t
  end.

Fixpoint chg_get (k : string) (d : changes) : option correction :=
  match d with
  | [] => None
  | (k', v') :: t => if String.eqb k k' then Some v' else chg_get k t
  end.

(** The dictionary left by [d.pop(k)]. *)
Fixpoint chg_del (k : string) (d : changes) : changes :=
  match d with
  | [] => []
  | (k', v') :: t =>
      if String.eqb k k' then t else (k', v') :: chg_del k t
  end.

(** [str(v)], as an f-string field formats it. *)
Definition py_str (w : world) (v : pyval) : string :=
  match v with
  | PNone => "None"
  | PInt z => str_of_Z z
  | PFloat f => float_repr w f
  | PStr s => s
  end.

(** The two title functions. *)
Definition x_post_title (w : world) (vid_data : pydict) : result pyval :=
  let who := py_str w (dict_get vid_data "uploader_id") in
  rbind (hash_str (dict_get vid_data "title")) (fun h =>
  Ok (PStr ("X post by " +:+ who +:+ " (" +:+ h +:+ ")"))).

Definition tiktok_title (w : world) (vid_data : pydict) : result pyval :=
  let who := py_str w (dict_get vid_data "uploader") in
  rbind (hash_str (dict_get vid_data "title")) (fun h =>
  Ok (PStr ("Tiktok video by " +:+ who +:+ " (" +:+ h +:+ ")"))).

(** [site]: the label before the registrable suffix. *)
Definition site_of (url_components : ParseResult) : result string :=
  match PyStr.split "." (netloc url_components) with
  | [a; _] => Ok a
  | _ :: b :: _ => Ok b
  | _ => Raise IndexError
  end.

(** [preprocess], with a bound on the depth of its recursion: [None] when
    the bound is reached.  ([preprocess_depth] below shows that depth two
    is never exceeded.) *)
Fixpoint preprocess_fuel (fuel : nat) (w : world) (url_components : ParseResult)
  : option (result changes) :=
  match fuel with
  | O => None
  | S fuel' =>
      match site_of url_components with
      | Raise e => Some (Raise e)
      | Ok site =>
          if String.eqb site "x" then
            let new_url := "https://twitter.com" +:+ path url_components in
            match urlparse new_url with
            | Raise e => Some (Raise e)
            | Ok parsed =>
                match preprocess_fuel fuel' w parsed with
                | None => None
                | Some (Raise e) => Some (Raise e)
                | Some (Ok changes0) =>
                    Some (Ok (chg_set "url" (CStr new_url) changes0))
                end
            end
          else if String.eqb site "twitter" then
            let changes1 :=
              chg_set "title" (CFun (x_post_title w))
                (chg_set "channel" (CStr "uploader_id") []) in
            let url := geturl url_components in
            let k := PyStr.rfind "/" url in
            if PyStr.endswith "/video" (PyStr.slice_to url k) then
              match PyStr.int (PyStr.slice_from url (k + 1)) with
              | Raise e => Some (Raise e)
              | Ok index =>
                  if negb (index =? 1)
                  then Some (Ok (chg_set "duration" CNull changes1))
                  else Some (Ok changes1)
              end
            else Some (Ok changes1)
          else if String.eqb site "newgrounds" then
            Some (Ok (chg_set "channel" (CStr "uploader") []))
          else if String.eqb site "tiktok" then
            Some (Ok (chg_set "title" (CFun (tiktok_title w))
                        (chg_set "channel" (CStr "uploader") [])))
          else if String.eqb site "bilibili" then
            Some (Ok (chg_set "channel" (CStr "uploader") []))
          else Some (Ok [])
      end
  end.

Definition preprocess (w : world) (url_components : ParseResult)
  : result changes :=
  match preprocess_fuel 2 w url_components with
  | Some r => r
  | None => Ok []
  end.

(** ** Generic-extraction adapter *)

(** The cache as the module creates it: one empty partition per accepted
    domain. *)
Definition ytdlp_cache_init : gmap string (gmap string pydict) :=
  list_to_map (map (fun domain => (domain, ∅)) accepted_domains).

Definition initial_state : state := mkState ∅ ytdlp_cache_init [] [].

(** The domain the allow-list is asked about: the first label is dropped
    when the host has more than one dot. *)
Definition normalized_netloc (netloc : string) : result string :=
  if negb (PyStr.find "." netloc =? PyStr.rfind "." netloc) then
    match PyStr.split1 "." netloc with
    | _ :: rest :: _ => Ok rest
    | _ => Raise IndexError
    end
  else Ok netloc.

Definition first_piece (l : list string) : result string :=
  match l with
  | x :: _ => Ok x
  | [] => Raise IndexError
  end.

(** [path.split("?")[0].rstrip("/").split("/")[-1]] *)
Definition last_segment (path : string) : result string :=
  rbind (first_piece (PyStr.split "?" path)) (fun p =>
  PyStr.last_piece (PyStr.split "/" (PyStr.rstrip "/" p))).

(** One entry of the rule set applied to the provider record. *)
Definition apply_correction (response : pydict) (entry : string * correction)
  : result pydict :=
  let '(response_key, corrected) := entry in
  match corrected with
  | CNull => Ok (<[response_key := PNone]> response)
  | CStr key => Ok (<[response_key := dict_get response key]> response)
  | CFun f => rbind (f response) (fun v => Ok (<[response_key := v]> response))
  end.

Fixpoint apply_corrections (response : pydict) (d : changes) : result pydict :=
  match d with
  | [] => Ok response
  | entry :: rest =>
      rbind (apply_correction response entry) (fun response' =>
      apply_corrections response' rest)
  end.

(** [datetime.strptime(v, "%Y%m%d")], made aware in UTC, [.timestamp()]. *)
Definition upload_timestamp (v : pyval) : result pyval :=
  match v with
  | PStr s => rbind (Date.strptime_Ymd s) (fun secs => Ok (PFloat (float_of_Z secs)))
  | _ => Raise TypeError
  end.

(** [ytdlp_cache[domain][key] = video_data] *)
Definition store_ytdlp (domain key : string) (video_data : pydict) : M unit :=
  fun st =>
    match ytdlp_cache st !! domain with
    | None => (Raise KeyError, st)
    | Some partition =>
        (Ok tt, mkState (yt_cache st)
                        (<[domain := <[key := video_data]> partition]>
                           (ytdlp_cache st))
                        (yt_calls st) (ydl_calls st))
    end.

(** The url handed to the library: the rule set's own, when it has one,
    which is then taken out of the rule set. *)
Definition fetch_target (url : string) (preprocess_changes : changes)
  : result (string * changes) :=
  match preprocess_changes with
  | [] => Ok (url, preprocess_changes)
  | _ =>
      match chg_get "url" preprocess_changes with
      | Some (CStr u) =>
          if nonempty u then Ok (u, chg_del "url" preprocess_changes)
          else Ok (url, preprocess_changes)
      | Some (CFun _) => Raise TypeError
      | Some CNull | None => Ok (url, preprocess_changes)
      end
  end.

(** The part of [fetch_ytdlp] that follows a successful extraction:
    corrections, upload date, the record, the cache entry. *)
Definition normalize_info (info : ydl_info) (preprocess_changes : changes)
  : M pydict :=
  do response <- lift (apply_corrections (fields info) preprocess_changes);
  do upload_date <- lift (upload_timestamp (dict_get response "upload_date"));
  let video_data :=
    make_video_data (dict_get response "title")
                    (dict_get response "channel")
                    upload_date
                    (dict_get response "duration") in
  do _ <- store_ytdlp (webpage_url_domain info) (display_id info) video_data;
  ret video_data.

Definition fetch_ytdlp (w : world) (url_components : ParseResult) : M pydict :=
  do netloc <- lift (normalized_netloc (netloc url_components));
  if negb (mem netloc accepted_domains) then
    ret (invalid "Url not from an accepted domain")
  else
    do video_id <- lift (last_segment (path url_components));
    do st <- get_state;
    match ytdlp_cache st !! netloc with
    | None => lift (Raise KeyError)
    | Some partition =>
        match cache_hit partition video_id with
        | Some video_data => ret video_data
        | None =>
            do preprocess_changes <- lift (preprocess w url_components);
            do target <- lift (fetch_target (geturl url_components)
                                            preprocess_changes);
            do _ <- log_ydl_call (fst target);
            match ydl_extract_info w (fst target) with
            | DownloadError => ret (invalid "Url doesn't point to a video")
            | Info response => normalize_info response (snd target)
            | Entries [] => lift (Raise IndexError)
            | Entries (response :: _) => normalize_info response (snd target)
            end
        end
    end.

(** ** Dispatcher *)

Definition youtube_domains : list string :=
  ["m.youtube.com"; "www.youtube.com"; "youtube.com"; "youtu.be"].

(** A list comprehension over a fallible function: the first exception
    ends it. *)
Fixpoint map_result {A B : Type} (f : A -> result B) (l : list A)
  : result (list B) :=
  match l with
  | [] => Ok []
  | a :: t => rbind (f a) (fun b => rbind (map_result f t) (fun bs => Ok (b :: bs)))
  end.

Fixpoint map_M {A B : Type} (f : A -> M B) (l : list A) : M (list B) :=
  match l with
  | [] => ret []
  | a :: t => do b <- f a; do bs <- map_M f t; ret (b :: bs)
  end.

(** The adapter one parsed url goes to. *)
Definition route (w : world) (url_components : ParseResult) : M pydict :=
  if mem (netloc url_components) youtube_domains
  then fetch_youtube w url_components
  else fetch_ytdlp w url_components.

Definition update_item (w : world) (urls : list string) : M (list pydict) :=
  do urls <- lift (map_result urlparse urls);
  map_M (route w) urls.

(** ** A sample world *)

(** A post as the extraction library reports it. *)
Definition sample_fields : pydict :=
  <["uploader_id" := PStr "abc"]> (<["title" := PStr "hello"]>
  (<["upload_date" := PStr "20240501"]>
  (<["duration" := PFloat 30.5%float]> ∅))).

(** One video on the managed platform, one post behind two urls of the
    other provider, nothing else. *)
Definition sample_world : world :=
  mkWorld
    (fun video_id =>
       if String.eqb video_id "abc"
       then [mkYtItem "T" "C" "2024-05-01T00:00:00Z" "PT1H2M3S"] else [])
    (fun url =>
       if String.eqb url "https://twitter.com/u/status/7"
          || String.eqb url "https://twitter.com/u/status/7/video/2"
       then Info (mkYdlInfo "7" "twitter.com" sample_fields)
       else DownloadError)
    (fun s =>
       if String.eqb s "2024-05-01T00:00:00Z" then Ok 1714521600
       else Raise ValueError)
    (fun _ => "nan").

(** The records the two adapters build from them. *)
Definition sample_post_record : pydict :=
  make_video_data (PStr "X post by abc (2cf24)") (PStr "abc")
                  (PFloat 1714521600%float) (PFloat 30.5%float).

Definition sample_video_record : pydict :=
  make_video_data (PStr "T") (PStr "C") (PInt 1714521600) (PInt 3723).

(** The post as a request for its second video leaves it in the cache:
    no duration. *)
Definition sample_post_without_duration : pydict :=
  make_video_data (PStr "X post by abc (2cf24)") (PStr "abc")
                  (PFloat 1714521600%float) PNone.

(** The record a provider outcome stands for, when it has one. *)
Definition first_record (o : ydl_outcome) : option ydl_info :=
  match o with
  | Info r => Some r
  | Entries (r :: _) => Some r
  | _ => None
  end.

(** The state after the library was called with [url]. *)
Definition logged_ydl (st : state) (url : string) : state :=
  mkState (yt_cache st) (ytdlp_cache st) (yt_calls st) (ydl_calls st ++ [url]).

(** The state after the video API was called with [video_id]. *)
Definition logged_yt (st : state) (video_id : string) : state :=
  mkState (yt_cache st) (ytdlp_cache st) (yt_calls st ++ [video_id])
          (ydl_calls st).

(** The two rules every [twitter.com] rule set starts with. *)
Definition twitter_base (w : world) : changes :=
  [("channel", CStr "uploader_id"); ("title", CFun (x_post_title w))].

(** The url an [x.com] request is rewritten to. *)
Definition twitter_url (url_components : ParseResult) : string :=
  "https://twitter.com" +:+ path url_components.

(** The components of that url when the path is a plain one. *)
Definition twitter_components (url_components : ParseResult) : ParseResult :=
  mkParseResult "https" "twitter.com" (path url_components) "" "" "".

(** A character that ends the path or is dropped by the parser. *)
Definition path_breaker (c : ascii) : bool :=
  PyStr.chr_eqb c "?" || PyStr.chr_eqb c "#"
  || PyStr.chr_eqb c "009" || PyStr.chr_eqb c "010" || PyStr.chr_eqb c "013".

(** Where the parameters of the last path segment start, negative when
    it has none (the search [_splitparams] makes). *)
Definition params_mark (p : string) : Z :=
  PyStr.find ";"
    (PyStr.slice_from p (if PyStr.contains "/" p then PyStr.rfind "/" p else 0)).

(** A path as the parser leaves it for an [http] or [https] url with a
    host: empty or starting with a slash, free of query and fragment
    marks and of the characters the parser removes, and with no
    parameters on its last segment. *)
Definition plain_path (p : string) : bool :=
  (negb (nonempty p) || PyStr.startswith "/" p)
  && all_chars (fun c => negb (path_breaker c)) p
  && (params_mark p <? 0).

(** No tab, line feed or carriage return, as after [remove_unsafe]. *)
Definition safe_chars (s : string) : Prop :=
  PyStr.contains "009" s = false /\ PyStr.contains "010" s = false
  /\ PyStr.contains "013" s = false.

(** The request is not answered from the partition of [domain]. *)
Definition uncached (st : state) (domain path : string) : Prop :=
  exists partition video_id,
    ytdlp_cache st !! domain = Some partition
    /\ last_segment path = Ok video_id
    /\ cache_hit partition video_id = None.

(** ** The [x.com] request, as the specification describes it *)

(** The url is rewritten to the [twitter.com] url with the same path
    before the fetch, and the rule set of [twitter.com] is applied: the
    rule set of the rewritten url is built, the library is called with
    the rewritten url, and the record it returns is corrected by that
    rule set, read and stored. *)
Definition fetch_as_twitter (w : world) (url_components : ParseResult)
  : M pydict :=
  fun st =>
    match preprocess w (twitter_components url_components) with
    | Raise e => (Raise e, st)
    | Ok rules =>
        let st1 := logged_ydl st (twitter_url url_components) in
        match ydl_extract_info w (twitter_url url_components) with
        | DownloadError => (Ok (invalid "Url doesn't point to a video"), st1)
        | Info response => normalize_info response rules st1
        | Entries [] => (Raise IndexError, st1)
        | Entries (response :: _) => normalize_info response rules st1
        end
    end.

(** ** Tokens of the duration codec, as the specification describes them *)

(** A number in decimal notation. *)
Definition decimal (n : N) : string := NilZero.string_of_uint (N.to_uint n).

(** An optional segment: the number followed by its unit letter. *)
Definition segment (n : option N) (unit : string) : string :=
  match n with
  | Some k => decimal k +:+ unit
  | None => EmptyString
  end.

(** The marker [PT] followed by the hour, minute and second segments. *)
Definition duration_token (h m s : option N) : string :=
  "PT" +:+ segment h "H" +:+ segment m "M" +:+ segment s "S".

(** A missing segment counts for zero. *)
Definition amount (n : option N) : Z :=
  match n with
  | Some k => Z.of_N k
  | None => 0
  end.

(** A segment whose number [int] reads: one of at most
    [int_max_str_digits] digits. *)
Definition readable (n : option N) : bool :=
  match n with
  | Some k => PyStr.len (decimal k) <=? PyStr.int_max_str_digits
  | None => true
  end.

(** A decimal digit. *)
Definition is_digit (a : ascii) : bool :=
  match PyStr.digit_value a with Some _ => true | None => false end.

(** A lower-case hexadecimal digit. *)
Definition is_lower_hex (a : ascii) : bool :=
  let n := N_of_ascii a in
  ((48 <=? n) && (n <=? 57) || (97 <=? n) && (n <=? 102))%N.

(** ** Shapes of a normalised record *)

Definition is_int (v : pyval) : Prop := exists z, v = PInt z.

Definition is_str (v : pyval) : Prop := exists s, v = PStr s.


(** A float that holds the seconds of a whole number of days. *)
Definition midnight_float (v : pyval) : Prop :=
  exists days, v = PFloat (float_of_Z (86400 * days)).

Definition four_fields (r : pydict) : Prop :=
  dom r = {[ "title"; "uploader"; "upload_date"; "duration" ]}.

(** What the managed-platform adapter builds. *)
Definition yt_record (r : pydict) : Prop :=
  four_fields r
  /\ is_str (dict_get r "title") /\ is_str (dict_get r "uploader")
  /\ is_int (dict_get r "upload_date") /\ is_int (dict_get r "duration").

(** What the generic-extraction adapter builds. *)
Definition ytdlp_record (r : pydict) : Prop :=
  four_fields r /\ midnight_float (dict_get r "upload_date").

(** Every entry of either cache is a record of its adapter. *)
Definition caches_hold_records (st : state) : Prop :=
  (forall k d, yt_cache st !! k = Some d -> yt_record d)
  /\ (forall domain partition k d,
        ytdlp_cache st !! domain = Some partition ->
        partition !! k = Some d -> ytdlp_record d).

(** ** Further inputs and shapes the properties speak of *)

(** A clip as the extraction library reports it for the other sites. *)
Definition sample_clip : pydict :=
  <["title" := PStr "clip"]> (<["channel" := PStr "chan"]>
  (<["uploader" := PStr "up"]> (<["upload_date" := PStr "20240501"]>
  (<["duration" := PInt 12]> ∅)))).

(** That clip behind a url of three other sites, and a video of more than
    a day on the managed platform. *)
Definition sample_sites : world :=
  mkWorld
    (fun video_id =>
       if String.eqb video_id "long"
       then [mkYtItem "T" "C" "2024-05-01T00:00:00Z" "P1DT2H5S"] else [])
    (fun url =>
       if String.eqb url "https://vimeo.com/1"
       then Info (mkYdlInfo "1" "vimeo.com" sample_clip)
       else if String.eqb url "https://www.newgrounds.com/portal/view/1"
       then Info (mkYdlInfo "1" "newgrounds.com" sample_clip)
       else if String.eqb url "https://www.tiktok.com/@u/video/1"
       then Entries [mkYdlInfo "1" "tiktok.com" sample_clip]
       else DownloadError)
    (fun s =>
       if String.eqb s "2024-05-01T00:00:00Z" then Ok 1714521600
       else Raise ValueError)
    (fun _ => "nan").

(** A duration with a day component, as the video API writes one for a
    video of a day or more. *)
Definition day_token (d : N) (h m s : option N) : string :=
  "P" +:+ decimal d +:+ "DT" +:+ segment h "H" +:+ segment m "M"
  +:+ segment s "S".

(** Every name of a parsed query has at least one value, and no value is
    empty. *)
Definition no_blank_values (d : gmap string (list string)) : Prop :=
  forall k vs, d !! k = Some vs ->
    vs <> [] /\ Forall (fun v => nonempty v = true) vs.

(** The entries of the managed-platform cache that answer requests are
    still there, unchanged. *)
Definition yt_entries_kept (st st' : state) : Prop :=
  forall k d, yt_cache st !! k = Some d -> truthy d = true ->
    yt_cache st' !! k = Some d.

(** The generic-extraction cache has the same partitions, and every key
    of a partition is still a key of it. *)
Definition ytdlp_keys_kept (st st' : state) : Prop :=
  dom (ytdlp_cache st') = dom (ytdlp_cache st)
  /\ forall domain partition k,
       ytdlp_cache st !! domain = Some partition -> is_Some (partition !! k) ->
       exists partition',
         ytdlp_cache st' !! domain = Some partition'
         /\ is_Some (partition' !! k).

(** The end of a request that reached the provider with [url] and got
    the record [info], once the values the corrected record holds are
    known: the upload date is read, the four-key record is built and it is
    stored under the identity the provider reports. *)
Definition fetched (st : state) (url : string) (info : ydl_info)
    (title uploader upload_date duration : pyval) : result pydict * state :=
  match upload_timestamp upload_date with
  | Raise e => (Raise e, logged_ydl st url)
  | Ok ts =>
      match ytdlp_cache st !! webpage_url_domain info with
      | None => (Raise KeyError, logged_ydl st url)
      | Some partition =>
          let video_data := make_video_data title uploader ts duration in
          (Ok video_data,
           mkState (yt_cache st)
                   (<[webpage_url_domain info :=
                        <[display_id info := video_data]> partition]>
                      (ytdlp_cache st))
                   (yt_calls st) (ydl_calls st ++ [url]))
      end
  end.

(** The accepted domains [preprocess] has no rule for. *)
Definition unruled_domains : list string :=
  ["dailymotion.com"; "pony.tube"; "vimeo.com"; "thishorsie.rocks";
   "odysee.com"].

(** The three rejection objects the program builds. *)
Definition rejection (r : pydict) : Prop :=
  r = invalid "No video id present"
  \/ r = invalid "Url doesn't point to a video"
  \/ r = invalid "Url not from an accepted domain".

(** ** Upload dates as the extraction library writes them *)

(** The character of a decimal digit. *)
Definition digit_chr (d : Z) : ascii := ascii_of_N (Z.to_N (48 + d)).

Definition two_digits (n : Z) : string :=
  String (digit_chr (n / 10)) (String (digit_chr (n mod 10)) EmptyString).

Definition four_digits (n : Z) : string :=
  String (digit_chr (n / 1000)) (String (digit_chr (n / 100 mod 10))
  (String (digit_chr (n / 10 mod 10)) (String (digit_chr (n mod 10))
  EmptyString))).

(** [YYYYMMDD] *)
Definition date_token (y m d : Z) : string :=
  four_digits y +:+ two_digits m +:+ two_digits d.

(** A day of the calendar, in the years [strptime] reads. *)
Definition calendar_day (y m d : Z) : Prop :=
  1 <= y <= 9999 /\ 1 <= m <= 12 /\ 1 <= d <= Date.days_in_month y m.

(** The day after. *)
Definition next_day (y m d : Z) : Z * Z * Z :=
  if d <? Date.days_in_month y m then (y, m, d + 1)
  else if m <? 12 then (y, m + 1, 1)
  else (y + 1, 1, 1).

(** What the month and day directives find in [MMDD]. *)
Definition month_day_found (r : string) : list (Z * Z * string) :=
  flat_map (fun '(m, r2) =>
    map (fun '(d, r3) => (m, d, r3)) (Date.day_alternatives r2))
    (Date.month_alternatives r).

Definition month_day_read (m d : Z) : bool :=
  match month_day_found (two_digits m +:+ two_digits d) with
  | (m', d', EmptyString) :: _ => (m' =? m) && (d' =? d)
  | _ => false
  end.

(** The days of the years before year [y + 1], and the days of the year
    before month [m], the year starting with March. *)
Definition year_days (y : Z) : Z := 365 * y + y / 4 - y / 100 + y / 400.

Definition month_start (m : Z) : Z :=
  (153 * (if 2 <? m then m - 3 else m + 9) + 2) / 5.

(** The provider calls made between two states: what the two logs have
    gained, and at most [n] calls in all. *)
Definition calls_between (n : nat) (st st' : state) : Prop :=
  exists to_api to_library,
    yt_calls st' = yt_calls st ++ to_api
    /\ ydl_calls st' = ydl_calls st ++ to_library
    /\ (length to_api + length to_library <= n)%nat.

(** * Properties *)

(** ** Facts about the string functions *)

Section StringFacts.

Implicit Types (s t : string) (a c : ascii).

Lemma app_cons a s t : String a s +:+ t = String a (s +:+ t).
Proof. reflexivity. Qed.

Lemma app_empty t : EmptyString +:+ t = t.
Proof. reflexivity. Qed.

Lemma len_nonneg s : 0 <= PyStr.len s.
Proof. induction s; simpl; lia. Qed.

Lemma len_app s t : PyStr.len (s +:+ t) = PyStr.len s + PyStr.len t.
Proof. induction s; rewrite ?app_cons, ?app_empty; simpl; lia. Qed.

Lemma chr_eqb_eq a c : PyStr.chr_eqb a c = true <-> a = c.
Proof. apply Ascii.eqb_eq. Qed.

Lemma contains_app c s t :
  PyStr.contains c (s +:+ t) = PyStr.contains c s || PyStr.contains c t.
Proof.
  induction s as [|a s IH]; [reflexivity|].
  rewrite app_cons. simpl. rewrite IH. apply orb_assoc.
Qed.

Lemma split_nonempty c s : PyStr.split c s <> [].
Proof.
  induction s as [|a s IH]; simpl; [discriminate|].
  destruct (PyStr.chr_eqb a c); [discriminate|].
  destruct (PyStr.split c s); [contradiction|discriminate].
Qed.

Lemma split_absent c s : PyStr.contains c s = false -> PyStr.split c s = [s].
Proof.
  induction s as [|a s IH]; simpl; [reflexivity|].
  intros H. apply orb_false_iff in H as [Ha Hs].
  rewrite Ha, (IH Hs). reflexivity.
Qed.

Lemma split_app c s t :
  PyStr.contains c s = false ->
  PyStr.split c (s +:+ String c t) = s :: PyStr.split c t.
Proof.
  induction s as [|a s IH]; intros H.
  - rewrite app_empty. simpl. unfold PyStr.chr_eqb. rewrite Ascii.eqb_refl.
    reflexivity.
  - simpl in H. apply orb_false_iff in H as [Ha Hs].
    rewrite app_cons. simpl. rewrite Ha, (IH Hs). reflexivity.
Qed.

Lemma remove_absent c s : PyStr.contains c s = false -> PyStr.remove c s = s.
Proof.
  induction s as [|a s IH]; simpl; [reflexivity|].
  intros H. apply orb_false_iff in H as [Ha Hs].
  rewrite Ha, (IH Hs). reflexivity.
Qed.

Lemma remove_app c s t :
  PyStr.remove c (s +:+ t) = PyStr.remove c s +:+ PyStr.remove c t.
Proof.
  induction s as [|a s IH]; [reflexivity|].
  rewrite app_cons. simpl. destruct (PyStr.chr_eqb a c); rewrite IH; reflexivity.
Qed.

Lemma app_empty_r s : s +:+ EmptyString = s.
Proof. induction s as [|a s IH]; [reflexivity|]. rewrite app_cons, IH. reflexivity. Qed.

Lemma app_assoc s t u : (s +:+ t) +:+ u = s +:+ (t +:+ u).
Proof. induction s as [|a s IH]; [reflexivity|]. rewrite !app_cons, IH. reflexivity. Qed.

End StringFacts.

(** ** Duration codec *)

Section DurationFacts.

Import DecimalPos.Unsigned.

Lemma string_of_uint_digits d :
  all_chars is_digit (NilEmpty.string_of_uint d) = true.
Proof. induction d; simpl; auto. Qed.

Lemma digits_lack c s :
  PyStr.digit_value c = None -> all_chars is_digit s = true ->
  PyStr.contains c s = false.
Proof.
  intros Hc. induction s as [|a s IH]; simpl; [reflexivity|].
  intros H. apply andb_true_iff in H as [Ha Hs].
  rewrite (IH Hs), orb_false_r.
  destruct (PyStr.chr_eqb a c) eqn:E; [|reflexivity].
  apply chr_eqb_eq in E. subst a. unfold is_digit in Ha. rewrite Hc in Ha.
  discriminate.
Qed.

Lemma digits_string_of_uint d : forall st acc,
  d <> Decimal.Nil \/ st = PyStr.AfterDigit ->
  PyStr.digits st acc (NilEmpty.string_of_uint d)
  = Some (acc * 10 ^ Z.of_N (usize d) + Z.of_N (of_lu (Decimal.rev d))).
Proof.
  induction d; intros st acc Hd;
    try (simpl NilEmpty.string_of_uint; simpl PyStr.digits;
         rewrite IHd by (right; reflexivity);
         remember (of_lu (Decimal.rev d)) as v eqn:Ev;
         unfold Decimal.rev; simpl Decimal.revapp; rewrite of_lu_revapp;
         rewrite <- Ev; simpl of_lu; simpl usize;
         rewrite N2Z.inj_add, N2Z.inj_mul, N2Z.inj_pow, N2Z.inj_succ;
         change (Z.of_N 10) with 10;
         rewrite Z.pow_succ_r by apply N2Z.is_nonneg;
         f_equal; generalize (10 ^ Z.of_N (usize d)); intros; lia).
  destruct Hd as [Hd | ->]; [contradiction|].
  simpl. f_equal. lia.
Qed.

Lemma lstrip_space_digits s :
  all_chars is_digit s = true -> PyStr.lstrip_space s = s.
Proof.
  destruct s as [|a s]; [reflexivity|]. simpl.
  intros H. apply andb_true_iff in H as [Ha _].
  destruct a as [[] [] [] [] [] [] [] []]; try discriminate Ha; reflexivity.
Qed.

Lemma rstrip_space_digits s :
  all_chars is_digit s = true -> PyStr.rstrip_space s = s.
Proof.
  induction s as [|a s IH]; [reflexivity|]. simpl.
  intros H. apply andb_true_iff in H as [Ha Hs]. rewrite (IH Hs).
  destruct s; [|reflexivity].
  destruct a as [[] [] [] [] [] [] [] []]; try discriminate Ha; reflexivity.
Qed.

(** A text of ASCII digits is read as it is. *)
Lemma to_ascii_digits s :
  all_chars is_digit s = true -> PyStr.to_ascii s = s.
Proof.
  induction s as [|a s IH]; [reflexivity|]. cbn [all_chars].
  intros H. apply andb_true_iff in H as [Ha Hs]. specialize (IH Hs).
  destruct a as [[] [] [] [] [] [] [] []]; try discriminate Ha;
    cbn [PyStr.to_ascii]; rewrite IH; reflexivity.
Qed.

Lemma count_digits_digits s :
  all_chars is_digit s = true -> PyStr.count_digits s = PyStr.len s.
Proof.
  induction s as [|a s IH]; [reflexivity|]. cbn [all_chars].
  intros H. apply andb_true_iff in H as [Ha Hs].
  cbn [PyStr.count_digits PyStr.len]. rewrite (IH Hs).
  unfold is_digit in Ha. destruct (PyStr.digit_value a); [reflexivity|].
  discriminate Ha.
Qed.

Lemma int_digits s :
  all_chars is_digit s = true ->
  PyStr.int s = match PyStr.digits PyStr.AtStart 0 s with
                | Some z =>
                    if PyStr.int_max_str_digits <? PyStr.len s
                    then Raise ValueError else Ok z
                | None => Raise ValueError
                end.
Proof.
  intros H. unfold PyStr.int.
  rewrite (to_ascii_digits s H), (lstrip_space_digits s H),
    (rstrip_space_digits s H), (count_digits_digits s H).
  destruct s as [|a s]; [reflexivity|].
  cbn [all_chars] in H. apply andb_true_iff in H as [Ha _].
  destruct a as [[] [] [] [] [] [] [] []]; try discriminate Ha; reflexivity.
Qed.

Lemma to_uint_nonnil (n : N) : N.to_uint n <> Decimal.Nil.
Proof. destruct n; [discriminate|]. apply DecimalPos.Unsigned.to_uint_nonnil. Qed.

Lemma decimal_alt (n : N) : decimal n = NilEmpty.string_of_uint (N.to_uint n).
Proof.
  unfold decimal, NilZero.string_of_uint.
  pose proof (to_uint_nonnil n). destruct (N.to_uint n); congruence.
Qed.

Lemma decimal_digits (n : N) : all_chars is_digit (decimal n) = true.
Proof. rewrite decimal_alt. apply string_of_uint_digits. Qed.

(** [int] reads a number printed in decimal back, unless it has too
    many digits. *)
Lemma int_decimal_limit (n : N) :
  PyStr.int (decimal n)
  = if readable (Some n) then Ok (Z.of_N n) else Raise ValueError.
Proof.
  rewrite (int_digits _ (decimal_digits n)). cbn [readable].
  assert (Hd : PyStr.digits PyStr.AtStart 0 (decimal n) = Some (Z.of_N n)).
  { rewrite decimal_alt.
    rewrite digits_string_of_uint by (left; apply to_uint_nonnil).
    rewrite <- DecimalPos.Unsigned.of_uint_alt.
    change (Pos.of_uint (N.to_uint n)) with (N.of_uint (N.to_uint n)).
    rewrite DecimalN.Unsigned.of_to. f_equal; lia. }
  rewrite Hd.
  destruct (Z.ltb_spec PyStr.int_max_str_digits (PyStr.len (decimal n)));
    destruct (Z.leb_spec (PyStr.len (decimal n)) PyStr.int_max_str_digits);
    (reflexivity || lia).
Qed.

Lemma int_decimal (n : N) :
  readable (Some n) = true -> PyStr.int (decimal n) = Ok (Z.of_N n).
Proof. intros H. rewrite int_decimal_limit, H. reflexivity. Qed.

Lemma segment_lacks c (n : option N) (u : ascii) :
  PyStr.digit_value c = None -> c <> u ->
  PyStr.contains c (segment n (String u EmptyString)) = false.
Proof.
  intros Hc Hu. destruct n as [k|]; [|reflexivity]. simpl.
  rewrite contains_app, (digits_lack c _ Hc (decimal_digits k)). simpl.
  rewrite orb_false_r. destruct (PyStr.chr_eqb u c) eqn:E; [|reflexivity].
  apply chr_eqb_eq in E. congruence.
Qed.

(** The hour and minute blocks: the number before the unit letter is cut
    off and read, and nothing happens when the letter is absent. *)
Lemma cut_stage c (n : option N) r :
  PyStr.digit_value c = None -> PyStr.contains c r = false ->
  (let t := segment n (String c EmptyString) +:+ r in
   if PyStr.contains c t
   then rbind (unpack2 (PyStr.split c t)) (fun '(part, rest) =>
        rbind (PyStr.int part) (fun v => Ok (v, rest)))
   else Ok (0, t))
  = if readable n then Ok (amount n, r) else Raise ValueError.
Proof.
  intros Hc Hr. destruct n as [k|]; cbn [segment amount]; cbv zeta.
  - rewrite app_assoc, app_cons, app_empty, contains_app.
    cbn [PyStr.contains].
    unfold PyStr.chr_eqb at 1. rewrite Ascii.eqb_refl, orb_true_r.
    rewrite split_app by (apply digits_lack; [exact Hc | apply decimal_digits]).
    rewrite (split_absent c r Hr). cbn [unpack2 rbind].
    rewrite int_decimal_limit. destruct (readable (Some k)); reflexivity.
  - rewrite app_empty, Hr. reflexivity.
Qed.

(** The second block: the letter is deleted and the rest is read. *)
Lemma seconds_stage (n : option N) :
  (let t := segment n "S" in
   if PyStr.contains "S" t then PyStr.int (PyStr.remove "S" t) else Ok 0)
  = if readable n then Ok (amount n) else Raise ValueError.
Proof.
  destruct n as [k|]; cbn [segment amount]; cbv zeta; [|reflexivity].
  assert (Hk : PyStr.contains "S" (decimal k) = false)
    by (apply digits_lack; [reflexivity | apply decimal_digits]).
  rewrite contains_app, remove_app, (remove_absent _ _ Hk).
  change (PyStr.contains "S" "S") with true.
  change (PyStr.remove "S" "S") with EmptyString.
  rewrite orb_true_r, app_empty_r. apply int_decimal_limit.
Qed.

Lemma strip_marker t :
  (if PyStr.startswith "PT" ("PT" +:+ t)
   then PyStr.slice_from ("PT" +:+ t) 2 else "PT" +:+ t) = t.
Proof.
  change ("PT" +:+ t) with (String "P" (String "T" t)).
  unfold PyStr.slice_from, PyStr.bound. simpl PyStr.startswith. simpl PyStr.len.
  pose proof (len_nonneg t).
  replace (Z.to_nat (Z.min (1 + (1 + PyStr.len t)) (if 2 <? 0 then _ else 2)))
    with 2%nat by (change (2 <? 0) with false; lia).
  reflexivity.
Qed.

(** The codec on a token built from its three optional segments: the
    total when [int] reads each number, [ValueError] when one of them has
    too many digits. *)
Lemma convert_token_limit (h m s : option N) :
  convert_iso8601_duration_to_seconds (duration_token h m s)
  = if readable h && readable m && readable s
    then Ok (amount h * 3600 + amount m * 60 + amount s)
    else Raise ValueError.
Proof.
  unfold convert_iso8601_duration_to_seconds, duration_token.
  rewrite strip_marker.
  pose proof (cut_stage "H" h (segment m "M" +:+ segment s "S") eq_refl) as HH.
  cbv zeta in HH. rewrite HH; clear HH.
  2:{ rewrite contains_app, !segment_lacks by (reflexivity || discriminate).
      reflexivity. }
  destruct (readable h); [|reflexivity]. cbn [rbind andb].
  pose proof (cut_stage "M" m (segment s "S") eq_refl) as HM.
  cbv zeta in HM. rewrite HM by (apply segment_lacks; [reflexivity|discriminate]).
  destruct (readable m); [|reflexivity]. cbn [rbind andb].
  pose proof (seconds_stage s) as HS. cbv zeta in HS. rewrite HS.
  destruct (readable s); reflexivity.
Qed.

Lemma convert_token (h m s : option N) :
  readable h = true -> readable m = true -> readable s = true ->
  convert_iso8601_duration_to_seconds (duration_token h m s)
  = Ok (amount h * 3600 + amount m * 60 + amount s).
Proof.
  intros Hh Hm Hs. rewrite convert_token_limit, Hh, Hm, Hs. reflexivity.
Qed.

End DurationFacts.

(** C6.  The duration codec maps a token made of the marker [PT] and the
    optional hour, minute and second segments, the number of each segment
    written with at most 4300 digits ([int_max_str_digits], the most
    [int] reads), to hours * 3600 + minutes * 60 + seconds, a missing
    segment counting for zero; in particular [PT1H2M3S] gives 3723,
    [PT45S] gives 45, [PT2H] gives 7200 and [PT] gives 0. *)
Theorem duration_codec_total_seconds :
  (forall h m s : option N,
     readable h = true -> readable m = true -> readable s = true ->
     convert_iso8601_duration_to_seconds (duration_token h m s)
     = Ok (amount h * 3600 + amount m * 60 + amount s))
  /\ convert_iso8601_duration_to_seconds "PT1H2M3S" = Ok 3723
  /\ convert_iso8601_duration_to_seconds "PT45S" = Ok 45
  /\ convert_iso8601_duration_to_seconds "PT2H" = Ok 7200
  /\ convert_iso8601_duration_to_seconds "PT" = Ok 0.
Proof.
  split; [exact convert_token|].
  repeat split; vm_compute; reflexivity.
Qed.

Lemma duration_codec_total_seconds_example :
  readable (Some 100%N) = true /\ readable None = true
  /\ readable (Some 59%N) = true
  /\ convert_iso8601_duration_to_seconds "PT100H59S" = Ok 360059.
Proof.
  split; [reflexivity|]. split; [reflexivity|]. split; [reflexivity|].
  exact (proj1 duration_codec_total_seconds (Some 100%N) None (Some 59%N)
           eq_refl eq_refl eq_refl).
Defined.

(** Beyond the limit the codec raises: a seconds segment of 4301 digits. *)
Example duration_token_beyond_limit :
  readable (Some (10 ^ 4300)%N) = false
  /\ convert_iso8601_duration_to_seconds
       (duration_token None None (Some (10 ^ 4300)%N))
     = Raise ValueError.
Proof.
  assert (H : readable (Some (10 ^ 4300)%N) = false)
    by (vm_compute; reflexivity).
  split; [exact H|]. rewrite convert_token_limit, H. reflexivity.
Qed.

Example duration_token_examples :
  duration_token (Some 1%N) (Some 2%N) (Some 3%N) = "PT1H2M3S"
  /\ duration_token None None (Some 45%N) = "PT45S"
  /\ duration_token (Some 2%N) None None = "PT2H"
  /\ duration_token None None None = "PT".
Proof. repeat split. Qed.

(** ** Pseudonymizer *)

Section HashFacts.

Lemma hex_digit_lower_hex x : is_lower_hex (Sha256.hex_digit x) = true.
Proof.
  unfold Sha256.hex_digit.
  assert (H : (Z.to_nat (x mod 16) < 16)%nat)
    by (pose proof (Z.mod_pos_bound x 16); lia).
  revert H. generalize (Z.to_nat (x mod 16)). intros n Hn.
  do 16 (destruct n as [|n]; [reflexivity|]). lia.
Qed.

Lemma hex8_length w k :
  String.length (Sha256.hex8 w k) = (8 + String.length k)%nat.
Proof. unfold Sha256.hex8. cbn [String.length Nat.add]. reflexivity. Qed.

Lemma hex8_lower_hex w k :
  all_chars is_lower_hex k = true ->
  all_chars is_lower_hex (Sha256.hex8 w k) = true.
Proof.
  intros Hk. unfold Sha256.hex8. cbn [all_chars].
  rewrite !hex_digit_lower_hex, Hk. reflexivity.
Qed.

(** The digest is always sixty-four lower-case hexadecimal digits. *)
Lemma hexdigest_shape data :
  String.length (Sha256.hexdigest data) = 64%nat
  /\ all_chars is_lower_hex (Sha256.hexdigest data) = true.
Proof.
  unfold Sha256.hexdigest. split.
  - rewrite !hex8_length. reflexivity.
  - repeat apply hex8_lower_hex. reflexivity.
Qed.

Lemma startswith_take n s : PyStr.startswith (PyStr.take n s) s = true.
Proof.
  revert s. induction n as [|n IH]; intros [|a s]; simpl; try reflexivity.
  unfold PyStr.chr_eqb. rewrite Ascii.eqb_refl. apply IH.
Qed.

Lemma all_chars_take p n s :
  all_chars p s = true -> all_chars p (PyStr.take n s) = true.
Proof.
  revert s. induction n as [|n IH]; intros [|a s]; simpl; try reflexivity.
  intros H. apply andb_true_iff in H as [Ha Hs]. rewrite Ha. apply IH, Hs.
Qed.

Lemma length_take n s :
  (n <= String.length s)%nat -> String.length (PyStr.take n s) = n.
Proof.
  revert s. induction n as [|n IH]; intros [|a s]; simpl; try reflexivity; try lia.
  intros H. rewrite IH by lia. reflexivity.
Qed.

End HashFacts.

(** C7.  The pseudonymizer is deterministic and length-stable: equal
    inputs give equal outputs, and the output for any string is exactly
    five lower-case hexadecimal digits, the first five of the sixty-four
    of the SHA-256 digest of the string's bytes. *)
Theorem hash_str_deterministic_and_length_stable (s1 s2 : string) :
  s1 = s2 ->
  hash_str (PStr s1) = hash_str (PStr s2)
  /\ exists h,
       hash_str (PStr s1) = Ok h
       /\ String.length h = 5%nat
       /\ all_chars is_lower_hex h = true
       /\ String.length (Sha256.hexdigest s1) = 64%nat
       /\ PyStr.startswith h (Sha256.hexdigest s1) = true.
Proof.
  intros ->. split; [reflexivity|].
  destruct (hexdigest_shape s2) as [Hlen Hhex].
  exists (PyStr.take 5 (Sha256.hexdigest s2)).
  split; [reflexivity|].
  split; [apply length_take; lia|].
  split; [apply all_chars_take, Hhex|].
  split; [exact Hlen | apply startswith_take].
Qed.

Lemma hash_str_hello :
  "hello" = "hello"
  /\ hash_str (PStr "hello") = hash_str (PStr "hello")
  /\ exists h,
       hash_str (PStr "hello") = Ok h
       /\ String.length h = 5%nat
       /\ all_chars is_lower_hex h = true
       /\ String.length (Sha256.hexdigest "hello") = 64%nat
       /\ PyStr.startswith h (Sha256.hexdigest "hello") = true.
Proof.
  split; [reflexivity|].
  apply (hash_str_deterministic_and_length_stable "hello" "hello").
  reflexivity.
Defined.

Example hash_str_hello_value : hash_str (PStr "hello") = Ok "2cf24".
Proof. vm_compute. reflexivity. Qed.

(** ** Domain check of the generic-extraction adapter *)

Section DomainFacts.

Implicit Types (s : string) (c : ascii).

Lemma find_absent c s : PyStr.contains c s = false -> PyStr.find c s = -1.
Proof.
  induction s as [|a s IH]; simpl; [reflexivity|].
  intros H. apply orb_false_iff in H as [Ha Hs]. rewrite Ha, (IH Hs).
  reflexivity.
Qed.

Lemma rfind_absent c s : PyStr.contains c s = false -> PyStr.rfind c s = -1.
Proof.
  induction s as [|a s IH]; simpl; [reflexivity|].
  intros H. apply orb_false_iff in H as [Ha Hs]. rewrite Ha, (IH Hs).
  reflexivity.
Qed.

(** A cut at the first occurrence: the text before it lacks the
    character, and the pieces put the string back together. *)
Lemma split1_present c s :
  PyStr.contains c s = true ->
  exists a b, PyStr.split1 c s = [a; b]
              /\ s = a +:+ String c b /\ PyStr.contains c a = false.
Proof.
  induction s as [|x s IH]; simpl; [discriminate|].
  destruct (PyStr.chr_eqb x c) eqn:E.
  - intros _. apply chr_eqb_eq in E. subst x.
    exists EmptyString, s. repeat split.
  - simpl. intros H. destruct (IH H) as (a & b & Hs & Heq & Ha).
    exists (String x a), b. rewrite Hs. repeat split.
    + rewrite app_cons. congruence.
    + simpl. rewrite E, Ha. reflexivity.
Qed.

Lemma normalized_netloc_total s : exists d, normalized_netloc s = Ok d.
Proof.
  unfold normalized_netloc.
  destruct (PyStr.find "." s =? PyStr.rfind "." s) eqn:E; simpl; [eauto|].
  destruct (PyStr.contains "." s) eqn:C.
  - destruct (split1_present _ _ C) as (a & b & -> & _). eauto.
  - rewrite (find_absent _ _ C), (rfind_absent _ _ C) in E. discriminate.
Qed.

Lemma Ok_inj {A : Type} (a b : A) : Ok a = Ok b -> a = b.
Proof.
  intros H.
  exact (f_equal (fun r => match r with Ok v => v | Raise _ => a end) H).
Qed.

Lemma invalid_inj (a b : string) : invalid a = invalid b -> a = b.
Proof.
  intros H. apply (f_equal (fun d : pydict => d !! "Invalid")) in H.
  unfold invalid in H. rewrite !lookup_singleton_eq in H. congruence.
Qed.

Lemma unaccepted_rejected w uc st d :
  normalized_netloc (netloc uc) = Ok d -> mem d accepted_domains = false ->
  fetch_ytdlp w uc st = (Ok (invalid "Url not from an accepted domain"), st).
Proof.
  intros Hd Hmem. unfold fetch_ytdlp, bind, lift. rewrite Hd, Hmem. reflexivity.
Qed.

End DomainFacts.

(** C8, amended.  For every url the allow-list is asked about a
    normalized domain, and when that domain is not one of the ten accepted
    ones the generic-extraction adapter returns the rejection object with
    the reason [Url not from an accepted domain]: nothing is raised, no
    provider is called and the caches are left as they were. *)
Theorem unaccepted_domain_rejected
    (w : world) (url_components : ParseResult) (st : state) :
  exists d,
    normalized_netloc (netloc url_components) = Ok d
    /\ (mem d accepted_domains = false ->
        fetch_ytdlp w url_components st
        = (Ok (invalid "Url not from an accepted domain"), st)).
Proof.
  destruct (normalized_netloc_total (netloc url_components)) as [d Hd].
  exists d. split; [exact Hd|]. apply unaccepted_rejected, Hd.
Qed.

Lemma unaccepted_domain_rejected_example :
  exists d,
    normalized_netloc "example.org" = Ok d
    /\ mem d accepted_domains = false
    /\ fetch_ytdlp sample_world
         (mkParseResult "https" "example.org" "/video/1" "" "" "") initial_state
       = (Ok (invalid "Url not from an accepted domain"), initial_state).
Proof.
  destruct (unaccepted_domain_rejected sample_world
              (mkParseResult "https" "example.org" "/video/1" "" "" "")
              initial_state) as (d & Hd & Hrej).
  exists d. split; [exact Hd|].
  assert (Hmem : mem d accepted_domains = false).
  { vm_compute in Hd. injection Hd as <-. reflexivity. }
  split; [exact Hmem | exact (Hrej Hmem)].
Defined.

(** C8 as stated fails: the reason the code reports for
    [https://example.org/video/1] is not the text [domain not accepted]. *)
Lemma unaccepted_domain_reason_differs :
  urlparse "https://example.org/video/1"
  = Ok (mkParseResult "https" "example.org" "/video/1" "" "" "")
  /\ normalized_netloc "example.org" = Ok "example.org"
  /\ mem "example.org" accepted_domains = false
  /\ fst (fetch_ytdlp sample_world
            (mkParseResult "https" "example.org" "/video/1" "" "" "")
            initial_state)
     <> Ok (invalid "domain not accepted").
Proof.
  split; [vm_compute; reflexivity|].
  split; [vm_compute; reflexivity|].
  split; [vm_compute; reflexivity|].
  rewrite (unaccepted_rejected _ _ _ "example.org") by reflexivity.
  simpl fst. intros H. apply Ok_inj, invalid_inj in H. discriminate H.
Qed.

(** ** Rejections and the caches *)

Ltac run_adapter :=
  unfold fetch_youtube, fetch_ytdlp, normalize_info, bind, lift, ret,
    get_state, log_yt_call, log_ydl_call, store_yt, store_ytdlp, modify in *.

(** Case analysis on an innermost scrutinee of a hypothesis. *)
Ltac case_on x :=
  lazymatch x with
  | context [match ?y with _ => _ end] => case_on y
  | _ => destruct x eqn:?
  end.

Ltac case_in H :=
  cbn [yt_cache ytdlp_cache yt_calls ydl_calls fst snd] in H;
  match type of H with
  | context [match ?x with _ => _ end] => case_on x
  end.

Section RejectionFacts.

Lemma video_data_not_rejection (t u d l : pyval) :
  make_video_data t u d l !! "Invalid" = None.
Proof. reflexivity. Qed.

Lemma pair_eq_inv {A B : Type} (a a' : A) (b b' : B) :
  (a, b) = (a', b') -> a = a' /\ b = b'.
Proof. intros H. split; [exact (f_equal fst H) | exact (f_equal snd H)]. Qed.

Lemma fetch_youtube_rejection_caches w uc st r st' :
  fetch_youtube w uc st = (Ok r, st') -> is_Some (r !! "Invalid") ->
  yt_cache st' = yt_cache st /\ ytdlp_cache st' = ytdlp_cache st.
Proof.
  intros H [v Hv]. run_adapter.
  repeat (case_in H; try discriminate H);
    apply pair_eq_inv in H as [Hr <-]; apply Ok_inj in Hr; subst r;
    try (split; reflexivity);
    rewrite video_data_not_rejection in Hv; discriminate Hv.
Qed.

Lemma fetch_ytdlp_rejection_caches w uc st r st' :
  fetch_ytdlp w uc st = (Ok r, st') -> is_Some (r !! "Invalid") ->
  yt_cache st' = yt_cache st /\ ytdlp_cache st' = ytdlp_cache st.
Proof.
  intros H [v Hv]. run_adapter.
  repeat (case_in H; try discriminate H);
    apply pair_eq_inv in H as [Hr <-]; apply Ok_inj in Hr; subst r;
    try (split; reflexivity);
    rewrite video_data_not_rejection in Hv; discriminate Hv.
Qed.

End RejectionFacts.

(** C10.  Whenever [fetch_youtube] or [fetch_ytdlp] returns a rejection
    object (a dictionary with the key [Invalid]), the managed-platform
    cache and the generic-extraction cache are what they were before the
    call. *)
Theorem rejection_leaves_caches_unchanged
    (w : world) (url_components : ParseResult) (st st' : state) (r : pydict) :
  fetch_youtube w url_components st = (Ok r, st')
  \/ fetch_ytdlp w url_components st = (Ok r, st') ->
  is_Some (r !! "Invalid") ->
  yt_cache st' = yt_cache st /\ ytdlp_cache st' = ytdlp_cache st.
Proof.
  intros [H | H] Hr.
  - exact (fetch_youtube_rejection_caches _ _ _ _ _ H Hr).
  - exact (fetch_ytdlp_rejection_caches _ _ _ _ _ H Hr).
Qed.

Lemma rejection_leaves_caches_unchanged_example :
  (fetch_youtube sample_world
     (mkParseResult "https" "youtu.be" "/zzz" "" "" "") initial_state
   = (Ok (invalid "Url doesn't point to a video"),
      mkState ∅ ytdlp_cache_init ["zzz"] [])
   \/ fetch_ytdlp sample_world
        (mkParseResult "https" "youtu.be" "/zzz" "" "" "") initial_state
      = (Ok (invalid "Url doesn't point to a video"),
         mkState ∅ ytdlp_cache_init ["zzz"] []))
  /\ is_Some (invalid "Url doesn't point to a video" !! "Invalid")
  /\ yt_cache (mkState ∅ ytdlp_cache_init ["zzz"] []) = yt_cache initial_state
  /\ ytdlp_cache (mkState ∅ ytdlp_cache_init ["zzz"] [])
     = ytdlp_cache initial_state.
Proof.
  assert (H1 : fetch_youtube sample_world
                 (mkParseResult "https" "youtu.be" "/zzz" "" "" "") initial_state
               = (Ok (invalid "Url doesn't point to a video"),
                  mkState ∅ ytdlp_cache_init ["zzz"] []))
    by (vm_compute; reflexivity).
  assert (H2 : is_Some (invalid "Url doesn't point to a video" !! "Invalid"))
    by (eexists; reflexivity).
  split; [left; exact H1|]. split; [exact H2|].
  exact (rejection_leaves_caches_unchanged _ _ _ _ _
           (or_introl H1 : _ \/ fetch_ytdlp _ _ _ = _) H2).
Defined.

(** ** A watch url without the [v] parameter *)

Section WatchFacts.

Lemma map_result_app {A B : Type} (f : A -> result B) l1 a l2 l :
  map_result f (l1 ++ a :: l2) = Ok l ->
  exists l1' b l2', l = l1' ++ b :: l2' /\ f a = Ok b.
Proof.
  revert l. induction l1 as [|x l1 IH]; intros l; simpl.
  - destruct (f a) as [b|] eqn:Ea; [|discriminate]. simpl.
    destruct (map_result f l2) as [bs|]; [|discriminate]. simpl.
    intros H. apply Ok_inj in H. subst l. exists [], b, bs. split; reflexivity.
  - destruct (f x) as [y|]; [|discriminate]. simpl.
    destruct (map_result f (l1 ++ a :: l2)) as [bs|] eqn:E; [|discriminate].
    simpl. intros H. apply Ok_inj in H. subst l.
    destruct (IH bs eq_refl) as (l1' & b & l2' & -> & Hb).
    exists (y :: l1'), b, l2'. split; [reflexivity | exact Hb].
Qed.

(** Once one element raises, the comprehension has no result. *)
Lemma map_M_raises {A B : Type} (f : A -> M B) l1 a l2 :
  (forall st, exists e, fst (f a st) = Raise e) ->
  forall st, exists e, fst (map_M f (l1 ++ a :: l2) st) = Raise e.
Proof.
  intros Ha. induction l1 as [|x l1 IH]; intros st; simpl; unfold bind.
  - destruct (Ha st) as [e He]. destruct (f a st) as [[b|e'] st1]; simpl in *.
    + discriminate He.
    + eauto.
  - destruct (f x st) as [[y|e'] st1]; simpl; [|eauto].
    destruct (IH st1) as [e He].
    destruct (map_M f (l1 ++ a :: l2) st1) as [[bs|e'] st2]; simpl in *.
    + discriminate He.
    + eauto.
Qed.

Lemma fetch_youtube_keyerror w uc st :
  path uc = "/watch" -> parse_qs (query uc) !! "v" = None ->
  fetch_youtube w uc st = (Raise KeyError, st).
Proof.
  intros Hp Hq. unfold fetch_youtube, bind, lift, extract_video_id.
  rewrite Hp, Hq. reflexivity.
Qed.

End WatchFacts.

(** C3 fails on the code: for a url of the managed platform whose path is
    [/watch] and whose query has no [v], no id is extracted and the
    adapter raises [KeyError] instead of returning a rejection. *)
Theorem fetch_youtube_watch_without_v_raises
    (w : world) (url_components : ParseResult) (st : state) :
  path url_components = "/watch" ->
  parse_qs (query url_components) !! "v" = None ->
  fetch_youtube w url_components st = (Raise KeyError, st).
Proof. apply fetch_youtube_keyerror. Qed.

Lemma fetch_youtube_watch_without_v_example :
  urlparse "https://www.youtube.com/watch"
  = Ok (mkParseResult "https" "www.youtube.com" "/watch" "" "" "")
  /\ fetch_youtube sample_world
       (mkParseResult "https" "www.youtube.com" "/watch" "" "" "") initial_state
     = (Raise KeyError, initial_state).
Proof.
  split; [vm_compute; reflexivity|].
  apply (fetch_youtube_watch_without_v_raises sample_world
           (mkParseResult "https" "www.youtube.com" "/watch" "" "" "")
           initial_state); reflexivity.
Defined.

(** C1 fails on the code: a batch that holds the url
    [https://www.youtube.com/watch] anywhere returns no result list at
    all, whatever the other urls, the providers and the caches are. *)
Theorem update_item_aborted_by_one_url
    (w : world) (st : state) (before after : list string) :
  exists e,
    fst (update_item w (before ++ "https://www.youtube.com/watch" :: after) st)
    = Raise e.
Proof.
  unfold update_item, bind, lift.
  destruct (map_result urlparse _) as [parsed|e] eqn:E; [|simpl; eauto].
  apply map_result_app in E as (p1 & b & p2 & -> & Hb).
  vm_compute in Hb. apply Ok_inj in Hb. subst b.
  apply map_M_raises. intros st1. exists KeyError.
  unfold route. change (mem _ youtube_domains) with true. cbv iota.
  rewrite fetch_youtube_keyerror; reflexivity.
Qed.

(** ** Shape of the successful results *)

Section RecordFacts.

Lemma video_data_four_fields (t u d l : pyval) :
  four_fields (make_video_data t u d l).
Proof.
  unfold four_fields, make_video_data.
  rewrite !dom_insert_L, dom_empty_L. set_solver.
Qed.

Lemma video_data_yt_record (t u : string) (d l : Z) :
  yt_record (make_video_data (PStr t) (PStr u) (PInt d) (PInt l)).
Proof.
  split; [apply video_data_four_fields|].
  repeat split; eexists; reflexivity.
Qed.

Lemma strptime_whole_days s secs :
  Date.strptime_Ymd s = Ok secs -> exists days, secs = 86400 * days.
Proof.
  unfold Date.strptime_Ymd. intros H.
  repeat (case_in H; try discriminate H).
  apply Ok_inj in H. eauto.
Qed.

Lemma upload_timestamp_midnight v ts :
  upload_timestamp v = Ok ts -> midnight_float ts.
Proof.
  unfold upload_timestamp. intros H.
  destruct v; try discriminate H.
  destruct (Date.strptime_Ymd s) as [secs|] eqn:E; [|discriminate H].
  apply Ok_inj in H. subst ts.
  destruct (strptime_whole_days _ _ E) as [days ->]. exists days. reflexivity.
Qed.

Lemma video_data_ytdlp_record (t u d l : pyval) :
  midnight_float d -> ytdlp_record (make_video_data t u d l).
Proof. intros Hd. split; [apply video_data_four_fields | exact Hd]. Qed.

Lemma cache_hit_lookup (cache : gmap string pydict) k d :
  cache_hit cache k = Some d -> cache !! k = Some d.
Proof.
  unfold cache_hit. destruct (cache !! k) as [d'|]; [|discriminate].
  destruct (truthy d'); [|discriminate]. exact id.
Qed.

Lemma fetch_youtube_records w uc st r st' :
  caches_hold_records st -> fetch_youtube w uc st = (Ok r, st') ->
  (is_Some (r !! "Invalid") \/ yt_record r) /\ caches_hold_records st'.
Proof.
  intros [Hyt Hydl] H. run_adapter.
  repeat (case_in H; try discriminate H);
    apply pair_eq_inv in H as [Hr <-]; apply Ok_inj in Hr; subst r;
    try (split; [left; eexists; reflexivity | split; assumption]).
  - split; [right | split; assumption].
    eapply Hyt, cache_hit_lookup; eassumption.
  - split; [right; apply video_data_yt_record|].
    split; [|exact Hydl]. simpl. intros k d Hk.
    match type of Hk with
    | <[?key := _]> _ !! _ = _ => destruct (decide (key = k)) as [<-|Hne]
    end.
    + rewrite lookup_insert_eq in Hk. apply (inj Some) in Hk. subst d.
      apply video_data_yt_record.
    + rewrite lookup_insert_ne in Hk by exact Hne. eapply Hyt, Hk.
Qed.

Lemma fetch_ytdlp_records w uc st r st' :
  caches_hold_records st -> fetch_ytdlp w uc st = (Ok r, st') ->
  (is_Some (r !! "Invalid") \/ ytdlp_record r) /\ caches_hold_records st'.
Proof.
  intros [Hyt Hydl] H. run_adapter.
  repeat (case_in H; try discriminate H);
    apply pair_eq_inv in H as [Hr <-]; apply Ok_inj in Hr; subst r;
    try (split; [left; eexists; reflexivity | split; assumption]);
    try (split; [right | split; assumption];
         eapply Hydl; [eassumption | eapply cache_hit_lookup; eassumption]).
  all: match goal with
       | E : upload_timestamp _ = Ok ?ts |- _ =>
           pose proof (upload_timestamp_midnight _ _ E) as Hts
       end.
  all: split; [right; apply video_data_ytdlp_record, Hts|].
  all: split; [exact Hyt|]; simpl; intros dom' part' k d Hdom Hk.
  all: match goal with
       | _ : context [ydl_extract_info _ _] |- _ => idtac
       end.
  all: match type of Hdom with
       | <[?dm := _]> _ !! _ = _ =>
           destruct (decide (dm = dom')) as [<-|Hne];
           [ rewrite lookup_insert_eq in Hdom; apply (inj Some) in Hdom;
             subst part';
             match type of Hk with
             | <[?key := _]> _ !! _ = _ =>
                 destruct (decide (key = k)) as [<-|Hnk];
                 [ rewrite lookup_insert_eq in Hk; apply (inj Some) in Hk;
                   subst d; apply video_data_ytdlp_record, Hts
                 | rewrite lookup_insert_ne in Hk by exact Hnk;
                   eapply Hydl; eassumption ]
             end
           | rewrite lookup_insert_ne in Hdom by exact Hne;
             eapply Hydl; eassumption ]
       end.
Qed.

End RecordFacts.

Lemma initial_caches_hold_records : caches_hold_records initial_state.
Proof.
  split.
  - intros k d H. simpl in H. rewrite lookup_empty in H. discriminate H.
  - intros domain partition k d Hd Hk. simpl in Hd.
    unfold ytdlp_cache_init in Hd. apply elem_of_list_to_map_2 in Hd.
    apply list_elem_of_In, in_map_iff in Hd as (x & Hx & _).
    apply pair_eq_inv in Hx as [_ <-]. rewrite lookup_empty in Hk.
    discriminate Hk.
Qed.


(** The sample post and the sample video fetched with empty caches. *)
Lemma sample_post_fetch :
  fetch_ytdlp sample_world
    (mkParseResult "https" "twitter.com" "/u/status/7" "" "" "") initial_state
  = (Ok sample_post_record,
     mkState ∅ (<["twitter.com" := {["7" := sample_post_record]}]>
                  ytdlp_cache_init)
             [] ["https://twitter.com/u/status/7"]).
Proof. vm_compute. reflexivity. Qed.

Lemma sample_video_fetch :
  fetch_youtube sample_world
    (mkParseResult "https" "youtu.be" "/abc" "" "" "") initial_state
  = (Ok sample_video_record,
     mkState {["abc" := sample_video_record]} ytdlp_cache_init ["abc"] []).
Proof. vm_compute. reflexivity. Qed.



(** ** The adapters, step by step *)

Section AdapterEquations.

Lemma normalize_info_eq info chg st :
  normalize_info info chg st =
  match apply_corrections (fields info) chg with
  | Raise e => (Raise e, st)
  | Ok response =>
      match upload_timestamp (dict_get response "upload_date") with
      | Raise e => (Raise e, st)
      | Ok upload_date =>
          match ytdlp_cache st !! webpage_url_domain info with
          | None => (Raise KeyError, st)
          | Some partition =>
              let video_data :=
                make_video_data (dict_get response "title")
                  (dict_get response "channel") upload_date
                  (dict_get response "duration") in
              (Ok video_data,
               mkState (yt_cache st)
                 (<[webpage_url_domain info :=
                      <[display_id info := video_data]> partition]>
                    (ytdlp_cache st))
                 (yt_calls st) (ydl_calls st))
          end
      end
  end.
Proof.
  unfold normalize_info, bind, lift, ret, store_ytdlp.
  destruct (apply_corrections _ _); [|reflexivity].
  destruct (upload_timestamp _); [|reflexivity].
  destruct (ytdlp_cache st !! _); reflexivity.
Qed.

Lemma fetch_ytdlp_eq w uc st :
  fetch_ytdlp w uc st =
  match normalized_netloc (netloc uc) with
  | Raise e => (Raise e, st)
  | Ok d =>
      if negb (mem d accepted_domains)
      then (Ok (invalid "Url not from an accepted domain"), st)
      else
        match last_segment (path uc) with
        | Raise e => (Raise e, st)
        | Ok video_id =>
            match ytdlp_cache st !! d with
            | None => (Raise KeyError, st)
            | Some partition =>
                match cache_hit partition video_id with
                | Some video_data => (Ok video_data, st)
                | None =>
                    match preprocess w uc with
                    | Raise e => (Raise e, st)
                    | Ok chg =>
                        match fetch_target (geturl uc) chg with
                        | Raise e => (Raise e, st)
                        | Ok target =>
                            let st1 := logged_ydl st (fst target) in
                            match ydl_extract_info w (fst target) with
                            | DownloadError =>
                                (Ok (invalid "Url doesn't point to a video"), st1)
                            | Info response =>
                                normalize_info response (snd target) st1
                            | Entries [] => (Raise IndexError, st1)
                            | Entries (response :: _) =>
                                normalize_info response (snd target) st1
                            end
                        end
                    end
                end
            end
        end
  end.
Proof.
  unfold fetch_ytdlp, bind, lift, ret, get_state, log_ydl_call, modify, logged_ydl.
  destruct (normalized_netloc _); [|reflexivity].
  destruct (negb _); [reflexivity|].
  destruct (last_segment _); [|reflexivity].
  destruct (ytdlp_cache st !! _); [|reflexivity].
  destruct (cache_hit _ _); [reflexivity|].
  destruct (preprocess _ _); [|reflexivity].
  destruct (fetch_target _ _); [|reflexivity]. simpl.
  destruct (ydl_extract_info _ _) as [|?|[|? ?]]; reflexivity.
Qed.

Lemma fetch_youtube_eq w uc st :
  fetch_youtube w uc st =
  match extract_video_id uc with
  | Raise e => (Raise e, st)
  | Ok None | Ok (Some EmptyString) => (Ok (invalid "No video id present"), st)
  | Ok (Some video_id) =>
      match cache_hit (yt_cache st) video_id with
      | Some video_data => (Ok video_data, st)
      | None =>
          let st1 := logged_yt st video_id in
          match yt_videos_list w video_id with
          | [] => (Ok (invalid "Url doesn't point to a video"), st1)
          | item :: _ =>
              match fromisoformat_timestamp w (snippet_publishedAt item) with
              | Raise e => (Raise e, st1)
              | Ok upload_date =>
                  match convert_iso8601_duration_to_seconds
                          (contentDetails_duration item) with
                  | Raise e => (Raise e, st1)
                  | Ok duration =>
                      let video_data :=
                        make_video_data (PStr (snippet_title item))
                          (PStr (snippet_channelTitle item))
                          (PInt upload_date) (PInt duration) in
                      (Ok video_data,
                       mkState (<[video_id := video_data]> (yt_cache st))
                               (ytdlp_cache st) (yt_calls st ++ [video_id])
                               (ydl_calls st))
                  end
              end
          end
      end
  end.
Proof.
  unfold fetch_youtube, bind, lift, ret, get_state, log_yt_call, store_yt,
    modify, logged_yt.
  destruct (extract_video_id uc) as [[[|c id]|]|]; try reflexivity.
  destruct (cache_hit _ _); [reflexivity|].
  destruct (yt_videos_list _ _); [reflexivity|].
  destruct (fromisoformat_timestamp _ _); [|reflexivity].
  destruct (convert_iso8601_duration_to_seconds _); reflexivity.
Qed.

Lemma video_data_truthy (t u d l : pyval) : truthy (make_video_data t u d l) = true.
Proof. reflexivity. Qed.

Lemma cache_hit_insert (cache : gmap string pydict) k (t u d l : pyval) :
  cache_hit (<[k := make_video_data t u d l]> cache) k
  = Some (make_video_data t u d l).
Proof.
  unfold cache_hit. rewrite lookup_insert_eq, video_data_truthy. reflexivity.
Qed.

End AdapterEquations.

(** ** Two successive requests *)

Section CacheFacts.

Lemma invalid_has_key reason : invalid reason !! "Invalid" = Some (PStr reason).
Proof. apply lookup_singleton_eq. Qed.

Lemma fetch_youtube_twice w uc st r st1 :
  fetch_youtube w uc st = (Ok r, st1) -> r !! "Invalid" = None ->
  fetch_youtube w uc st1 = (Ok r, st1)
  /\ (length (yt_calls st1) <= length (yt_calls st) + 1)%nat.
Proof.
  intros H Hr. rewrite fetch_youtube_eq in H. rewrite fetch_youtube_eq.
  destruct (extract_video_id uc) as [[[|c id]|]|]; try discriminate H;
    try (apply pair_eq_inv in H as [H _]; apply Ok_inj in H; subst r;
         rewrite invalid_has_key in Hr; discriminate Hr).
  destruct (cache_hit (yt_cache st) (String c id)) as [vd|] eqn:Hit.
  - apply pair_eq_inv in H as [H <-]. apply Ok_inj in H. subst vd.
    rewrite Hit. split; [reflexivity | lia].
  - cbv zeta in H.
    destruct (yt_videos_list w (String c id)) as [|item items].
    { apply pair_eq_inv in H as [H _]. apply Ok_inj in H. subst r.
      rewrite invalid_has_key in Hr. discriminate Hr. }
    destruct (fromisoformat_timestamp w _) as [ts|]; [|discriminate H].
    destruct (convert_iso8601_duration_to_seconds _) as [dur|]; [|discriminate H].
    apply pair_eq_inv in H as [H <-]. apply Ok_inj in H. subst r.
    cbn [yt_cache yt_calls]. rewrite cache_hit_insert.
    split; [reflexivity|]. rewrite length_app. simpl. lia.
Qed.

Lemma fetch_ytdlp_twice w uc st r st1 :
  fetch_ytdlp w uc st = (Ok r, st1) -> r !! "Invalid" = None ->
  (forall url info,
     ydl_calls st1 = ydl_calls st ++ [url] ->
     first_record (ydl_extract_info w url) = Some info ->
     normalized_netloc (netloc uc) = Ok (webpage_url_domain info)
     /\ last_segment (path uc) = Ok (display_id info)) ->
  fetch_ytdlp w uc st1 = (Ok r, st1)
  /\ (length (ydl_calls st1) <= length (ydl_calls st) + 1)%nat.
Proof.
  intros H Hr Hkey. rewrite fetch_ytdlp_eq in H. rewrite fetch_ytdlp_eq.
  destruct (normalized_netloc (netloc uc)) as [d|] eqn:Hd; [|discriminate H].
  destruct (negb (mem d accepted_domains)).
  { apply pair_eq_inv in H as [H _]. apply Ok_inj in H. subst r.
    rewrite invalid_has_key in Hr. discriminate Hr. }
  destruct (last_segment (path uc)) as [id|] eqn:Hid; [|discriminate H].
  destruct (ytdlp_cache st !! d) as [part|] eqn:Hpart; [|discriminate H].
  destruct (cache_hit part id) as [vd|] eqn:Hit.
  { apply pair_eq_inv in H as [H <-]. apply Ok_inj in H. subst vd.
    rewrite Hpart, Hit. split; [reflexivity | lia]. }
  destruct (preprocess w uc) as [chg|]; [|discriminate H].
  destruct (fetch_target (geturl uc) chg) as [[url chg']|]; [|discriminate H].
  cbn [fst snd] in H. cbv zeta in H.
  assert (Hfin : forall info,
            first_record (ydl_extract_info w url) = Some info ->
            normalize_info info chg' (logged_ydl st url) = (Ok r, st1) ->
            match ytdlp_cache st1 !! d with
            | Some partition =>
                match cache_hit partition id with
                | Some video_data => (Ok video_data, st1)
                | None => (Raise KeyError, st1)
                end
            | None => (Raise KeyError, st1)
            end = (Ok r, st1)
            /\ (length (ydl_calls st1) <= length (ydl_calls st) + 1)%nat).
  { intros info Hinfo Hn. rewrite normalize_info_eq in Hn.
    destruct (apply_corrections _ _) as [response|]; [|discriminate Hn].
    destruct (upload_timestamp _) as [ts|]; [|discriminate Hn].
    destruct (ytdlp_cache (logged_ydl st url) !! webpage_url_domain info)
      as [part'|] eqn:Hp'; [|discriminate Hn].
    cbv zeta in Hn. apply pair_eq_inv in Hn as [Hn <-]. apply Ok_inj in Hn.
    destruct (Hkey url info eq_refl Hinfo) as [Hd' Hid'].
    apply Ok_inj in Hd', Hid'. subst d id r.
    cbn [ytdlp_cache ydl_calls logged_ydl].
    rewrite lookup_insert_eq, cache_hit_insert.
    split; [reflexivity|]. rewrite length_app. simpl. lia. }
  destruct (ydl_extract_info w url) as [|info|[|info infos]] eqn:Hout;
    try discriminate H.
  - apply pair_eq_inv in H as [H _]. apply Ok_inj in H. subst r.
    rewrite invalid_has_key in Hr. discriminate Hr.
  - destruct (Hfin info eq_refl H) as [Hsecond Hlen]. split; [|exact Hlen].
    destruct (ytdlp_cache st1 !! d) as [p1|]; [|discriminate Hsecond].
    destruct (cache_hit p1 id); [exact Hsecond | discriminate Hsecond].
  - destruct (Hfin info eq_refl H) as [Hsecond Hlen]. split; [|exact Hlen].
    destruct (ytdlp_cache st1 !! d) as [p1|]; [|discriminate Hsecond].
    destruct (cache_hit p1 id); [exact Hsecond | discriminate Hsecond].
Qed.

Lemma cache_hit_insert_ne (cache : gmap string pydict) k k' v :
  k <> k' -> cache_hit (<[k := v]> cache) k' = cache_hit cache k'.
Proof. intros H. unfold cache_hit. rewrite lookup_insert_ne by exact H. reflexivity. Qed.

Lemma log_grows_not (l : list string) url : l <> l ++ [url].
Proof.
  intros H. apply (f_equal (@length string)) in H.
  rewrite List.length_app in H. simpl in H. lia.
Qed.

(** The state a stored record leaves, stored once more. *)
Lemma store_again st url url' info vd partition :
  ytdlp_cache st !! webpage_url_domain info = Some partition ->
  let st1 :=
    mkState (yt_cache st)
      (<[webpage_url_domain info := <[display_id info := vd]> partition]>
         (ytdlp_cache st))
      (yt_calls st) (ydl_calls st ++ [url]) in
  ytdlp_cache (logged_ydl st1 url') !! webpage_url_domain info
  = Some (<[display_id info := vd]> partition)
  /\ mkState (yt_cache (logged_ydl st1 url'))
       (<[webpage_url_domain info :=
            <[display_id info := vd]> (<[display_id info := vd]> partition)]>
          (ytdlp_cache (logged_ydl st1 url')))
       (yt_calls (logged_ydl st1 url')) (ydl_calls (logged_ydl st1 url'))
     = logged_ydl st1 url'.
Proof.
  intros Hp st1. subst st1. cbn [logged_ydl ytdlp_cache yt_cache yt_calls ydl_calls].
  rewrite lookup_insert_eq. split; [reflexivity|].
  rewrite !insert_insert_eq. reflexivity.
Qed.

(** A request that returns a record and leaves the state as it was has
    been answered from the cache. *)
Lemma fetch_ytdlp_answered w uc st r :
  fetch_ytdlp w uc st = (Ok r, st) -> r !! "Invalid" = None ->
  exists d id partition,
    normalized_netloc (netloc uc) = Ok d
    /\ mem d accepted_domains = true
    /\ last_segment (path uc) = Ok id
    /\ ytdlp_cache st !! d = Some partition
    /\ cache_hit partition id = Some r.
Proof.
  intros H Hr. rewrite fetch_ytdlp_eq in H.
  destruct (normalized_netloc (netloc uc)) as [d|]; [|discriminate H].
  destruct (mem d accepted_domains) eqn:Hacc; cbn [negb] in H.
  2:{ apply pair_eq_inv in H as [H _]. apply Ok_inj in H. subst r.
      rewrite invalid_has_key in Hr. discriminate Hr. }
  destruct (last_segment (path uc)) as [id|]; [|discriminate H].
  destruct (ytdlp_cache st !! d) as [part|] eqn:Hpart; [|discriminate H].
  destruct (cache_hit part id) as [vd|] eqn:Hit.
  { apply pair_eq_inv in H as [H _]. apply Ok_inj in H. subst vd.
    exists d, id, part. auto. }
  exfalso.
  destruct (preprocess w uc) as [chg|]; [|discriminate H].
  destruct (fetch_target (geturl uc) chg) as [[url chg']|]; [|discriminate H].
  cbn [fst snd] in H. cbv zeta in H.
  assert (Hn : forall info,
            normalize_info info chg' (logged_ydl st url) = (Ok r, st) -> False).
  { intros info Hn. rewrite normalize_info_eq in Hn.
    destruct (apply_corrections (fields info) chg'); [|discriminate Hn].
    destruct (upload_timestamp _); [|discriminate Hn].
    destruct (ytdlp_cache (logged_ydl st url) !! webpage_url_domain info);
      [|discriminate Hn].
    cbv zeta in Hn. apply pair_eq_inv in Hn as [_ Hn].
    apply (f_equal ydl_calls) in Hn. cbn [logged_ydl ydl_calls] in Hn.
    symmetry in Hn. exact (log_grows_not _ _ Hn). }
  destruct (ydl_extract_info w url) as [|info|[|info infos]];
    try discriminate H; try exact (Hn _ H).
  apply pair_eq_inv in H as [H _]. apply Ok_inj in H. subst r.
  rewrite invalid_has_key in Hr. discriminate Hr.
Qed.

Lemma fetch_youtube_by_id w uc1 uc2 st :
  extract_video_id uc1 = extract_video_id uc2 ->
  fetch_youtube w uc1 st = fetch_youtube w uc2 st.
Proof. intros H. rewrite !fetch_youtube_eq, H. reflexivity. Qed.

End CacheFacts.

(** Two successive requests for one identity, when the key a record is
    stored under is the key it is looked up under.  When the first
    request returns a normalised record, a second request with the same
    identity (the same extracted video id for the managed platform; the
    same normalized domain and last path segment for the
    generic-extraction adapter) returns that record and leaves the state,
    the log of provider calls included, as it found it.  The managed
    platform stores under the extracted id, so this holds always; the
    generic-extraction adapter stores under the [webpage_url_domain] and
    [display_id] the library reports, so it holds when these are the
    normalized domain and the last path segment of the request. *)
Theorem second_request_served_from_cache
    (w : world) (first second : ParseResult) (st st1 : state) (r : pydict) :
  r !! "Invalid" = None ->
  (fetch_youtube w first st = (Ok r, st1) ->
   extract_video_id second = extract_video_id first ->
   fetch_youtube w second st1 = (Ok r, st1)
   /\ (length (yt_calls st1) <= length (yt_calls st) + 1)%nat)
  /\ (fetch_ytdlp w first st = (Ok r, st1) ->
      normalized_netloc (netloc second) = normalized_netloc (netloc first) ->
      last_segment (path second) = last_segment (path first) ->
      (forall url info,
         ydl_calls st1 = ydl_calls st ++ [url] ->
         first_record (ydl_extract_info w url) = Some info ->
         normalized_netloc (netloc first) = Ok (webpage_url_domain info)
         /\ last_segment (path first) = Ok (display_id info)) ->
      fetch_ytdlp w second st1 = (Ok r, st1)
      /\ (length (ydl_calls st1) <= length (ydl_calls st) + 1)%nat).
Proof.
  intros Hr. split.
  - intros H Hsame. rewrite (fetch_youtube_by_id w second first st1 Hsame).
    exact (fetch_youtube_twice _ _ _ _ _ H Hr).
  - intros H Hd Hid Hkey.
    destruct (fetch_ytdlp_twice _ _ _ _ _ H Hr Hkey) as [Hagain Hlen].
    split; [|exact Hlen].
    destruct (fetch_ytdlp_answered _ _ _ _ Hagain Hr)
      as (d & id & part & Hd1 & Hacc & Hid1 & Hpart & Hit).
    rewrite fetch_ytdlp_eq, Hd, Hd1, Hacc, Hid, Hid1, Hpart, Hit. reflexivity.
Qed.

Lemma second_request_served_from_cache_example :
  (sample_video_record !! "Invalid" = None
   /\ fetch_youtube sample_world
        (mkParseResult "https" "www.youtube.com" "/watch" "" "v=abc" "")
        (mkState {["abc" := sample_video_record]} ytdlp_cache_init ["abc"] [])
      = (Ok sample_video_record,
         mkState {["abc" := sample_video_record]} ytdlp_cache_init ["abc"] []))
  /\ (sample_post_record !! "Invalid" = None
      /\ fetch_ytdlp sample_world
           (mkParseResult "http" "www.twitter.com" "/i/status/7/" "" "s=20" "")
           (mkState ∅ (<["twitter.com" := {["7" := sample_post_record]}]>
                         ytdlp_cache_init)
                    [] ["https://twitter.com/u/status/7"])
         = (Ok sample_post_record,
            mkState ∅ (<["twitter.com" := {["7" := sample_post_record]}]>
                         ytdlp_cache_init)
                    [] ["https://twitter.com/u/status/7"])).
Proof.
  split; (split; [reflexivity|]).
  - exact (proj1 (proj1 (second_request_served_from_cache sample_world
                           (mkParseResult "https" "youtu.be" "/abc" "" "" "")
                           (mkParseResult "https" "www.youtube.com" "/watch" ""
                                          "v=abc" "")
                           _ _ _
                           (eq_refl : sample_video_record !! "Invalid" = None))
                    sample_video_fetch eq_refl)).
  - refine (proj1 (proj2 (second_request_served_from_cache sample_world
                            (mkParseResult "https" "twitter.com" "/u/status/7"
                                           "" "" "")
                            (mkParseResult "http" "www.twitter.com"
                                           "/i/status/7/" "" "s=20" "")
                            _ _ _
                            (eq_refl : sample_post_record !! "Invalid" = None))
                     sample_post_fetch eq_refl eq_refl _)).
    intros url info Hcalls Hinfo. simpl in Hcalls.
    injection Hcalls as <-. vm_compute in Hinfo. injection Hinfo as <-.
    split; vm_compute; reflexivity.
Defined.

(** Two successive requests for the same [x.com] url both succeed and
    both call the provider: the record is stored in the [twitter.com]
    partition and looked up in the [x.com] one. *)
Lemma x_com_request_fetched_twice :
  sample_post_record !! "Invalid" = None
  /\ fetch_ytdlp sample_world
       (mkParseResult "https" "x.com" "/u/status/7" "" "" "") initial_state
     = (Ok sample_post_record,
        mkState ∅ (<["twitter.com" := {["7" := sample_post_record]}]>
                     ytdlp_cache_init)
                [] ["https://twitter.com/u/status/7"])
  /\ fetch_ytdlp sample_world
       (mkParseResult "https" "x.com" "/u/status/7" "" "" "")
       (mkState ∅ (<["twitter.com" := {["7" := sample_post_record]}]>
                     ytdlp_cache_init)
                [] ["https://twitter.com/u/status/7"])
     = (Ok sample_post_record,
        mkState ∅ (<["twitter.com" := {["7" := sample_post_record]}]>
                     ytdlp_cache_init)
                [] ["https://twitter.com/u/status/7";
                    "https://twitter.com/u/status/7"]).
Proof.
  split; [reflexivity|]. split; vm_compute; reflexivity.
Qed.

(** ** Facts about the url functions *)

Section UrlFacts.

Implicit Types (s t p q : string) (c : ascii).

Lemma take_app s t : PyStr.take (Z.to_nat (PyStr.len s)) (s +:+ t) = s.
Proof.
  induction s as [|a s IH]; [reflexivity|].
  rewrite app_cons. cbn [PyStr.len]. pose proof (len_nonneg s).
  replace (Z.to_nat (1 + PyStr.len s)) with (S (Z.to_nat (PyStr.len s))) by lia.
  simpl. rewrite IH. reflexivity.
Qed.

Lemma drop_app s t : PyStr.drop (Z.to_nat (PyStr.len s)) (s +:+ t) = t.
Proof.
  induction s as [|a s IH]; [destruct t; reflexivity|].
  rewrite app_cons. cbn [PyStr.len]. pose proof (len_nonneg s).
  replace (Z.to_nat (1 + PyStr.len s)) with (S (Z.to_nat (PyStr.len s))) by lia.
  simpl. exact IH.
Qed.

Lemma bound_app s t : PyStr.bound (s +:+ t) (PyStr.len s) = Z.to_nat (PyStr.len s).
Proof.
  unfold PyStr.bound. rewrite len_app.
  pose proof (len_nonneg s). pose proof (len_nonneg t).
  destruct (PyStr.len s <? 0) eqn:E; lia.
Qed.

Lemma slice_to_app s t : PyStr.slice_to (s +:+ t) (PyStr.len s) = s.
Proof. unfold PyStr.slice_to. rewrite bound_app. apply take_app. Qed.

Lemma slice_from_app s t : PyStr.slice_from (s +:+ t) (PyStr.len s) = t.
Proof. unfold PyStr.slice_from. rewrite bound_app. apply drop_app. Qed.

Lemma all_chars_lacks (pred : ascii -> bool) c s :
  pred c = false -> all_chars pred s = true -> PyStr.contains c s = false.
Proof.
  intros Hc. induction s as [|a s IH]; simpl; [reflexivity|].
  intros H. apply andb_true_iff in H as [Ha Hs].
  rewrite (IH Hs), orb_false_r.
  destruct (PyStr.chr_eqb a c) eqn:E; [|reflexivity].
  apply chr_eqb_eq in E. congruence.
Qed.

Lemma remove_unsafe_app s t :
  remove_unsafe (s +:+ t) = remove_unsafe s +:+ remove_unsafe t.
Proof. unfold remove_unsafe. rewrite !remove_app. reflexivity. Qed.

Lemma split_scheme_https t : split_scheme ("https:" +:+ t) = ("https", t).
Proof.
  unfold split_scheme. cbv zeta.
  replace (PyStr.find ":" ("https:" +:+ t)) with (PyStr.len "https")
    by reflexivity.
  replace (PyStr.slice_to ("https:" +:+ t) (PyStr.len "https")) with "https"
    by (symmetry; apply (slice_to_app "https" (":" +:+ t))).
  replace (PyStr.slice_from ("https:" +:+ t) (PyStr.len "https" + 1)) with t
    by (symmetry; apply (slice_from_app "https:" t)).
  reflexivity.
Qed.

Lemma splitnetloc_plain s t :
  all_chars (fun c => negb (is_delim c)) s = true ->
  splitnetloc (s +:+ t) = (s +:+ fst (splitnetloc t), snd (splitnetloc t)).
Proof.
  induction s as [|a s IH]; intros H.
  - rewrite !app_empty. destruct (splitnetloc t); reflexivity.
  - simpl in H. apply andb_true_iff in H as [Ha Hs].
    rewrite !app_cons. simpl. apply negb_true_iff in Ha. rewrite Ha, (IH Hs).
    reflexivity.
Qed.

(** The rewritten url always has the scheme [https] and a host that
    starts with [twitter.com]. *)
Lemma urlsplit_twitter p :
  urlsplit ("https://twitter.com" +:+ p) =
  let q := remove_unsafe p in
  let nl := "twitter.com" +:+ fst (splitnetloc q) in
  let url3 := snd (splitnetloc q) in
  if xorb (PyStr.contains "[" nl) (PyStr.contains "]" nl) then Raise ValueError
  else
    let '(url4, frag) :=
      if PyStr.contains "#" url3 then cut "#" url3 else (url3, EmptyString) in
    let '(url5, qry) :=
      if PyStr.contains "?" url4 then cut "?" url4 else (url4, EmptyString) in
    Ok ("https", nl, url5, qry, frag).
Proof.
  unfold urlsplit.
  change (lstrip_c0 ("https://twitter.com" +:+ p)) with ("https://twitter.com" +:+ p).
  rewrite remove_unsafe_app.
  change (remove_unsafe "https://twitter.com" +:+ remove_unsafe p)
    with ("https:" +:+ ("//twitter.com" +:+ remove_unsafe p)).
  rewrite split_scheme_https.
  change (PyStr.startswith "//" ("//twitter.com" +:+ remove_unsafe p)) with true.
  change (PyStr.drop 2 ("//twitter.com" +:+ remove_unsafe p))
    with ("twitter.com" +:+ remove_unsafe p).
  rewrite splitnetloc_plain by reflexivity. cbv zeta.
  destruct (xorb _ _); reflexivity.
Qed.

Lemma urlparse_twitter_netloc p parsed :
  urlparse ("https://twitter.com" +:+ p) = Ok parsed ->
  exists n, netloc parsed = "twitter.com" +:+ n.
Proof.
  unfold urlparse. rewrite urlsplit_twitter. cbv zeta.
  destruct (xorb _ _); [discriminate|].
  destruct (if PyStr.contains "#" _ then _ else _) as [url4 frag].
  destruct (if PyStr.contains "?" _ then _ else _) as [url5 qry].
  cbn [rbind].
  match goal with
  | |- context [if ?b then splitparams ?x else ?y] =>
      destruct (if b then splitparams x else y) as [p' prm]
  end.
  intros H. apply Ok_inj in H. subst parsed. simpl. eauto.
Qed.

Lemma split_plain_prefix c s t :
  PyStr.contains c s = false ->
  exists h l, PyStr.split c (s +:+ t) = (s +:+ h) :: l.
Proof.
  induction s as [|a s IH]; intros H.
  - rewrite app_empty. destruct (PyStr.split c t) as [|h l] eqn:E.
    + destruct (split_nonempty _ _ E).
    + exists h, l. reflexivity.
  - simpl in H. apply orb_false_iff in H as [Ha Hs].
    destruct (IH Hs) as (h & l & E). exists h, l.
    rewrite !app_cons. simpl. rewrite Ha, E. reflexivity.
Qed.

(** The site of a host that starts with [twitter.com] is never [x]. *)
Lemma site_of_twitter_host parsed n site :
  netloc parsed = "twitter.com" +:+ n -> site_of parsed = Ok site ->
  String.eqb site "x" = false.
Proof.
  intros Hn. unfold site_of. rewrite Hn.
  change ("twitter.com" +:+ n) with ("twitter" +:+ String "." ("com" +:+ n)).
  rewrite split_app by reflexivity.
  destruct (split_plain_prefix "." "com" n eq_refl) as (h & l & ->).
  destruct l; intros H; apply Ok_inj in H; subst site; reflexivity.
Qed.

End UrlFacts.

(** ** The quirk engine *)

Section PreprocessFacts.

(** Off the [x] branch one level of [preprocess] is all there is. *)
Lemma preprocess_fuel_flat w uc n :
  (forall site, site_of uc = Ok site -> String.eqb site "x" = false) ->
  preprocess_fuel (S n) w uc = preprocess_fuel 1 w uc
  /\ preprocess_fuel 1 w uc <> None.
Proof.
  intros Hx. cbn [preprocess_fuel].
  destruct (site_of uc) as [site|e]; [|split; [reflexivity | discriminate]].
  rewrite (Hx site eq_refl).
  repeat match goal with
         | |- context [if ?b then _ else _] => destruct b
         | |- context [PyStr.int ?x] => destruct (PyStr.int x)
         end; split; (reflexivity || discriminate).
Qed.

(** The [x] branch: the rule set of the rewritten url, plus that url. *)
Lemma preprocess_fuel_x w uc fuel site :
  site_of uc = Ok site -> String.eqb site "x" = true ->
  preprocess_fuel (S fuel) w uc =
  match urlparse (twitter_url uc) with
  | Raise e => Some (Raise e)
  | Ok parsed =>
      match preprocess_fuel fuel w parsed with
      | None => None
      | Some (Raise e) => Some (Raise e)
      | Some (Ok c0) => Some (Ok (chg_set "url" (CStr (twitter_url uc)) c0))
      end
  end.
Proof.
  intros Hs Hx. unfold twitter_url.
  destruct fuel; cbn [preprocess_fuel]; rewrite Hs, Hx; reflexivity.
Qed.

(** [preprocess] never recurses more than once. *)
Lemma preprocess_depth w uc n :
  preprocess_fuel (2 + n) w uc = preprocess_fuel 2 w uc
  /\ preprocess_fuel 2 w uc <> None.
Proof.
  change (2 + n)%nat with (S (S n)).
  destruct (site_of uc) as [site|e] eqn:Hs.
  2:{ cbn [preprocess_fuel]. rewrite Hs. split; [reflexivity | discriminate]. }
  destruct (String.eqb site "x") eqn:Hx.
  - rewrite (preprocess_fuel_x w uc (S n) site Hs Hx),
      (preprocess_fuel_x w uc 1 site Hs Hx).
    destruct (urlparse (twitter_url uc)) as [parsed|e] eqn:Hp;
      [|split; [reflexivity | discriminate]].
    destruct (urlparse_twitter_netloc _ _ Hp) as [host Hhost].
    assert (Hflat : forall site', site_of parsed = Ok site' ->
                                  String.eqb site' "x" = false)
      by (intros site'; apply (site_of_twitter_host parsed host), Hhost).
    destruct (preprocess_fuel_flat w parsed n Hflat) as [-> Hsome].
    destruct (preprocess_fuel 1 w parsed) as [[c|e]|];
      [split; [reflexivity | discriminate] ..|contradiction].
  - assert (Hflat : forall site', site_of uc = Ok site' ->
                                  String.eqb site' "x" = false)
      by (intros site' H; rewrite Hs in H; apply Ok_inj in H; congruence).
    destruct (preprocess_fuel_flat w uc (S n) Hflat) as [E1 Hsome].
    destruct (preprocess_fuel_flat w uc 1 Hflat) as [E2 _].
    rewrite E1, E2. split; [reflexivity | exact Hsome].
Qed.

Lemma preprocess_twitter w uc :
  site_of uc = Ok "twitter" ->
  preprocess w uc =
  if PyStr.endswith "/video"
       (PyStr.slice_to (geturl uc) (PyStr.rfind "/" (geturl uc)))
  then
    match PyStr.int (PyStr.slice_from (geturl uc)
                       (PyStr.rfind "/" (geturl uc) + 1)) with
    | Raise e => Raise e
    | Ok index =>
        if negb (index =? 1)
        then Ok (twitter_base w ++ [("duration", CNull)])
        else Ok (twitter_base w)
    end
  else Ok (twitter_base w).
Proof.
  intros Hs. unfold preprocess. cbn [preprocess_fuel]. rewrite Hs.
  cbn [String.eqb Ascii.eqb Bool.eqb]. cbv zeta.
  destruct (PyStr.endswith _ _); [|reflexivity].
  destruct (PyStr.int _) as [index|]; [|reflexivity].
  destruct (negb _); reflexivity.
Qed.

Lemma preprocess_twitter_cases w uc c :
  site_of uc = Ok "twitter" -> preprocess w uc = Ok c ->
  c = twitter_base w \/ c = twitter_base w ++ [("duration", CNull)].
Proof.
  intros Hs. rewrite (preprocess_twitter w uc Hs).
  destruct (PyStr.endswith _ _).
  - destruct (PyStr.int _) as [index|]; [|discriminate].
    destruct (negb _); intros H; apply Ok_inj in H; auto.
  - intros H. apply Ok_inj in H. auto.
Qed.

Lemma preprocess_x w uc tw :
  site_of uc = Ok "x" -> urlparse (twitter_url uc) = Ok tw ->
  site_of tw = Ok "twitter" ->
  preprocess w uc =
  rbind (preprocess w tw)
        (fun c => Ok (chg_set "url" (CStr (twitter_url uc)) c)).
Proof.
  intros Hs Hp Htw. unfold preprocess.
  rewrite (preprocess_fuel_x w uc 1 "x" Hs eq_refl), Hp.
  assert (Hflat : forall site', site_of tw = Ok site' ->
                                String.eqb site' "x" = false)
    by (intros site' H; rewrite Htw in H; apply Ok_inj in H; subst; reflexivity).
  destruct (preprocess_fuel_flat w tw 1 Hflat) as [-> Hsome].
  destruct (preprocess_fuel 1 w tw) as [[c|e]|]; [reflexivity..|contradiction].
Qed.

End PreprocessFacts.

(** ** Corrections for [twitter.com] *)

Section TwitterFacts.

Lemma site_of_normalized uc (a b : string) :
  PyStr.contains "." a = false -> PyStr.contains "." b = false ->
  normalized_netloc (netloc uc) = Ok (a +:+ String "." b) ->
  site_of uc = Ok a.
Proof.
  intros Ha Hb. unfold normalized_netloc, site_of.
  destruct (PyStr.find "." (netloc uc) =? PyStr.rfind "." (netloc uc)) eqn:E;
    cbn [negb].
  - intros H. apply Ok_inj in H. rewrite H.
    rewrite (split_app _ _ _ Ha), (split_absent _ _ Hb). reflexivity.
  - destruct (PyStr.contains "." (netloc uc)) eqn:C.
    + destruct (split1_present _ _ C) as (x & rest & -> & -> & Hx).
      intros H. apply Ok_inj in H. subst rest.
      rewrite (split_app _ _ _ Hx), (split_app _ _ _ Ha), (split_absent _ _ Hb).
      reflexivity.
    + rewrite (find_absent _ _ C), (rfind_absent _ _ C) in E. discriminate E.
Qed.

Lemma dict_get_insert_eq (d : pydict) k v : dict_get (<[k := v]> d) k = v.
Proof. unfold dict_get. rewrite lookup_insert_eq. reflexivity. Qed.

Lemma dict_get_insert_ne (d : pydict) k k' v :
  k <> k' -> dict_get (<[k := v]> d) k' = dict_get d k'.
Proof. intros H. unfold dict_get. rewrite lookup_insert_ne by exact H. reflexivity. Qed.




Lemma fetch_target_twitter w url c :
  c = twitter_base w \/ c = twitter_base w ++ [("duration", CNull)] ->
  fetch_target url c = Ok (url, c).
Proof. intros [-> | ->]; reflexivity. Qed.

Lemma first_record_cases o info :
  first_record o = Some info ->
  o = Info info \/ exists rest, o = Entries (info :: rest).
Proof.
  destruct o as [|r|[|r rest]]; simpl; try discriminate;
    intros H; apply (inj Some) in H; subst; eauto.
Qed.


End TwitterFacts.



(** ** A repeated request that is fetched again *)

(** C2 fails on the code, for the generic-extraction adapter.  The record
    of a request is looked up under the normalized domain and the last
    path segment of its url, and stored under the [webpage_url_domain]
    and the [display_id] the library reports.  When a request was fetched
    (the library was called with [url] and returned [info]) and the two
    keys differ: the request returned a normalised record, which is in
    the cache under the reported key; no request with the identity of
    this one is answered from the cache; and the same request made again
    calls the library again with the same url and returns the same
    record, the caches staying as they were.  That is two calls of the
    provider over two successive requests for one identity. *)
Theorem repeated_request_fetched_again
    (w : world) (url_components : ParseResult) (st st1 : state) (r : pydict)
    (domain video_id url : string) (info : ydl_info) :
  normalized_netloc (netloc url_components) = Ok domain ->
  last_segment (path url_components) = Ok video_id ->
  fetch_ytdlp w url_components st = (Ok r, st1) ->
  ydl_calls st1 = ydl_calls st ++ [url] ->
  first_record (ydl_extract_info w url) = Some info ->
  (webpage_url_domain info, display_id info) <> (domain, video_id) ->
  r !! "Invalid" = None
  /\ (exists partition,
        ytdlp_cache st1 !! webpage_url_domain info = Some partition
        /\ partition !! display_id info = Some r)
  /\ (forall second,
        last_segment (path second) = Ok video_id ->
        uncached st1 domain (path second))
  /\ fetch_ytdlp w url_components st1 = (Ok r, logged_ydl st1 url)
  /\ ydl_calls (logged_ydl st1 url) = ydl_calls st ++ [url; url].
Proof.
  intros Hd Hid H Hlog Hinfo Hkey.
  rewrite fetch_ytdlp_eq, Hd, Hid in H.
  destruct (negb (mem domain accepted_domains)) eqn:Hacc.
  { apply pair_eq_inv in H as [_ <-]. destruct (log_grows_not _ _ Hlog). }
  destruct (ytdlp_cache st !! domain) as [part|] eqn:Hpart; [|discriminate H].
  destruct (cache_hit part video_id) as [vd|] eqn:Hit.
  { apply pair_eq_inv in H as [_ <-]. destruct (log_grows_not _ _ Hlog). }
  destruct (preprocess w url_components) as [chg|] eqn:Hchg; [|discriminate H].
  destruct (fetch_target (geturl url_components) chg) as [[url0 chg']|] eqn:Htarget;
    [|discriminate H].
  cbn [fst snd] in H. cbv zeta in H.
  assert (Hfin : normalize_info info chg' (logged_ydl st url) = (Ok r, st1)
                 /\ url0 = url).
  { destruct (ydl_extract_info w url0) as [|info0|[|info0 infos]] eqn:Hout;
      try discriminate H.
    - apply pair_eq_inv in H as [_ <-]. cbn [logged_ydl ydl_calls] in Hlog.
      apply app_inv_head in Hlog. injection Hlog as ->.
      rewrite Hout in Hinfo. cbn [first_record] in Hinfo. discriminate Hinfo.
    - assert (Hu : url0 = url).
      { rewrite normalize_info_eq in H.
        destruct (apply_corrections (fields info0) chg'); [|discriminate H].
        destruct (upload_timestamp _); [|discriminate H].
        destruct (ytdlp_cache (logged_ydl st url0) !! webpage_url_domain info0);
          [|discriminate H].
        cbv zeta in H. apply pair_eq_inv in H as [_ <-].
        cbn [logged_ydl ydl_calls] in Hlog.
        apply app_inv_head in Hlog. injection Hlog as ->. reflexivity. }
      subst url0. rewrite Hout in Hinfo. cbn [first_record] in Hinfo.
      injection Hinfo as ->. auto.
    - assert (Hu : url0 = url).
      { rewrite normalize_info_eq in H.
        destruct (apply_corrections (fields info0) chg'); [|discriminate H].
        destruct (upload_timestamp _); [|discriminate H].
        destruct (ytdlp_cache (logged_ydl st url0) !! webpage_url_domain info0);
          [|discriminate H].
        cbv zeta in H. apply pair_eq_inv in H as [_ <-].
        cbn [logged_ydl ydl_calls] in Hlog.
        apply app_inv_head in Hlog. injection Hlog as ->. reflexivity. }
      subst url0. rewrite Hout in Hinfo. cbn [first_record] in Hinfo.
      injection Hinfo as ->. auto. }
  destruct Hfin as [Hn ->]. clear H.
  assert (Hout : match ydl_extract_info w url with
                 | DownloadError => (Ok (invalid "Url doesn't point to a video"),
                                     logged_ydl st1 url)
                 | Info response => normalize_info response chg' (logged_ydl st1 url)
                 | Entries [] => (Raise IndexError, logged_ydl st1 url)
                 | Entries (response :: _) =>
                     normalize_info response chg' (logged_ydl st1 url)
                 end = normalize_info info chg' (logged_ydl st1 url))
    by (destruct (first_record_cases _ _ Hinfo) as [-> | [rest ->]]; reflexivity).
  rewrite normalize_info_eq in Hn.
  destruct (apply_corrections (fields info) chg') as [response|] eqn:Hresp;
    [|discriminate Hn].
  destruct (upload_timestamp _) as [ts|] eqn:Hts; [|discriminate Hn].
  cbn [logged_ydl ytdlp_cache] in Hn.
  destruct (ytdlp_cache st !! webpage_url_domain info) as [part'|] eqn:Hp';
    [|discriminate Hn].
  cbv zeta in Hn. apply pair_eq_inv in Hn as [Hr Hst]. apply Ok_inj in Hr.
  cbn [logged_ydl yt_cache ytdlp_cache yt_calls ydl_calls] in Hst.
  assert (Hmiss : exists p1, ytdlp_cache st1 !! domain = Some p1
                             /\ cache_hit p1 video_id = None).
  { subst st1. cbn [ytdlp_cache].
    destruct (decide (webpage_url_domain info = domain)) as [E | E].
    - rewrite E, lookup_insert_eq. eexists. split; [reflexivity|].
      rewrite E, Hpart in Hp'. injection Hp' as <-.
      rewrite cache_hit_insert_ne; [exact Hit|].
      intros E'. apply Hkey. rewrite E, E'. reflexivity.
    - rewrite lookup_insert_ne by exact E. eauto. }
  destruct Hmiss as (p1 & Hp1 & Hmiss1).
  split; [subst r; reflexivity|].
  split.
  { subst st1. cbn [ytdlp_cache]. rewrite lookup_insert_eq. eexists.
    split; [reflexivity|]. rewrite lookup_insert_eq. subst r. reflexivity. }
  split; [intros second Hsecond; exists p1, video_id; auto|].
  split.
  - rewrite fetch_ytdlp_eq, Hd, Hacc, Hid, Hp1, Hmiss1, Hchg, Htarget.
    cbn [fst snd]. cbv zeta. rewrite Hout, normalize_info_eq, Hresp, Hts.
    destruct (store_again st url url info
                (make_video_data (dict_get response "title")
                   (dict_get response "channel") ts
                   (dict_get response "duration")) part' Hp') as [Hl Hs].
    cbv zeta in Hl, Hs. rewrite Hst in Hl, Hs. rewrite Hl. cbv zeta.
    rewrite Hs, Hr. reflexivity.
  - cbn [logged_ydl ydl_calls]. rewrite Hlog, <- List.app_assoc. reflexivity.
Qed.

Lemma repeated_request_fetched_again_example :
  fetch_ytdlp sample_world
    (mkParseResult "https" "x.com" "/u/status/7" "" "" "") initial_state
  = (Ok sample_post_record,
     mkState ∅ (<["twitter.com" := {["7" := sample_post_record]}]>
                  ytdlp_cache_init)
             [] ["https://twitter.com/u/status/7"])
  /\ fetch_ytdlp sample_world
       (mkParseResult "https" "x.com" "/u/status/7" "" "" "")
       (mkState ∅ (<["twitter.com" := {["7" := sample_post_record]}]>
                     ytdlp_cache_init)
                [] ["https://twitter.com/u/status/7"])
     = (Ok sample_post_record,
        mkState ∅ (<["twitter.com" := {["7" := sample_post_record]}]>
                     ytdlp_cache_init)
                [] ["https://twitter.com/u/status/7";
                    "https://twitter.com/u/status/7"]).
Proof.
  assert (H1 : fetch_ytdlp sample_world
                 (mkParseResult "https" "x.com" "/u/status/7" "" "" "")
                 initial_state
               = (Ok sample_post_record,
                  mkState ∅ (<["twitter.com" := {["7" := sample_post_record]}]>
                               ytdlp_cache_init)
                          [] ["https://twitter.com/u/status/7"]))
    by (vm_compute; reflexivity).
  assert (Hkey : (webpage_url_domain (mkYdlInfo "7" "twitter.com" sample_fields),
                  display_id (mkYdlInfo "7" "twitter.com" sample_fields))
                 <> ("x.com", "7"))
    by (intros E; discriminate E).
  split; [exact H1|].
  exact (proj1 (proj2 (proj2 (proj2
           (repeated_request_fetched_again sample_world
              (mkParseResult "https" "x.com" "/u/status/7" "" "" "")
              initial_state _ sample_post_record "x.com" "7"
              "https://twitter.com/u/status/7"
              (mkYdlInfo "7" "twitter.com" sample_fields)
              eq_refl eq_refl H1 eq_refl eq_refl Hkey))))).
Defined.

(** The same through the entry point: a batch that holds one [x.com] url
    twice calls the library twice. *)
Example x_com_batch_fetched_twice :
  update_item sample_world
    ["https://x.com/u/status/7"; "https://x.com/u/status/7"] initial_state
  = (Ok [sample_post_record; sample_post_record],
     mkState ∅ (<["twitter.com" := {["7" := sample_post_record]}]>
                  ytdlp_cache_init)
             [] ["https://twitter.com/u/status/7";
                 "https://twitter.com/u/status/7"]).
Proof. vm_compute. reflexivity. Qed.

(** ** [x.com] and [twitter.com] *)

Section XFacts.

Lemma plain_path_lacks p c :
  plain_path p = true -> path_breaker c = true -> PyStr.contains c p = false.
Proof.
  unfold plain_path. intros H Hc. apply andb_true_iff in H as [H _].
  apply andb_true_iff in H as [_ H].
  apply (all_chars_lacks (fun c => negb (path_breaker c))); [|exact H].
  rewrite Hc. reflexivity.
Qed.

Lemma plain_path_head p :
  plain_path p = true -> negb (nonempty p) || PyStr.startswith "/" p = true.
Proof.
  unfold plain_path. intros H. apply andb_true_iff in H as [H _].
  apply andb_true_iff in H as [H _]. exact H.
Qed.

Lemma splitparams_plain p : plain_path p = true -> splitparams p = (p, EmptyString).
Proof.
  unfold plain_path. intros H. apply andb_true_iff in H as [_ H].
  unfold splitparams. fold (params_mark p). rewrite H. reflexivity.
Qed.

Lemma remove_unsafe_plain p : plain_path p = true -> remove_unsafe p = p.
Proof.
  intros H. unfold remove_unsafe.
  rewrite (remove_absent "009" p) by (apply plain_path_lacks; [exact H | reflexivity]).
  rewrite (remove_absent "013" p) by (apply plain_path_lacks; [exact H | reflexivity]).
  apply remove_absent, plain_path_lacks; [exact H | reflexivity].
Qed.

Lemma splitnetloc_path p :
  negb (nonempty p) || PyStr.startswith "/" p = true ->
  splitnetloc p = (EmptyString, p).
Proof.
  destruct p as [|a p]; [reflexivity|].
  cbn [negb nonempty orb PyStr.startswith]. rewrite andb_true_r.
  intros H. apply chr_eqb_eq in H. subst a. reflexivity.
Qed.

Lemma urlparse_twitter_plain uc :
  plain_path (path uc) = true ->
  urlparse (twitter_url uc) = Ok (twitter_components uc).
Proof.
  intros H. unfold urlparse, twitter_url. rewrite urlsplit_twitter. cbv zeta.
  rewrite (remove_unsafe_plain _ H), (splitnetloc_path _ (plain_path_head _ H)).
  cbn [fst snd].
  change (xorb (PyStr.contains "[" ("twitter.com" +:+ ""))
               (PyStr.contains "]" ("twitter.com" +:+ ""))) with false.
  cbv iota.
  rewrite (plain_path_lacks _ "#" H eq_refl), (plain_path_lacks _ "?" H eq_refl).
  cbn [rbind]. rewrite (splitparams_plain _ H).
  destruct (mem "https" uses_params && PyStr.contains ";" (path uc));
    reflexivity.
Qed.

Lemma geturl_twitter_plain uc :
  plain_path (path uc) = true -> geturl (twitter_components uc) = twitter_url uc.
Proof.
  intros H. apply plain_path_head in H.
  unfold geturl, twitter_components, twitter_url.
  cbn [params netloc scheme query fragment path nonempty orb].
  replace (nonempty (path uc) && negb (PyStr.startswith "/" (path uc)))
    with false
    by (destruct (nonempty (path uc)), (PyStr.startswith "/" (path uc));
        (reflexivity || discriminate H)).
  reflexivity.
Qed.

Lemma fetch_target_rewritten w url new_url c :
  nonempty new_url = true ->
  c = twitter_base w \/ c = twitter_base w ++ [("duration", CNull)] ->
  fetch_target url (chg_set "url" (CStr new_url) c) = Ok (new_url, c).
Proof.
  intros Hn [-> | ->]; unfold fetch_target, twitter_base;
    cbn [chg_set chg_get chg_del app String.eqb Ascii.eqb Bool.eqb];
    rewrite Hn; reflexivity.
Qed.

(** An [x.com] request that reaches the provider is the request for the
    rewritten url. *)
Lemma fetch_x_as_twitter w uc st :
  normalized_netloc (netloc uc) = Ok "x.com" ->
  plain_path (path uc) = true ->
  uncached st "x.com" (path uc) ->
  uncached st "twitter.com" (path uc) ->
  fetch_ytdlp w uc st = fetch_ytdlp w (twitter_components uc) st.
Proof.
  intros Hd Hplain (px & id & Hpx & Hid & Hmx) (pt & id' & Hpt & Hid' & Hmt).
  rewrite Hid in Hid'. apply Ok_inj in Hid'. subst id'.
  assert (Hsite : site_of uc = Ok "x")
    by (apply (site_of_normalized uc "x" "com"); [reflexivity.. | exact Hd]).
  rewrite !fetch_ytdlp_eq, Hd.
  change (normalized_netloc (netloc (twitter_components uc)))
    with (Ok "twitter.com" : result string).
  change (path (twitter_components uc)) with (path uc).
  change (negb (mem "x.com" accepted_domains)) with false.
  change (negb (mem "twitter.com" accepted_domains)) with false.
  cbv iota. rewrite Hid, Hpx, Hmx, Hpt, Hmt.
  rewrite (preprocess_x w uc (twitter_components uc) Hsite
             (urlparse_twitter_plain uc Hplain) eq_refl).
  destruct (preprocess w (twitter_components uc)) as [c|e] eqn:Hc;
    [|reflexivity].
  cbn [rbind].
  pose proof (preprocess_twitter_cases w (twitter_components uc) c eq_refl Hc)
    as Hcases.
  rewrite (fetch_target_rewritten w (geturl uc) (twitter_url uc) c eq_refl Hcases).
  rewrite (fetch_target_twitter w _ c Hcases), (geturl_twitter_plain uc Hplain).
  reflexivity.
Qed.

End XFacts.

(** The [x.com] request and its [twitter.com] equivalent, for a plain
    path. *)
Lemma x_com_plain_same_as_twitter
    (w : world) (url_components : ParseResult) (st : state) :
  normalized_netloc (netloc url_components) = Ok "x.com" ->
  plain_path (path url_components) = true ->
  uncached st "x.com" (path url_components) ->
  uncached st "twitter.com" (path url_components) ->
  urlparse (twitter_url url_components) = Ok (twitter_components url_components)
  /\ preprocess w url_components
     = rbind (preprocess w (twitter_components url_components))
             (fun c => Ok (chg_set "url" (CStr (twitter_url url_components)) c))
  /\ (forall c,
        preprocess w (twitter_components url_components) = Ok c ->
        fetch_target (geturl url_components)
          (chg_set "url" (CStr (twitter_url url_components)) c)
        = Ok (twitter_url url_components, c)
        /\ fetch_target (geturl (twitter_components url_components)) c
           = Ok (twitter_url url_components, c))
  /\ fetch_ytdlp w url_components st
     = fetch_ytdlp w (twitter_components url_components) st.
Proof.
  intros Hd Hplain Hx Ht.
  assert (Hsite : site_of url_components = Ok "x")
    by (apply (site_of_normalized _ "x" "com"); [reflexivity.. | exact Hd]).
  split; [apply urlparse_twitter_plain, Hplain|].
  split; [apply preprocess_x;
          [exact Hsite | apply urlparse_twitter_plain, Hplain | reflexivity]|].
  split; [|apply fetch_x_as_twitter; assumption].
  intros c Hc.
  pose proof (preprocess_twitter_cases w (twitter_components url_components)
                c eq_refl Hc) as Hcases.
  split.
  - apply (fetch_target_rewritten w); [reflexivity | exact Hcases].
  - rewrite (fetch_target_twitter w _ c Hcases),
      (geturl_twitter_plain _ Hplain). reflexivity.
Qed.

(** ** The batch when nothing is raised *)

Section BatchFacts.

Lemma map_result_length {A B : Type} (f : A -> result B) l l' :
  map_result f l = Ok l' -> length l' = length l.
Proof.
  revert l'. induction l as [|a l IH]; intros l'; simpl.
  - intros H. apply Ok_inj in H. subst l'. reflexivity.
  - destruct (f a) as [b|]; [|discriminate]. simpl.
    destruct (map_result f l) as [bs|]; [|discriminate]. simpl.
    intros H. apply Ok_inj in H. subst l'. simpl. rewrite (IH bs eq_refl).
    reflexivity.
Qed.

Lemma map_result_lookup {A B : Type} (f : A -> result B) l l' i a :
  map_result f l = Ok l' -> l !! i = Some a ->
  exists b, f a = Ok b /\ l' !! i = Some b.
Proof.
  revert l' i. induction l as [|x l IH]; intros l' i; simpl.
  - intros _ H. discriminate H.
  - destruct (f x) as [y|] eqn:Ex; [|discriminate]. simpl.
    destruct (map_result f l) as [bs|]; [|discriminate]. simpl.
    intros H. apply Ok_inj in H. subst l'.
    destruct i as [|i]; simpl.
    + intros H. apply (inj Some) in H. subst x. eauto.
    + intros H. exact (IH bs i eq_refl H).
Qed.

Lemma map_result_take {A B : Type} (f : A -> result B) l l' i :
  map_result f l = Ok l' -> map_result f (take i l) = Ok (take i l').
Proof.
  revert l' i. induction l as [|x l IH]; intros l' i; simpl.
  - intros H. apply Ok_inj in H. subst l'. destruct i; reflexivity.
  - destruct (f x) as [y|] eqn:Ex; [|discriminate]. simpl.
    destruct (map_result f l) as [bs|]; [|discriminate]. simpl.
    intros H. apply Ok_inj in H. subst l'.
    destruct i as [|i]; simpl; [reflexivity|].
    rewrite Ex. simpl. rewrite (IH bs i eq_refl). reflexivity.
Qed.

(** A comprehension that returns has one result per element, each
    computed in the state its predecessors left. *)
Lemma map_M_results {A B : Type} (f : A -> M B) l :
  forall st rs st',
    map_M f l st = (Ok rs, st') ->
    length rs = length l
    /\ forall i a, l !! i = Some a ->
         exists st_i st_i' b,
           map_M f (take i l) st = (Ok (take i rs), st_i)
           /\ f a st_i = (Ok b, st_i')
           /\ rs !! i = Some b.
Proof.
  induction l as [|x l IH]; intros st rs st'; simpl; unfold bind, ret.
  - intros H. apply pair_eq_inv in H as [H _]. apply Ok_inj in H. subst rs.
    split; [reflexivity|]. intros i a H. discriminate H.
  - destruct (f x st) as [[y|e] st1] eqn:Ex; [|discriminate].
    destruct (map_M f l st1) as [[bs|e] st2] eqn:El; [|discriminate].
    intros H. apply pair_eq_inv in H as [H <-]. apply Ok_inj in H. subst rs.
    destruct (IH st1 bs st2 El) as [Hlen Hnth].
    split; [simpl; rewrite Hlen; reflexivity|].
    intros [|i] a; simpl.
    + intros H. apply (inj Some) in H. subst x.
      exists st, st1, y. repeat split. exact Ex.
    + intros H. destruct (Hnth i a H) as (st_i & st_i' & b & Htake & Hf & Hb).
      exists st_i, st_i', b. unfold bind, ret. rewrite Ex, Htake.
      repeat split; assumption.
Qed.

Lemma fetch_youtube_no_match w uc st :
  path uc <> "/watch" ->
  Re.livestream_match (path uc) = None ->
  Re.shortened_match (path uc) = None ->
  fetch_youtube w uc st = (Ok (invalid "No video id present"), st).
Proof.
  intros Hp Hl Hs. rewrite fetch_youtube_eq. unfold extract_video_id.
  destruct (String.eqb (path uc) "/watch") eqn:E.
  - apply String.eqb_eq in E. contradiction.
  - rewrite Hl, Hs. reflexivity.
Qed.

End BatchFacts.

(** When [update_item] returns, it returns one result per url, in the
    order of the urls: the i-th result is what the adapter the i-th url
    is routed to returned in the state the first i urls left. *)
Theorem update_item_results_in_order
    (w : world) (urls : list string) (st st' : state) (rs : list pydict) :
  update_item w urls st = (Ok rs, st') ->
  length rs = length urls
  /\ forall i url, urls !! i = Some url ->
       exists url_components st_i st_i' r,
         urlparse url = Ok url_components
         /\ update_item w (take i urls) st = (Ok (take i rs), st_i)
         /\ route w url_components st_i = (Ok r, st_i')
         /\ rs !! i = Some r.
Proof.
  unfold update_item, bind, lift.
  destruct (map_result urlparse urls) as [parsed|e] eqn:Hp; [|discriminate].
  intros H. destruct (map_M_results _ _ _ _ _ H) as [Hlen Hnth].
  split; [rewrite Hlen; apply (map_result_length _ _ _ Hp)|].
  intros i url Hi.
  destruct (map_result_lookup _ _ _ _ _ Hp Hi) as (uc & Huc & Hpi).
  destruct (Hnth i uc Hpi) as (st_i & st_i' & r & Htake & Hr & Hri).
  exists uc, st_i, st_i', r.
  rewrite (map_result_take _ _ _ i Hp). repeat split; assumption.
Qed.

Lemma update_item_results_in_order_example :
  length [sample_video_record;
          invalid "Url not from an accepted domain";
          sample_post_record] = 3%nat
  /\ forall i url,
       ["https://youtu.be/abc"; "https://example.org/video/1";
        "https://x.com/u/status/7"] !! i = Some url ->
       exists url_components st_i st_i' r,
         urlparse url = Ok url_components
         /\ update_item sample_world
              (take i ["https://youtu.be/abc"; "https://example.org/video/1";
                       "https://x.com/u/status/7"]) initial_state
            = (Ok (take i [sample_video_record;
                           invalid "Url not from an accepted domain";
                           sample_post_record]), st_i)
         /\ route sample_world url_components st_i = (Ok r, st_i')
         /\ [sample_video_record;
             invalid "Url not from an accepted domain";
             sample_post_record] !! i = Some r.
Proof.
  apply (update_item_results_in_order sample_world
           ["https://youtu.be/abc"; "https://example.org/video/1";
            "https://x.com/u/status/7"]
           initial_state
           (mkState {["abc" := sample_video_record]}
                    (<["twitter.com" := {["7" := sample_post_record]}]>
                       ytdlp_cache_init)
                    ["abc"] ["https://twitter.com/u/status/7"])).
  vm_compute. reflexivity.
Defined.

(** A url of the managed platform whose path is not [/watch] and matches
    neither the live pattern nor the short pattern is rejected with
    [No video id present]; nothing is raised and the state is kept. *)
Theorem fetch_youtube_rejects_unmatched_path
    (w : world) (url_components : ParseResult) (st : state) :
  path url_components <> "/watch" ->
  Re.livestream_match (path url_components) = None ->
  Re.shortened_match (path url_components) = None ->
  fetch_youtube w url_components st
  = (Ok (invalid "No video id present"), st).
Proof. apply fetch_youtube_no_match. Qed.

Lemma fetch_youtube_rejects_unmatched_path_example :
  urlparse "https://www.youtube.com/"
  = Ok (mkParseResult "https" "www.youtube.com" "/" "" "" "")
  /\ fetch_youtube sample_world
       (mkParseResult "https" "www.youtube.com" "/" "" "" "") initial_state
     = (Ok (invalid "No video id present"), initial_state).
Proof.
  split; [vm_compute; reflexivity|].
  apply (fetch_youtube_rejects_unmatched_path sample_world
           (mkParseResult "https" "www.youtube.com" "/" "" "" ""));
    [discriminate | reflexivity | reflexivity].
Defined.

(** [preprocess] terminates: one recursive call at most, so that fuel
    two gives a result and more fuel gives the same. *)
Theorem preprocess_recursion_depth
    (w : world) (url_components : ParseResult) (n : nat) :
  preprocess_fuel (2 + n) w url_components = preprocess_fuel 2 w url_components
  /\ preprocess_fuel 2 w url_components = Some (preprocess w url_components).
Proof.
  destruct (preprocess_depth w url_components n) as [E Hsome].
  split; [exact E|]. unfold preprocess.
  destruct (preprocess_fuel 2 w url_components); [reflexivity | contradiction].
Qed.

(** ** The path [urlparse] returns *)

Section ParsedPathFacts.

Implicit Types (s t u v : string) (c x : ascii).

Lemma all_chars_app (pred : ascii -> bool) s t :
  all_chars pred (s +:+ t) = all_chars pred s && all_chars pred t.
Proof.
  induction s as [|a s IH]; [reflexivity|].
  rewrite app_cons. simpl. rewrite IH. apply andb_assoc.
Qed.

Lemma all_chars_drop (pred : ascii -> bool) n s :
  all_chars pred s = true -> all_chars pred (PyStr.drop n s) = true.
Proof.
  revert s. induction n as [|n IH]; intros [|a s]; simpl; auto.
  intros H. apply andb_true_iff in H as [_ H]. apply IH, H.
Qed.

Lemma contains_drop c n s :
  PyStr.contains c s = false -> PyStr.contains c (PyStr.drop n s) = false.
Proof.
  revert s. induction n as [|n IH]; intros [|a s]; simpl; auto.
  intros H. apply orb_false_iff in H as [_ H]. apply IH, H.
Qed.

Lemma remove_lacks c s : PyStr.contains c (PyStr.remove c s) = false.
Proof.
  induction s as [|a s IH]; [reflexivity|]. simpl.
  destruct (PyStr.chr_eqb a c) eqn:E; [exact IH|]. simpl. rewrite E. exact IH.
Qed.

Lemma remove_keeps_lack c x s :
  PyStr.contains x s = false -> PyStr.contains x (PyStr.remove c s) = false.
Proof.
  induction s as [|a s IH]; [reflexivity|]. simpl.
  intros H. apply orb_false_iff in H as [Ha Hs].
  destruct (PyStr.chr_eqb a c); [exact (IH Hs)|]. simpl.
  rewrite Ha. exact (IH Hs).
Qed.

Lemma remove_unsafe_safe s : safe_chars (remove_unsafe s).
Proof.
  unfold safe_chars, remove_unsafe. repeat split.
  - apply remove_keeps_lack, remove_keeps_lack, remove_lacks.
  - apply remove_lacks.
  - apply remove_keeps_lack, remove_lacks.
Qed.

Lemma safe_chars_drop n s : safe_chars s -> safe_chars (PyStr.drop n s).
Proof. intros (H1 & H2 & H3). repeat split; apply contains_drop; assumption. Qed.

Lemma safe_chars_app_l s t : safe_chars (s +:+ t) -> safe_chars s.
Proof.
  unfold safe_chars. rewrite !contains_app. intros (H1 & H2 & H3).
  apply orb_false_iff in H1 as [H1 _]. apply orb_false_iff in H2 as [H2 _].
  apply orb_false_iff in H3 as [H3 _]. auto.
Qed.

Lemma split_scheme_suffix s :
  exists n, snd (split_scheme s) = PyStr.drop n s.
Proof.
  unfold split_scheme. destruct s as [|a s]; [exists 0%nat; reflexivity|].
  match goal with
  | |- context [if ?b then _ else _] => destruct b
  end.
  - eexists. reflexivity.
  - exists 0%nat. reflexivity.
Qed.

(** What follows the host is empty or starts with a delimiter, and is
    the end of the text the host was cut from. *)
Lemma splitnetloc_rest s :
  (snd (splitnetloc s) = EmptyString
   \/ exists a r, snd (splitnetloc s) = String a r /\ is_delim a = true)
  /\ exists n, snd (splitnetloc s) = PyStr.drop n s.
Proof.
  induction s as [|a s [IH1 [n IH2]]]; simpl.
  - split; [left; reflexivity | exists 0%nat; reflexivity].
  - destruct (is_delim a) eqn:E.
    + split; [right; eauto | exists 0%nat; reflexivity].
    + destruct (splitnetloc s) as [h r]. simpl in *.
      split; [exact IH1 | exists (S n); exact IH2].
Qed.

(** The text before the first [c]. *)
Lemma cut_before c s :
  PyStr.contains c s = true ->
  exists a b, cut c s = (a, b) /\ s = a +:+ String c b
              /\ PyStr.contains c a = false.
Proof.
  intros H. destruct (split1_present c s H) as (a & b & E & Hs & Ha).
  exists a, b. unfold cut. rewrite E. auto.
Qed.

(** One step of the parser that keeps a prefix: the text itself, or the
    text before the first [c]. *)
Lemma prefix_before c s :
  exists a b,
    fst (if PyStr.contains c s then cut c s else (s, EmptyString)) = a
    /\ s = a +:+ b /\ PyStr.contains c a = false.
Proof.
  destruct (PyStr.contains c s) eqn:H.
  - destruct (cut_before c s H) as (a & b & -> & Hs & Ha).
    exists a, (String c b). auto.
  - exists s, EmptyString. rewrite app_empty_r. auto.
Qed.

Lemma find_split c s :
  PyStr.contains c s = true ->
  exists a b, s = a +:+ String c b /\ PyStr.contains c a = false
              /\ PyStr.find c s = PyStr.len a.
Proof.
  induction s as [|x s IH]; simpl; [discriminate|].
  destruct (PyStr.chr_eqb x c) eqn:E.
  - intros _. apply chr_eqb_eq in E. subst x. exists EmptyString, s. auto.
  - simpl. intros H. destruct (IH H) as (a & b & Hs & Ha & Hf).
    exists (String x a), b. rewrite app_cons, <- Hs. simpl. rewrite E, Ha, Hf.
    pose proof (len_nonneg a).
    destruct (PyStr.len a <? 0) eqn:L; [lia|]. auto.
Qed.

Lemma rfind_app_last c u t :
  PyStr.contains c t = false ->
  PyStr.rfind c (u +:+ String c t) = PyStr.len u.
Proof.
  intros Ht. induction u as [|x u IH].
  - rewrite app_empty. simpl. rewrite (rfind_absent _ _ Ht).
    unfold PyStr.chr_eqb. rewrite Ascii.eqb_refl. reflexivity.
  - rewrite app_cons. simpl. rewrite IH. pose proof (len_nonneg u).
    destruct (0 <=? PyStr.len u) eqn:L; [reflexivity | lia].
Qed.

Lemma rfind_split c s :
  PyStr.contains c s = true ->
  exists u t, s = u +:+ String c t /\ PyStr.contains c t = false.
Proof.
  induction s as [|x s IH]; simpl; [discriminate|].
  destruct (PyStr.contains c s) eqn:Hs.
  - intros _. destruct (IH eq_refl) as (u & t & -> & Ht).
    exists (String x u), t. auto.
  - rewrite orb_false_r. intros E. apply chr_eqb_eq in E. subst x.
    exists EmptyString, s. auto.
Qed.

Lemma contains_app_l c s t :
  PyStr.contains c (s +:+ t) = false -> PyStr.contains c s = false.
Proof. rewrite contains_app. intros H. apply orb_false_iff in H as [H _]. exact H. Qed.

Lemma startswith_app_l s t :
  PyStr.startswith "/" (s +:+ String "/" t) = true ->
  forall v, PyStr.startswith "/" (s +:+ String "/" v) = true.
Proof. destruct s as [|a s]; intros H v; [reflexivity | exact H]. Qed.

(** The parameters are cut off the last segment and nothing else is. *)
Lemma splitparams_path s :
  s = EmptyString \/ PyStr.startswith "/" s = true ->
  exists p b,
    fst (if PyStr.contains ";" s then splitparams s else (s, EmptyString)) = p
    /\ s = p +:+ b
    /\ (p = EmptyString \/ PyStr.startswith "/" p = true)
    /\ params_mark p < 0.
Proof.
  intros Hhead. destruct (PyStr.contains ";" s) eqn:Hsemi.
  2:{ exists s, EmptyString. rewrite app_empty_r. repeat split; [exact Hhead|].
      unfold params_mark, PyStr.slice_from.
      rewrite find_absent by (apply contains_drop, Hsemi). lia. }
  destruct Hhead as [-> | Hhead]; [discriminate Hsemi|].
  assert (Hslash : PyStr.contains "/" s = true).
  { destruct s as [|a s]; [discriminate Hhead|].
    cbn [PyStr.startswith] in Hhead.
    apply andb_true_iff in Hhead as [Ha _]. apply chr_eqb_eq in Ha. subst a.
    reflexivity. }
  destruct (rfind_split "/" s Hslash) as (u & t & -> & Ht).
  unfold splitparams. rewrite Hslash, (rfind_app_last _ u t Ht), slice_from_app.
  destruct (PyStr.contains ";" t) eqn:Hsemi_t.
  - destruct (find_split ";" t Hsemi_t) as (v & b & -> & Hv & Hfind).
    cbn [PyStr.find]. change (PyStr.chr_eqb "/" ";") with false. cbv iota.
    rewrite Hfind. pose proof (len_nonneg v) as Hlen. cbv zeta.
    destruct (PyStr.len v <? 0) eqn:L1; [lia|].
    destruct (1 + PyStr.len v <? 0) eqn:L2; [lia|].
    exists (u +:+ String "/" v), (String ";" b). cbn [fst].
    assert (Hlen' : PyStr.len u + (1 + PyStr.len v)
                    = PyStr.len (u +:+ String "/" v))
      by (rewrite len_app; reflexivity).
    assert (Hs : u +:+ String "/" (v +:+ String ";" b)
                 = (u +:+ String "/" v) +:+ String ";" b)
      by (rewrite app_assoc, app_cons; reflexivity).
    rewrite Hlen', Hs, slice_to_app.
    split; [reflexivity|]. split; [reflexivity|].
    split; [right; exact (startswith_app_l u _ Hhead v)|].
    apply contains_app_l in Ht.
    unfold params_mark. rewrite contains_app. cbn [PyStr.contains].
    change (PyStr.chr_eqb "/" "/") with true. rewrite orb_true_r. cbv iota.
    rewrite (rfind_app_last _ u v Ht), slice_from_app.
    rewrite find_absent; [lia|]. cbn [PyStr.contains].
    change (PyStr.chr_eqb "/" ";") with false. exact Hv.
  - cbn [PyStr.find]. change (PyStr.chr_eqb "/" ";") with false. cbv iota.
    rewrite (find_absent _ _ Hsemi_t). cbv zeta. cbn [Z.ltb Z.compare fst].
    exists (u +:+ String "/" t), EmptyString. rewrite app_empty_r.
    split; [reflexivity|]. split; [reflexivity|]. split; [right; exact Hhead|].
    unfold params_mark. rewrite Hslash, (rfind_app_last _ u t Ht), slice_from_app.
    rewrite find_absent; [lia|]. cbn [PyStr.contains].
    change (PyStr.chr_eqb "/" ";") with false. exact Hsemi_t.
Qed.

Lemma all_chars_not_breaker s :
  PyStr.contains "?" s = false -> PyStr.contains "#" s = false ->
  safe_chars s -> all_chars (fun c => negb (path_breaker c)) s = true.
Proof.
  induction s as [|a s IH]; [reflexivity|].
  unfold safe_chars. cbn [PyStr.contains all_chars].
  intros Hq Hf (Ht & Hn & Hr).
  apply orb_false_iff in Hq as [Hq Hq'], Hf as [Hf Hf'], Ht as [Ht Ht'],
    Hn as [Hn Hn'], Hr as [Hr Hr'].
  unfold path_breaker. rewrite Hq, Hf, Ht, Hn, Hr.
  apply IH; [assumption..|repeat split; assumption].
Qed.

Lemma safe_chars_prefix s t u : s = t +:+ u -> safe_chars s -> safe_chars t.
Proof. intros ->. apply safe_chars_app_l. Qed.

(** For a url with a host and a scheme that takes parameters, the path
    [urlparse] returns is a plain one. *)
Lemma urlparse_plain_path url uc :
  urlparse url = Ok uc -> nonempty (netloc uc) = true ->
  mem (scheme uc) uses_params = true -> plain_path (path uc) = true.
Proof.
  unfold urlparse, urlsplit.
  pose proof (remove_unsafe_safe (lstrip_c0 url)) as Hsafe1.
  destruct (split_scheme_suffix (remove_unsafe (lstrip_c0 url))) as [n Hn].
  destruct (split_scheme (remove_unsafe (lstrip_c0 url))) as [sch url2].
  cbn [snd] in Hn.
  assert (Hsafe2 : safe_chars url2) by (rewrite Hn; apply safe_chars_drop, Hsafe1).
  destruct (PyStr.startswith "//" url2).
  2:{ cbn [rbind].
      destruct (if PyStr.contains "#" url2 then _ else _) as [url4 frag].
      destruct (if PyStr.contains "?" url4 then _ else _) as [url5 qry].
      cbn [rbind].
      match goal with
      | |- context [if ?b then splitparams ?x else ?y] =>
          destruct (if b then splitparams x else y) as [p' prm]
      end.
      intros H. apply Ok_inj in H. subst uc. discriminate. }
  destruct (splitnetloc_rest (PyStr.drop 2 url2)) as [Hhead3 [m Hm]].
  destruct (splitnetloc (PyStr.drop 2 url2)) as [nl rest]. cbn [snd] in *.
  destruct (xorb _ _); [discriminate|]. cbn [rbind].
  assert (Hsafe3 : safe_chars rest)
    by (rewrite Hm; apply safe_chars_drop, safe_chars_drop, Hsafe2).
  destruct (prefix_before "#" rest) as (url4 & b4 & E4 & Hs4 & Hl4).
  destruct (if PyStr.contains "#" rest then _ else _) as [u4 frag].
  cbn [fst] in E4. subst u4.
  destruct (prefix_before "?" url4) as (url5 & b5 & E5 & Hs5 & Hl5).
  destruct (if PyStr.contains "?" url4 then _ else _) as [u5 qry].
  cbn [fst] in E5. subst u5. cbn [rbind].
  assert (Hhash5 : PyStr.contains "#" url5 = false)
    by (rewrite Hs5 in Hl4; apply (contains_app_l _ _ _ Hl4)).
  assert (Hsafe5 : safe_chars url5).
  { apply (safe_chars_prefix url4 url5 b5 Hs5).
    apply (safe_chars_prefix rest url4 b4 Hs4), Hsafe3. }
  assert (Hhead5 : url5 = EmptyString \/ PyStr.startswith "/" url5 = true).
  { destruct url5 as [|x r5]; [left; reflexivity | right].
    destruct Hhead3 as [Hr | (a & r & Hr & Ha)];
      rewrite Hs4, Hs5, !app_cons in Hr; [discriminate Hr|].
    injection Hr as <- _. cbn [PyStr.contains] in Hl5, Hhash5.
    apply orb_false_iff in Hl5 as [Hq _], Hhash5 as [Hh _].
    unfold is_delim in Ha. rewrite Hq, Hh, !orb_false_r in Ha.
    apply chr_eqb_eq in Ha. subst x. reflexivity. }
  destruct (splitparams_path url5 Hhead5) as (p & b & Ep & Hsp & Hheadp & Hmark).
  intros H Hnl Hmem.
  match type of H with
  | context [if ?c then splitparams ?x else ?y] =>
      destruct (if c then splitparams x else y) as [p' prm] eqn:Hprm
  end.
  apply Ok_inj in H. subst uc. cbn [scheme netloc path] in *.
  rewrite Hmem in Hprm. cbn [andb] in Hprm. rewrite Hprm in Ep.
  cbn [fst] in Ep. subst p'.
  unfold plain_path. apply andb_true_iff. split; [apply andb_true_iff; split|].
  - destruct Hheadp as [-> | ->]; [reflexivity | apply orb_true_r].
  - apply all_chars_not_breaker.
    + rewrite Hsp in Hl5. apply (contains_app_l _ _ _ Hl5).
    + rewrite Hsp in Hhash5. apply (contains_app_l _ _ _ Hhash5).
    + apply (safe_chars_prefix url5 p b Hsp), Hsafe5.
  - apply Z.ltb_lt, Hmark.
Qed.

End ParsedPathFacts.

(** ** The [x.com] request as a [twitter.com] request *)

Section RewriteFacts.

Lemma fetch_x_rewritten w uc st :
  normalized_netloc (netloc uc) = Ok "x.com" ->
  plain_path (path uc) = true ->
  uncached st "x.com" (path uc) ->
  fetch_ytdlp w uc st = fetch_as_twitter w uc st.
Proof.
  intros Hd Hplain (px & id & Hpx & Hid & Hmx).
  assert (Hsite : site_of uc = Ok "x")
    by (apply (site_of_normalized uc "x" "com"); [reflexivity.. | exact Hd]).
  rewrite fetch_ytdlp_eq, Hd.
  change (negb (mem "x.com" accepted_domains)) with false.
  cbv iota. rewrite Hid, Hpx, Hmx.
  rewrite (preprocess_x w uc (twitter_components uc) Hsite
             (urlparse_twitter_plain uc Hplain) eq_refl).
  unfold fetch_as_twitter.
  destruct (preprocess w (twitter_components uc)) as [c|e] eqn:Hc;
    [|reflexivity].
  cbn [rbind].
  pose proof (preprocess_twitter_cases w (twitter_components uc) c eq_refl Hc)
    as Hcases.
  rewrite (fetch_target_rewritten w (geturl uc) (twitter_url uc) c eq_refl Hcases).
  reflexivity.
Qed.

Lemma fetch_twitter_fresh w uc st :
  plain_path (path uc) = true ->
  uncached st "twitter.com" (path uc) ->
  fetch_ytdlp w (twitter_components uc) st = fetch_as_twitter w uc st.
Proof.
  intros Hplain (pt & id & Hpt & Hid & Hmt).
  rewrite fetch_ytdlp_eq.
  change (normalized_netloc (netloc (twitter_components uc)))
    with (Ok "twitter.com" : result string).
  change (path (twitter_components uc)) with (path uc).
  change (negb (mem "twitter.com" accepted_domains)) with false.
  cbv iota. rewrite Hid, Hpt, Hmt.
  unfold fetch_as_twitter.
  destruct (preprocess w (twitter_components uc)) as [c|e] eqn:Hc;
    [|reflexivity].
  pose proof (preprocess_twitter_cases w (twitter_components uc) c eq_refl Hc)
    as Hcases.
  rewrite (fetch_target_twitter w _ c Hcases), (geturl_twitter_plain uc Hplain).
  reflexivity.
Qed.

Lemma fetch_twitter_cached w uc st partition video_id r :
  ytdlp_cache st !! "twitter.com" = Some partition ->
  last_segment (path uc) = Ok video_id ->
  cache_hit partition video_id = Some r ->
  fetch_ytdlp w (twitter_components uc) st = (Ok r, st).
Proof.
  intros Hpt Hid Hit. rewrite fetch_ytdlp_eq.
  change (normalized_netloc (netloc (twitter_components uc)))
    with (Ok "twitter.com" : result string).
  change (path (twitter_components uc)) with (path uc).
  change (negb (mem "twitter.com" accepted_domains)) with false.
  cbv iota. rewrite Hid, Hpt, Hit. reflexivity.
Qed.

(** The record the rewritten request builds. *)
Lemma fetch_as_twitter_record w uc st info c :
  first_record (ydl_extract_info w (twitter_url uc)) = Some info ->
  preprocess w (twitter_components uc) = Ok c ->
  fetch_as_twitter w uc st
  = match dict_get (fields info) "title" with
    | PStr t =>
        fetched st (twitter_url uc) info
          (PStr ("X post by "
                 +:+ py_str w (dict_get (fields info) "uploader_id")
                 +:+ " (" +:+ PyStr.take 5 (Sha256.hexdigest t) +:+ ")"))
          (dict_get (fields info) "uploader_id")
          (dict_get (fields info) "upload_date")
          (match chg_get "duration" c with
           | Some _ => PNone
           | None => dict_get (fields info) "duration"
           end)
    | _ => (Raise AttributeError, logged_ydl st (twitter_url uc))
    end.
Proof.
  intros Hinfo Hc. unfold fetch_as_twitter. rewrite Hc. cbv zeta.
  assert (Hout : match ydl_extract_info w (twitter_url uc) with
                 | DownloadError =>
                     (Ok (invalid "Url doesn't point to a video"),
                      logged_ydl st (twitter_url uc))
                 | Info response =>
                     normalize_info response c (logged_ydl st (twitter_url uc))
                 | Entries [] => (Raise IndexError, logged_ydl st (twitter_url uc))
                 | Entries (response :: _) =>
                     normalize_info response c (logged_ydl st (twitter_url uc))
                 end = normalize_info info c (logged_ydl st (twitter_url uc)))
    by (destruct (first_record_cases _ _ Hinfo) as [-> | [rest ->]]; reflexivity).
  rewrite Hout, normalize_info_eq. unfold fetched.
  destruct (preprocess_twitter_cases w (twitter_components uc) c eq_refl Hc)
    as [-> | ->]; unfold twitter_base;
    cbn [app apply_corrections apply_correction rbind chg_get
         String.eqb Ascii.eqb Bool.eqb];
    unfold x_post_title; rewrite !dict_get_insert_ne by discriminate;
    (destruct (dict_get (fields info) "title") as [| |?|t]; try reflexivity);
    cbn [hash_str rbind];
    repeat (rewrite ?dict_get_insert_eq;
            repeat (rewrite dict_get_insert_ne by discriminate));
    reflexivity.
Qed.

End RewriteFacts.

(** C5 fails on the code, in its last part.  For every url that parses to
    an [x.com] host (with a scheme that takes parameters, such as [http]
    and [https]) and that is not answered from the [x.com] partition of
    the cache:
    - the rewritten url, [https://twitter.com] followed by the same path,
      parses to the [twitter.com] components with that path and is the
      url these stand for;
    - the rule set is the one of those components with the rewritten url
      added, and the url handed to the library is the rewritten url, for
      the [x.com] url and for its [twitter.com] equivalent alike, with
      the same corrections left to apply;
    - the request is [fetch_as_twitter]: the library is called with the
      rewritten url and its record corrected by the [twitter.com] rule
      set; so is the request for the [twitter.com] equivalent in every
      state in which that one is not answered from the cache, and the two
      have the same outcome and leave the same state when made in one
      such state;
    - the record has the uploader of [uploader_id], the title
      [X post by <uploader_id> (<h>)] and no duration when the rule set
      has the duration rule ([AttributeError] when the title the library
      reports is not a string);
    - but a [twitter.com] equivalent that is answered from the cache
      returns the stored record and calls nothing, while the [x.com] url
      is fetched: the two results then differ when the stored record is
      not the one a fetch builds. *)
Theorem x_com_fetched_as_twitter
    (w : world) (url : string) (url_components : ParseResult) (st : state) :
  urlparse url = Ok url_components ->
  mem (scheme url_components) uses_params = true ->
  normalized_netloc (netloc url_components) = Ok "x.com" ->
  uncached st "x.com" (path url_components) ->
  (urlparse (twitter_url url_components) = Ok (twitter_components url_components)
   /\ geturl (twitter_components url_components) = twitter_url url_components)
  /\ preprocess w url_components
     = rbind (preprocess w (twitter_components url_components))
             (fun c => Ok (chg_set "url" (CStr (twitter_url url_components)) c))
  /\ (forall c,
        preprocess w (twitter_components url_components) = Ok c ->
        fetch_target (geturl url_components)
          (chg_set "url" (CStr (twitter_url url_components)) c)
        = Ok (twitter_url url_components, c)
        /\ fetch_target (geturl (twitter_components url_components)) c
           = Ok (twitter_url url_components, c))
  /\ fetch_ytdlp w url_components st = fetch_as_twitter w url_components st
  /\ (forall st2,
        uncached st2 "twitter.com" (path url_components) ->
        fetch_ytdlp w (twitter_components url_components) st2
        = fetch_as_twitter w url_components st2)
  /\ (uncached st "twitter.com" (path url_components) ->
      fetch_ytdlp w url_components st
      = fetch_ytdlp w (twitter_components url_components) st)
  /\ (forall info c,
        first_record (ydl_extract_info w (twitter_url url_components))
        = Some info ->
        preprocess w (twitter_components url_components) = Ok c ->
        fetch_ytdlp w url_components st
        = match dict_get (fields info) "title" with
          | PStr t =>
              fetched st (twitter_url url_components) info
                (PStr ("X post by "
                       +:+ py_str w (dict_get (fields info) "uploader_id")
                       +:+ " (" +:+ PyStr.take 5 (Sha256.hexdigest t) +:+ ")"))
                (dict_get (fields info) "uploader_id")
                (dict_get (fields info) "upload_date")
                (match chg_get "duration" c with
                 | Some _ => PNone
                 | None => dict_get (fields info) "duration"
                 end)
          | _ => (Raise AttributeError,
                  logged_ydl st (twitter_url url_components))
          end)
  /\ (forall partition video_id r,
        ytdlp_cache st !! "twitter.com" = Some partition ->
        last_segment (path url_components) = Ok video_id ->
        cache_hit partition video_id = Some r ->
        fetch_ytdlp w (twitter_components url_components) st = (Ok r, st)).
Proof.
  intros Hparse Hscheme Hd Hx.
  assert (Hplain : plain_path (path url_components) = true).
  { apply (urlparse_plain_path url); [exact Hparse | | exact Hscheme].
    destruct (netloc url_components); [discriminate Hd | reflexivity]. }
  assert (Hsite : site_of url_components = Ok "x")
    by (apply (site_of_normalized _ "x" "com"); [reflexivity.. | exact Hd]).
  assert (Hfetch : fetch_ytdlp w url_components st
                   = fetch_as_twitter w url_components st)
    by (apply fetch_x_rewritten; assumption).
  split; [split; [apply urlparse_twitter_plain | apply geturl_twitter_plain];
          exact Hplain|].
  split; [apply preprocess_x;
          [exact Hsite | apply urlparse_twitter_plain, Hplain | reflexivity]|].
  split.
  { intros c Hc.
    pose proof (preprocess_twitter_cases w (twitter_components url_components)
                  c eq_refl Hc) as Hcases.
    split.
    - apply (fetch_target_rewritten w); [reflexivity | exact Hcases].
    - rewrite (fetch_target_twitter w _ c Hcases),
        (geturl_twitter_plain _ Hplain). reflexivity. }
  split; [exact Hfetch|].
  split; [intros st2 Ht; apply fetch_twitter_fresh; assumption|].
  split; [intros Ht; rewrite Hfetch; symmetry;
          apply fetch_twitter_fresh; assumption|].
  split.
  - intros info c Hinfo Hc. rewrite Hfetch.
    apply fetch_as_twitter_record; assumption.
  - intros partition video_id r. apply fetch_twitter_cached.
Qed.

Lemma x_com_fetched_as_twitter_example :
  fetch_ytdlp sample_world
    (mkParseResult "https" "x.com" "/u/status/7" "" "s=20" "")
    (mkState ∅ (<["twitter.com" := {["7" := sample_post_without_duration]}]>
                  ytdlp_cache_init)
             [] ["https://twitter.com/u/status/7/video/2"])
  = (Ok sample_post_record,
     mkState ∅ (<["twitter.com" := {["7" := sample_post_record]}]>
                  ytdlp_cache_init)
             [] ["https://twitter.com/u/status/7/video/2";
                 "https://twitter.com/u/status/7"])
  /\ fetch_ytdlp sample_world
       (mkParseResult "https" "twitter.com" "/u/status/7" "" "" "")
       (mkState ∅ (<["twitter.com" := {["7" := sample_post_without_duration]}]>
                     ytdlp_cache_init)
                [] ["https://twitter.com/u/status/7/video/2"])
     = (Ok sample_post_without_duration,
        mkState ∅ (<["twitter.com" := {["7" := sample_post_without_duration]}]>
                     ytdlp_cache_init)
                [] ["https://twitter.com/u/status/7/video/2"])
  /\ sample_post_record !! "duration" = Some (PFloat 30.5%float)
  /\ sample_post_without_duration !! "duration" = Some PNone.
Proof.
  assert (Hp : urlparse "https://x.com/u/status/7?s=20"
               = Ok (mkParseResult "https" "x.com" "/u/status/7" "" "s=20" ""))
    by (vm_compute; reflexivity).
  assert (Hx : uncached
                 (mkState ∅
                    (<["twitter.com" := {["7" := sample_post_without_duration]}]>
                       ytdlp_cache_init)
                    [] ["https://twitter.com/u/status/7/video/2"])
                 "x.com" "/u/status/7")
    by (exists ∅, "7"; repeat split).
  destruct (x_com_fetched_as_twitter sample_world _ _ _ Hp eq_refl eq_refl Hx)
    as (_ & _ & _ & Hfetch & _ & _ & _ & Hcached).
  split; [rewrite Hfetch; vm_compute; reflexivity|].
  split; [|split; reflexivity].
  exact (Hcached {["7" := sample_post_without_duration]} "7"
           sample_post_without_duration eq_refl eq_refl eq_refl).
Defined.

(** The batch that shows the difference: the second video of a post, which
    leaves the post in the cache without duration; the post on
    [twitter.com], answered from the cache; the post on [x.com],
    fetched. *)
Example x_com_and_twitter_results_differ :
  update_item sample_world
    ["https://twitter.com/u/status/7/video/2";
     "https://twitter.com/u/status/7";
     "https://x.com/u/status/7"] initial_state
  = (Ok [sample_post_without_duration; sample_post_without_duration;
         sample_post_record],
     mkState ∅ (<["twitter.com" := {["7" := sample_post_record]}]>
                  ytdlp_cache_init)
             [] ["https://twitter.com/u/status/7/video/2";
                 "https://twitter.com/u/status/7"]).
Proof. vm_compute. reflexivity. Qed.

(** ** Identity extractor on well-formed urls *)

Section ExtractorFacts.

Lemma id_char_plain a :
  Re.id_char a = true ->
  PyStr.chr_eqb a "+" = false /\ PyStr.chr_eqb a "&" = false
  /\ PyStr.chr_eqb a "=" = false /\ PyStr.chr_eqb a "%" = false.
Proof.
  destruct a as [[] [] [] [] [] [] [] []]; intros H;
    try discriminate H; repeat split.
Qed.

Lemma plus_to_space_id s :
  all_chars Re.id_char s = true -> plus_to_space s = s.
Proof.
  induction s as [|a s IH]; [reflexivity|]. simpl.
  intros H. apply andb_true_iff in H as [Ha Hs].
  destruct (id_char_plain a Ha) as (-> & _). rewrite (IH Hs). reflexivity.
Qed.

Lemma unquote_id s : all_chars Re.id_char s = true -> unquote s = s.
Proof.
  induction s as [|a s IH]; [reflexivity|]. cbn [all_chars].
  intros H. apply andb_true_iff in H as [Ha Hs]. specialize (IH Hs).
  destruct a as [[] [] [] [] [] [] [] []]; try discriminate Ha;
    cbn [unquote]; rewrite IH; reflexivity.
Qed.

Lemma id_chars_lack c s :
  Re.id_char c = false -> all_chars Re.id_char s = true ->
  PyStr.contains c s = false.
Proof. apply all_chars_lacks. Qed.

Lemma id_run_app s t :
  all_chars Re.id_char s = true ->
  t = EmptyString \/ (exists a r, t = String a r /\ Re.id_char a = false) ->
  Re.id_run (s +:+ t) = s.
Proof.
  intros Hs Ht. induction s as [|a s IH].
  - rewrite app_empty. destruct Ht as [-> | (a & r & -> & Ha)]; [reflexivity|].
    simpl. rewrite Ha. reflexivity.
  - simpl in Hs. apply andb_true_iff in Hs as [Ha Hs].
    rewrite app_cons. simpl. rewrite Ha, (IH Hs). reflexivity.
Qed.

Lemma drop_length_app s t : PyStr.drop (String.length s) (s +:+ t) = t.
Proof.
  induction s as [|a s IH]; [destruct t; reflexivity|].
  rewrite app_cons. exact IH.
Qed.

Lemma startswith_app s t : PyStr.startswith s (s +:+ t) = true.
Proof.
  induction s as [|a s IH]; [reflexivity|].
  rewrite app_cons. simpl. unfold PyStr.chr_eqb. rewrite Ascii.eqb_refl.
  exact IH.
Qed.

(** The pattern finds the run of id characters that follows the literal. *)
Lemma match_after_app literal id rest :
  all_chars Re.id_char id = true -> nonempty id = true ->
  rest = EmptyString \/ (exists a r, rest = String a r /\ Re.id_char a = false) ->
  Re.match_after literal (literal +:+ id +:+ rest) = Some id.
Proof.
  intros Hid Hne Hrest. unfold Re.match_after.
  rewrite startswith_app, drop_length_app, (id_run_app _ _ Hid Hrest).
  destruct id; [discriminate Hne | reflexivity].
Qed.

(** Later fields never change the first value of [v]. *)
Lemma parse_qs_fold_head (pairs : list (string * string)) :
  forall (d : gmap string (list string)) id l,
    d !! "v" = Some (id :: l) ->
    exists l',
      fold_left (fun d '(n, v) =>
        match d !! n with
        | Some vs => <[n := vs ++ [v]]> d
        | None => <[n := [v]]> d
        end) pairs d !! "v" = Some (id :: l').
Proof.
  induction pairs as [|[n v] pairs IH]; intros d id l Hd; simpl; [eauto|].
  destruct (decide (n = "v")) as [-> | Hn].
  - rewrite Hd. apply (IH _ id (l ++ [v])). rewrite lookup_insert_eq. reflexivity.
  - apply (IH _ id l).
    destruct (d !! n); rewrite lookup_insert_ne by exact Hn; exact Hd.
Qed.

Lemma parse_qs_v id tail :
  all_chars Re.id_char id = true -> nonempty id = true ->
  tail = EmptyString \/ (exists r, tail = String "&" r) ->
  exists l, parse_qs ("v=" +:+ id +:+ tail) !! "v" = Some (id :: l).
Proof.
  intros Hid Hne Htail. unfold parse_qs, parse_qsl.
  assert (Hamp : PyStr.contains "&" ("v=" +:+ id) = false).
  { rewrite contains_app. cbn. apply id_chars_lack; [reflexivity | exact Hid]. }
  assert (Hfield :
            (match PyStr.split1 "=" ("v=" +:+ id) with
             | [n; v] =>
                 if nonempty v
                 then [(unquote (plus_to_space n), unquote (plus_to_space v))]
                 else []
             | _ => []
             end) = [("v", id)]).
  { change (PyStr.split1 "=" ("v=" +:+ id)) with ["v"; id]. cbv iota.
    rewrite Hne, (plus_to_space_id _ Hid), (unquote_id _ Hid). reflexivity. }
  destruct Htail as [-> | [r ->]].
  - rewrite app_empty_r, (split_absent _ _ Hamp).
    cbn [flat_map]. rewrite Hfield. cbn [app fold_left].
    rewrite lookup_empty, lookup_insert_eq. eauto.
  - rewrite <- app_assoc, (split_app _ _ _ Hamp).
    cbn [flat_map]. rewrite Hfield. cbn [app fold_left].
    rewrite lookup_empty.
    apply (parse_qs_fold_head _ _ id []). rewrite lookup_insert_eq. reflexivity.
Qed.

End ExtractorFacts.

(** The id of a watch url is the value of its first [v] parameter, as it
    is written: for the path [/watch] and a query that starts with
    [v=<id>], alone or followed by further fields. *)
Theorem extract_video_id_watch
    (url_components : ParseResult) (id tail : string) :
  path url_components = "/watch" ->
  query url_components = "v=" +:+ id +:+ tail ->
  all_chars Re.id_char id = true -> nonempty id = true ->
  tail = EmptyString \/ (exists r, tail = String "&" r) ->
  extract_video_id url_components = Ok (Some id).
Proof.
  intros Hp Hq Hid Hne Htail. unfold extract_video_id. rewrite Hp, Hq.
  destruct (parse_qs_v id tail Hid Hne Htail) as [l ->]. reflexivity.
Qed.

Lemma extract_video_id_watch_example :
  urlparse "https://www.youtube.com/watch?v=9RT4lfvVFhA&t=3"
  = Ok (mkParseResult "https" "www.youtube.com" "/watch" ""
                      "v=9RT4lfvVFhA&t=3" "")
  /\ extract_video_id
       (mkParseResult "https" "www.youtube.com" "/watch" ""
                      "v=9RT4lfvVFhA&t=3" "")
     = Ok (Some "9RT4lfvVFhA").
Proof.
  split; [vm_compute; reflexivity|].
  apply (extract_video_id_watch _ "9RT4lfvVFhA" "&t=3");
    [reflexivity | reflexivity | reflexivity | reflexivity | right; eauto].
Defined.

(** The id of a live url and of a short url is the run of id characters
    after [/live/], respectively after [/], as it is written. *)
Theorem extract_video_id_path
    (url_components : ParseResult) (id rest : string) :
  all_chars Re.id_char id = true -> nonempty id = true ->
  rest = EmptyString \/ (exists a r, rest = String a r /\ Re.id_char a = false) ->
  (path url_components = "/live/" +:+ id +:+ rest ->
   extract_video_id url_components = Ok (Some id))
  /\ (path url_components = "/" +:+ id +:+ rest ->
      path url_components <> "/watch" ->
      Re.livestream_match (path url_components) = None ->
      extract_video_id url_components = Ok (Some id)).
Proof.
  intros Hid Hne Hrest. unfold extract_video_id. split.
  - intros Hp. rewrite Hp.
    change (String.eqb ("/live/" +:+ id +:+ rest) "/watch") with false.
    unfold Re.livestream_match.
    rewrite (match_after_app "/live/" id rest Hid Hne Hrest). reflexivity.
  - intros Hp Hw Hl.
    destruct (String.eqb (path url_components) "/watch") eqn:E;
      [apply String.eqb_eq in E; contradiction|].
    rewrite Hl, Hp. unfold Re.shortened_match.
    rewrite (match_after_app "/" id rest Hid Hne Hrest). reflexivity.
Qed.

Lemma extract_video_id_path_example :
  extract_video_id
    (mkParseResult "https" "www.youtube.com" "/live/Q8k4UTf8jiI" "" "" "")
  = Ok (Some "Q8k4UTf8jiI")
  /\ extract_video_id
       (mkParseResult "https" "youtu.be" "/9RT4lfvVFhA" "" "t=1" "")
     = Ok (Some "9RT4lfvVFhA").
Proof.
  split.
  - apply (proj1 (extract_video_id_path
                    (mkParseResult "https" "www.youtube.com"
                                   "/live/Q8k4UTf8jiI" "" "" "")
                    "Q8k4UTf8jiI" "" eq_refl eq_refl (or_introl eq_refl))).
    reflexivity.
  - apply (proj2 (extract_video_id_path
                    (mkParseResult "https" "youtu.be" "/9RT4lfvVFhA" "" "t=1" "")
                    "9RT4lfvVFhA" "" eq_refl eq_refl (or_introl eq_refl)));
      [reflexivity | discriminate | reflexivity].
Defined.

(** * Further properties *)

(** ** Durations of a day or more *)

Section DayFacts.

Lemma int_letter_head s : PyStr.int (String "P" s) = Raise ValueError.
Proof.
  unfold PyStr.int.
  change (PyStr.to_ascii (String "P" s)) with (String "P" (PyStr.to_ascii s)).
  cbn [PyStr.lstrip_space PyStr.is_space]. cbn [PyStr.rstrip_space].
  destruct (PyStr.rstrip_space (PyStr.to_ascii s)); reflexivity.
Qed.

Lemma decimal_head (n : N) : exists a r, decimal n = String a r /\ is_digit a = true.
Proof.
  pose proof (decimal_digits n) as H.
  destruct (decimal n) as [|a r] eqn:E.
  - exfalso. pose proof (int_decimal_limit n) as Hi. cbn [readable] in Hi.
    rewrite E in Hi. vm_compute in Hi. discriminate Hi.
  - simpl in H. apply andb_true_iff in H as [Ha _]. eauto.
Qed.

Lemma day_prefix_lacks c (d : N) :
  PyStr.digit_value c = None -> c <> "P"%char -> c <> "D"%char -> c <> "T"%char ->
  PyStr.contains c ("P" +:+ decimal d +:+ "DT") = false.
Proof.
  intros Hc HP HD HT.
  rewrite !contains_app, (digits_lack c _ Hc (decimal_digits d)).
  cbn [PyStr.contains orb].
  assert (forall x, c <> x -> PyStr.chr_eqb x c = false) as Hne.
  { intros x Hx. destruct (PyStr.chr_eqb x c) eqn:E; [|reflexivity].
    apply chr_eqb_eq in E. congruence. }
  rewrite (Hne _ HP), (Hne _ HD), (Hne _ HT). reflexivity.
Qed.

Lemma day_token_split (d : N) (h m s : option N) :
  exists q,
    "P" +:+ decimal d +:+ "DT" = String "P" q
    /\ (forall t, PyStr.startswith "PT" (String "P" q +:+ t) = false)
    /\ day_token d h m s
       = String "P" q +:+ segment h "H" +:+ segment m "M" +:+ segment s "S".
Proof.
  destruct (decimal_head d) as (a & r & Ed & Ha).
  exists (decimal d +:+ "DT"). split; [reflexivity|]. split.
  - intros t. rewrite Ed, !app_cons. cbn [PyStr.startswith].
    destruct a as [[] [] [] [] [] [] [] []]; try discriminate Ha; reflexivity.
  - unfold day_token. rewrite <- app_cons. 
    change (String "P" (decimal d +:+ "DT")) with ("P" +:+ decimal d +:+ "DT").
    rewrite !app_assoc. reflexivity.
Qed.

(** Reading stops at the first segment that is there: the text before
    its unit letter starts with the letter [P]. *)
Lemma day_token_raises (d : N) (h m s : option N) :
  h <> None \/ m <> None \/ s <> None ->
  convert_iso8601_duration_to_seconds (day_token d h m s) = Raise ValueError.
Proof.
  intros Hsome.
  destruct (day_token_split d h m s) as (q & Hq & Hstart & ->).
  assert (Hlack : forall c, PyStr.digit_value c = None -> c <> "P"%char ->
                    c <> "D"%char -> c <> "T"%char ->
                    PyStr.contains c (String "P" q) = false).
  { intros c H1 H2 H3 H4. rewrite <- Hq. apply day_prefix_lacks; assumption. }
  unfold convert_iso8601_duration_to_seconds. rewrite Hstart.
  destruct h as [k|].
  - (* hours *)
    cbn [segment].
    replace (String "P" q +:+ (decimal k +:+ "H") +:+ segment m "M" +:+ segment s "S")
      with ((String "P" q +:+ decimal k)
            +:+ String "H" (segment m "M" +:+ segment s "S"))
      by (rewrite !app_assoc, !app_cons, !app_empty; reflexivity).
    assert (Hp : PyStr.contains "H" (String "P" q +:+ decimal k) = false).
    { rewrite contains_app, Hlack by (reflexivity || discriminate).
      apply digits_lack; [reflexivity | apply decimal_digits]. }
    rewrite contains_app. cbn [PyStr.contains]. 
    replace (PyStr.chr_eqb "H" "H") with true by reflexivity.
    rewrite orb_true_r. cbn [orb].
    rewrite (split_app _ _ _ Hp), split_absent
      by (rewrite contains_app, !segment_lacks by (reflexivity || discriminate);
          reflexivity).
    cbn [unpack2 rbind]. rewrite app_cons, int_letter_head. reflexivity.
  - cbn [segment]. rewrite app_empty.
    assert (HH : PyStr.contains "H"
                   (String "P" q +:+ segment m "M" +:+ segment s "S") = false).
    { rewrite !contains_app, Hlack, !segment_lacks by (reflexivity || discriminate).
      reflexivity. }
    rewrite HH. cbn [rbind].
    destruct m as [k|].
    + cbn [segment].
      replace (String "P" q +:+ (decimal k +:+ "M") +:+ segment s "S")
        with ((String "P" q +:+ decimal k) +:+ String "M" (segment s "S"))
        by (rewrite !app_assoc, !app_cons, !app_empty; reflexivity).
      assert (Hp : PyStr.contains "M" (String "P" q +:+ decimal k) = false).
      { rewrite contains_app, Hlack by (reflexivity || discriminate).
        apply digits_lack; [reflexivity | apply decimal_digits]. }
      rewrite contains_app. cbn [PyStr.contains].
      replace (PyStr.chr_eqb "M" "M") with true by reflexivity.
      rewrite orb_true_r. cbn [orb].
      rewrite (split_app _ _ _ Hp), split_absent
        by (apply segment_lacks; [reflexivity | discriminate]).
      cbn [unpack2 rbind]. rewrite app_cons, int_letter_head. reflexivity.
    + cbn [segment]. rewrite app_empty.
      destruct s as [k|]; [|exfalso; destruct Hsome as [H|[H|H]]; congruence].
      cbn [segment].
      assert (HM : PyStr.contains "M" (String "P" q +:+ decimal k +:+ "S") = false).
      { rewrite !contains_app, Hlack by (reflexivity || discriminate).
        rewrite (digits_lack "M" _ eq_refl (decimal_digits k)). reflexivity. }
      rewrite HM. cbn [rbind].
      assert (Hp : PyStr.contains "S" (String "P" q +:+ decimal k) = false).
      { rewrite contains_app, Hlack by (reflexivity || discriminate).
        apply digits_lack; [reflexivity | apply decimal_digits]. }
      rewrite <- app_assoc, contains_app, remove_app, (remove_absent _ _ Hp).
      cbn [PyStr.contains PyStr.remove].
      replace (PyStr.chr_eqb "S" "S") with true by reflexivity.
      rewrite orb_true_r. cbn [orb]. cbv iota. cbn [PyStr.remove].
      rewrite app_empty_r, app_cons, int_letter_head. reflexivity.
Qed.

(** A token that stops after the days has no letter the codec looks
    for. *)
Lemma day_only_zero (d : N) :
  convert_iso8601_duration_to_seconds ("P" +:+ decimal d +:+ "D") = Ok 0.
Proof.
  destruct (decimal_head d) as (a & r & Ed & Ha).
  assert (Hlack : forall c, PyStr.digit_value c = None -> c <> "P"%char ->
                    c <> "D"%char ->
                    PyStr.contains c ("P" +:+ decimal d +:+ "D") = false).
  { intros c Hc HP HD. rewrite !contains_app, (digits_lack c _ Hc (decimal_digits d)).
    cbn [PyStr.contains orb].
    assert (forall x, c <> x -> PyStr.chr_eqb x c = false) as Hne.
    { intros x Hx. destruct (PyStr.chr_eqb x c) eqn:E; [|reflexivity].
      apply chr_eqb_eq in E. congruence. }
    rewrite (Hne _ HP), (Hne _ HD). reflexivity. }
  unfold convert_iso8601_duration_to_seconds.
  assert (Hstart : PyStr.startswith "PT" ("P" +:+ decimal d +:+ "D") = false).
  { rewrite Ed.
    change ("P" +:+ String a r +:+ "D") with (String "P" (String a r +:+ "D")).
    rewrite app_cons. cbn [PyStr.startswith].
    destruct a as [[] [] [] [] [] [] [] []]; try discriminate Ha; reflexivity. }
  rewrite Hstart, (Hlack "H"%char) by (reflexivity || discriminate). cbn [rbind].
  rewrite (Hlack "M"%char) by (reflexivity || discriminate). cbn [rbind].
  rewrite (Hlack "S"%char) by (reflexivity || discriminate). reflexivity.
Qed.

End DayFacts.

(** A duration with a day component is not converted to its length.
    When an hour, minute or second segment follows the days, the text
    before the first unit letter is not a number and the codec raises
    [ValueError]; when nothing follows the days, none of the three unit
    letters is found and the result is zero. *)
Theorem duration_with_days_not_converted (d : N) :
  (forall h m s : option N,
     h <> None \/ m <> None \/ s <> None ->
     convert_iso8601_duration_to_seconds (day_token d h m s) = Raise ValueError)
  /\ convert_iso8601_duration_to_seconds ("P" +:+ decimal d +:+ "D") = Ok 0.
Proof. split; [apply day_token_raises | apply day_only_zero]. Qed.

Lemma duration_with_days_not_converted_example :
  day_token 1 (Some 2%N) None (Some 5%N) = "P1DT2H5S"
  /\ (Some 2%N <> None \/ (None : option N) <> None \/ Some 5%N <> None)
  /\ convert_iso8601_duration_to_seconds (day_token 1 (Some 2%N) None (Some 5%N))
     = Raise ValueError
  /\ convert_iso8601_duration_to_seconds "P1D" = Ok 0.
Proof.
  assert (H : Some 2%N <> None \/ (None : option N) <> None \/ Some 5%N <> None)
    by (left; discriminate).
  split; [reflexivity|]. split; [exact H|]. split.
  - exact (proj1 (duration_with_days_not_converted 1) _ _ _ H).
  - exact (proj2 (duration_with_days_not_converted 1)).
Defined.

(** ** What the identity extractor returns *)

Section IdentityFacts.

Lemma id_run_chars s : all_chars Re.id_char (Re.id_run s) = true.
Proof.
  induction s as [|a s IH]; [reflexivity|]. simpl.
  destruct (Re.id_char a) eqn:E; [|reflexivity]. simpl. rewrite E. exact IH.
Qed.

Lemma id_run_prefix s : exists rest, s = Re.id_run s +:+ rest.
Proof.
  induction s as [|a s [rest IH]]; [exists EmptyString; reflexivity|]. simpl.
  destruct (Re.id_char a).
  - exists rest. rewrite app_cons. congruence.
  - exists (String a s). rewrite app_empty. reflexivity.
Qed.

Lemma startswith_split p s :
  PyStr.startswith p s = true -> s = p +:+ PyStr.drop (String.length p) s.
Proof.
  revert s. induction p as [|a p IH]; intros s.
  - intros _. rewrite app_empty. destruct s; reflexivity.
  - destruct s as [|b s]; [discriminate|]. simpl.
    intros H. apply andb_true_iff in H as [Hab Hp].
    apply chr_eqb_eq in Hab. subst b. rewrite app_cons. f_equal. exact (IH s Hp).
Qed.

(** What a match of one of the two path patterns captures. *)
Lemma match_after_shape literal s g :
  Re.match_after literal s = Some g ->
  nonempty g = true /\ all_chars Re.id_char g = true
  /\ exists rest, s = literal +:+ g +:+ rest.
Proof.
  unfold Re.match_after.
  destruct (PyStr.startswith literal s) eqn:E; [|discriminate].
  pose proof (id_run_chars (PyStr.drop (String.length literal) s)) as Hc.
  destruct (id_run_prefix (PyStr.drop (String.length literal) s)) as [rest Hr].
  destruct (Re.id_run (PyStr.drop (String.length literal) s)) as [|a r] eqn:Eg;
    [discriminate|].
  intros H. apply (inj Some) in H. subst g.
  split; [reflexivity|]. split; [exact Hc|].
  exists rest. rewrite <- Hr. apply startswith_split, E.
Qed.

Lemma unquote_nonempty s : nonempty s = true -> nonempty (unquote s) = true.
Proof.
  destruct s as [|a s]; [discriminate|]. intros _.
  destruct a as [[] [] [] [] [] [] [] []];
    try (cbn [unquote]; reflexivity).
  destruct s as [|h [|l r]]; cbn [unquote]; try reflexivity.
  destruct (hex_value h), (hex_value l); reflexivity.
Qed.

Lemma plus_to_space_nonempty s :
  nonempty s = true -> nonempty (plus_to_space s) = true.
Proof. destruct s; [discriminate | reflexivity]. Qed.

Lemma parse_qsl_values qs :
  Forall (fun nv : string * string => nonempty (snd nv) = true) (parse_qsl qs).
Proof.
  unfold parse_qsl. induction (PyStr.split "&" qs) as [|f fs IH]; simpl.
  - constructor.
  - apply Forall_app. split; [|exact IH].
    destruct (PyStr.split1 "=" f) as [|n [|v [|? ?]]]; try constructor.
    destruct (nonempty v) eqn:E; constructor; [|constructor].
    simpl. apply unquote_nonempty, plus_to_space_nonempty, E.
Qed.

Lemma parse_qs_fold_values (pairs : list (string * string)) :
  Forall (fun nv : string * string => nonempty (snd nv) = true) pairs ->
  forall d : gmap string (list string),
    no_blank_values d ->
    no_blank_values
      (fold_left (fun d '(n, v) =>
         match d !! n with
         | Some vs => <[n := vs ++ [v]]> d
         | None => <[n := [v]]> d
         end) pairs d).
Proof.
  induction 1 as [|[n v] pairs Hv _ IH]; intros d Hd; simpl; [exact Hd|].
  apply IH. simpl in Hv. intros k vs.
  destruct (d !! n) as [ws|] eqn:En.
  - destruct (decide (n = k)) as [<-|Hne].
    + rewrite lookup_insert_eq. intros H. apply (inj Some) in H. subst vs.
      destruct (Hd n ws En) as [_ Hws]. split.
      * destruct ws; discriminate.
      * apply Forall_app. split; [exact Hws|]. constructor; [exact Hv|constructor].
    + rewrite lookup_insert_ne by exact Hne. apply Hd.
  - destruct (decide (n = k)) as [<-|Hne].
    + rewrite lookup_insert_eq. intros H. apply (inj Some) in H. subst vs.
      split; [discriminate|]. constructor; [exact Hv|constructor].
    + rewrite lookup_insert_ne by exact Hne. apply Hd.
Qed.

Lemma parse_qs_values qs : no_blank_values (parse_qs qs).
Proof.
  unfold parse_qs. apply parse_qs_fold_values; [apply parse_qsl_values|].
  intros k vs H. rewrite lookup_empty in H. discriminate H.
Qed.

Lemma watch_outcomes uc :
  path uc = "/watch" ->
  (parse_qs (query uc) !! "v" = None /\ extract_video_id uc = Raise KeyError)
  \/ exists id l,
       parse_qs (query uc) !! "v" = Some (id :: l)
       /\ nonempty id = true
       /\ extract_video_id uc = Ok (Some id).
Proof.
  intros Hp. unfold extract_video_id. rewrite Hp.
  change ("/watch" =? "/watch")%string with true. cbv iota.
  destruct (parse_qs (query uc) !! "v") as [vs|] eqn:E; [|left; split; reflexivity].
  destruct (parse_qs_values _ _ _ E) as [Hne Hall].
  destruct vs as [|id l]; [congruence|].
  right. exists id, l. apply Forall_cons in Hall as [Hid _].
  repeat split; assumption.
Qed.

Lemma extracted_shape uc id :
  extract_video_id uc = Ok (Some id) ->
  nonempty id = true
  /\ (path uc = "/watch" ->
      exists l, parse_qs (query uc) !! "v" = Some (id :: l))
  /\ (path uc <> "/watch" ->
      all_chars Re.id_char id = true
      /\ exists rest,
           path uc = "/live/" +:+ id +:+ rest \/ path uc = "/" +:+ id +:+ rest).
Proof.
  intros H.
  destruct (String.eqb (path uc) "/watch") eqn:E.
  - apply String.eqb_eq in E.
    destruct (watch_outcomes uc E) as [[_ Hr] | (v & l & Hv & Hne & Hr)];
      rewrite Hr in H; [discriminate H|].
    apply Ok_inj in H. apply (inj Some) in H. subst v.
    split; [exact Hne|]. split; [eauto | congruence].
  - unfold extract_video_id in H. rewrite E in H.
    assert (Hw : path uc <> "/watch")
      by (intros Hp; rewrite Hp in E; discriminate E).
    destruct (Re.livestream_match (path uc)) as [g|] eqn:El.
    + apply Ok_inj in H. apply (inj Some) in H. subst g.
      destruct (match_after_shape _ _ _ El) as (Hne & Hc & rest & Hrest).
      split; [exact Hne|]. split; [contradiction|]. intros _.
      split; [exact Hc|]. exists rest. left. exact Hrest.
    + destruct (Re.shortened_match (path uc)) as [g|] eqn:Es; [|discriminate H].
      apply Ok_inj in H. apply (inj Some) in H. subst g.
      destruct (match_after_shape _ _ _ Es) as (Hne & Hc & rest & Hrest).
      split; [exact Hne|]. split; [contradiction|]. intros _.
      split; [exact Hc|]. exists rest. right. exact Hrest.
Qed.

End IdentityFacts.

(** An id the extractor returns is never the empty string.  Taken from
    the path, it is a run of the characters [a-zA-Z0-9_-] that stands right
    after [/live/] or right after the first slash; taken from a watch url,
    it is the first value of [v]. *)
Theorem extracted_id_is_never_empty (url_components : ParseResult) (id : string) :
  extract_video_id url_components = Ok (Some id) ->
  nonempty id = true
  /\ (path url_components = "/watch" ->
      exists l, parse_qs (query url_components) !! "v" = Some (id :: l))
  /\ (path url_components <> "/watch" ->
      all_chars Re.id_char id = true
      /\ exists rest,
           path url_components = "/live/" +:+ id +:+ rest
           \/ path url_components = "/" +:+ id +:+ rest).
Proof. apply extracted_shape. Qed.

Lemma extracted_id_is_never_empty_example :
  nonempty "shorts" = true
  /\ all_chars Re.id_char "shorts" = true
  /\ exists rest, "/shorts/9RT4lfvVFhA" = "/live/" +:+ "shorts" +:+ rest
                  \/ "/shorts/9RT4lfvVFhA" = "/" +:+ "shorts" +:+ rest.
Proof.
  destruct (extracted_id_is_never_empty
              (mkParseResult "https" "www.youtube.com" "/shorts/9RT4lfvVFhA"
                             "" "" "")
              "shorts" eq_refl) as (Hne & _ & Hpath).
  split; [exact Hne|]. apply Hpath. discriminate.
Defined.

(** On the path [/watch] the extractor never answers that there is no
    id: either the query has no [v] with a value that is not blank, and
    the lookup raises [KeyError], or the id is the first such value, which
    is not empty.  The lookup of the first value never raises. *)
Theorem watch_url_has_id_or_raises (url_components : ParseResult) :
  path url_components = "/watch" ->
  (parse_qs (query url_components) !! "v" = None
   /\ extract_video_id url_components = Raise KeyError)
  \/ exists id l,
       parse_qs (query url_components) !! "v" = Some (id :: l)
       /\ nonempty id = true
       /\ extract_video_id url_components = Ok (Some id).
Proof. apply watch_outcomes. Qed.

Lemma watch_url_has_id_or_raises_example :
  (parse_qs "v=&t=3" !! "v" = None
   /\ extract_video_id
        (mkParseResult "https" "www.youtube.com" "/watch" "" "v=&t=3" "")
      = Raise KeyError)
  \/ exists id l,
       parse_qs "v=&t=3" !! "v" = Some (id :: l)
       /\ nonempty id = true
       /\ extract_video_id
            (mkParseResult "https" "www.youtube.com" "/watch" "" "v=&t=3" "")
          = Ok (Some id).
Proof.
  exact (watch_url_has_id_or_raises
           (mkParseResult "https" "www.youtube.com" "/watch" "" "v=&t=3" "")
           eq_refl).
Defined.

(** ** What a request does to the state *)

Section EffectFacts.

Lemma fetch_youtube_state w uc st res st' :
  fetch_youtube w uc st = (res, st') ->
  ytdlp_cache st' = ytdlp_cache st /\ ydl_calls st' = ydl_calls st
  /\ (st' = st
      \/ exists id,
           extract_video_id uc = Ok (Some id)
           /\ cache_hit (yt_cache st) id = None
           /\ yt_calls st' = yt_calls st ++ [id]
           /\ ((yt_cache st' = yt_cache st
                /\ forall r, res = Ok r -> r = invalid "Url doesn't point to a video")
               \/ exists r,
                    res = Ok r /\ r !! "Invalid" = None
                    /\ yt_cache st' = <[id := r]> (yt_cache st))).
Proof.
  rewrite fetch_youtube_eq. intros H.
  destruct (extract_video_id uc) as [[id|]|e] eqn:Ex.
  2,3: apply pair_eq_inv in H as [_ <-]; auto.
  destruct id as [|a id'] eqn:Eid.
  { apply pair_eq_inv in H as [_ <-]; auto. }
  rewrite <- Eid in *. clear Eid a id'.
  destruct (cache_hit (yt_cache st) id) as [d|] eqn:Eh.
  { apply pair_eq_inv in H as [_ <-]; auto. }
  cbv zeta in H.
  assert (Hcalled : forall res0 st0,
            ytdlp_cache st0 = ytdlp_cache st -> ydl_calls st0 = ydl_calls st ->
            yt_calls st0 = yt_calls st ++ [id] ->
            (yt_cache st0 = yt_cache st
             /\ forall r, res0 = Ok r -> r = invalid "Url doesn't point to a video")
            \/ (exists r, res0 = Ok r /\ r !! "Invalid" = None
                          /\ yt_cache st0 = <[id := r]> (yt_cache st)) ->
            ytdlp_cache st0 = ytdlp_cache st /\ ydl_calls st0 = ydl_calls st
            /\ (st0 = st
                \/ exists id0,
                     Ok (Some id) = Ok (Some id0)
                     /\ cache_hit (yt_cache st) id0 = None
                     /\ yt_calls st0 = yt_calls st ++ [id0]
                     /\ ((yt_cache st0 = yt_cache st
                          /\ forall r, res0 = Ok r ->
                                r = invalid "Url doesn't point to a video")
                         \/ exists r,
                              res0 = Ok r /\ r !! "Invalid" = None
                              /\ yt_cache st0 = <[id0 := r]> (yt_cache st)))).
  { intros res0 st0 H1 H2 H3 H4. split; [exact H1|]. split; [exact H2|].
    right. exists id. auto. }
  destruct (yt_videos_list w id) as [|item items].
  { apply pair_eq_inv in H as [<- <-]. apply Hcalled; try reflexivity.
    left. split; [reflexivity|]. intros r Hr. apply Ok_inj in Hr. congruence. }
  destruct (fromisoformat_timestamp w (snippet_publishedAt item)) as [ts|e].
  2:{ apply pair_eq_inv in H as [<- <-]. apply Hcalled; try reflexivity.
      left. split; [reflexivity|]. intros r Hr. discriminate Hr. }
  destruct (convert_iso8601_duration_to_seconds (contentDetails_duration item))
    as [dur|e].
  2:{ apply pair_eq_inv in H as [<- <-]. apply Hcalled; try reflexivity.
      left. split; [reflexivity|]. intros r Hr. discriminate Hr. }
  apply pair_eq_inv in H as [<- <-]. apply Hcalled; try reflexivity.
  right. eexists. split; [reflexivity|]. split; reflexivity.
Qed.

Lemma chg_get_set_eq k v d : chg_get k (chg_set k v d) = Some v.
Proof.
  induction d as [|[k' v'] d IH]; simpl; [rewrite String.eqb_refl; reflexivity|].
  destruct (String.eqb k k') eqn:E; simpl;
    [rewrite String.eqb_refl; reflexivity | rewrite E; exact IH].
Qed.

(** Only the [x] branch puts a [url] rule into the rule set, and then it
    is the rewritten url. *)
Lemma preprocess_url_rule w uc chg :
  preprocess w uc = Ok chg ->
  chg_get "url" chg = None
  \/ chg_get "url" chg = Some (CStr (twitter_url uc)).
Proof.
  unfold preprocess.
  destruct (site_of uc) as [site|e] eqn:Hs.
  2:{ cbn [preprocess_fuel]. rewrite Hs. discriminate. }
  destruct (String.eqb site "x") eqn:Hx.
  - rewrite (preprocess_fuel_x w uc 1 site Hs Hx).
    destruct (urlparse (twitter_url uc)) as [parsed|e]; [|discriminate].
    destruct (preprocess_fuel 1 w parsed) as [[c|e]|]; try discriminate.
    all: intros H; apply Ok_inj in H; subst chg.
    + right. apply chg_get_set_eq.
    + left. reflexivity.
  - cbn [preprocess_fuel]. rewrite Hs, Hx. cbv zeta.
    repeat match goal with
           | |- context [if ?b then _ else _] => destruct b
           | |- context [PyStr.int ?x] => destruct (PyStr.int x)
           end; intros H; try discriminate H; apply Ok_inj in H; subst chg;
      left; reflexivity.
Qed.

Lemma fetch_target_url w uc chg target :
  preprocess w uc = Ok chg -> fetch_target (geturl uc) chg = Ok target ->
  fst target = geturl uc \/ fst target = twitter_url uc.
Proof.
  intros Hp. unfold fetch_target.
  destruct (preprocess_url_rule w uc chg Hp) as [-> | ->].
  - destruct chg; intros H; apply Ok_inj in H; subst target; auto.
  - destruct chg; [intros H; apply Ok_inj in H; subst target; auto|].
    destruct (nonempty (twitter_url uc)); intros H; apply Ok_inj in H;
      subst target; auto.
Qed.

Lemma normalize_info_state info chg st res st' :
  normalize_info info chg st = (res, st') ->
  yt_cache st' = yt_cache st /\ yt_calls st' = yt_calls st
  /\ ydl_calls st' = ydl_calls st
  /\ ((ytdlp_cache st' = ytdlp_cache st /\ exists e, res = Raise e)
      \/ exists partition r,
           ytdlp_cache st !! webpage_url_domain info = Some partition
           /\ res = Ok r /\ r !! "Invalid" = None
           /\ ytdlp_cache st'
              = <[webpage_url_domain info := <[display_id info := r]> partition]>
                  (ytdlp_cache st)).
Proof.
  rewrite normalize_info_eq. intros H.
  destruct (apply_corrections (fields info) chg) as [response|e].
  2:{ apply pair_eq_inv in H as [<- <-]. eauto 8. }
  destruct (upload_timestamp (dict_get response "upload_date")) as [ts|e].
  2:{ apply pair_eq_inv in H as [<- <-]. eauto 8. }
  destruct (ytdlp_cache st !! webpage_url_domain info) as [partition|] eqn:E.
  2:{ apply pair_eq_inv in H as [<- <-]. eauto 8. }
  cbv zeta in H. apply pair_eq_inv in H as [<- <-].
  repeat (split; [reflexivity|]). right. exists partition. eexists.
  split; [reflexivity|]. split; [reflexivity|]. split; reflexivity.
Qed.

Lemma fetch_ytdlp_state w uc st res st' :
  fetch_ytdlp w uc st = (res, st') ->
  yt_cache st' = yt_cache st /\ yt_calls st' = yt_calls st
  /\ (st' = st
      \/ exists url,
           (url = geturl uc \/ url = twitter_url uc)
           /\ ydl_calls st' = ydl_calls st ++ [url]
           /\ ((ytdlp_cache st' = ytdlp_cache st
                /\ forall r, res = Ok r -> r = invalid "Url doesn't point to a video")
               \/ exists info partition r,
                    first_record (ydl_extract_info w url) = Some info
                    /\ ytdlp_cache st !! webpage_url_domain info = Some partition
                    /\ res = Ok r /\ r !! "Invalid" = None
                    /\ ytdlp_cache st'
                       = <[webpage_url_domain info :=
                             <[display_id info := r]> partition]>
                           (ytdlp_cache st))).
Proof.
  rewrite fetch_ytdlp_eq. intros H.
  destruct (normalized_netloc (netloc uc)) as [d|e].
  2:{ apply pair_eq_inv in H as [_ <-]; auto. }
  destruct (negb (mem d accepted_domains)).
  { apply pair_eq_inv in H as [_ <-]; auto. }
  destruct (last_segment (path uc)) as [video_id|e].
  2:{ apply pair_eq_inv in H as [_ <-]; auto. }
  destruct (ytdlp_cache st !! d) as [partition|].
  2:{ apply pair_eq_inv in H as [_ <-]; auto. }
  destruct (cache_hit partition video_id) as [hit|].
  { apply pair_eq_inv in H as [_ <-]; auto. }
  destruct (preprocess w uc) as [chg|e] eqn:Hp.
  2:{ apply pair_eq_inv in H as [_ <-]; auto. }
  destruct (fetch_target (geturl uc) chg) as [target|e] eqn:Ht.
  2:{ apply pair_eq_inv in H as [_ <-]; auto. }
  pose proof (fetch_target_url w uc chg target Hp Ht) as Hurl.
  cbv zeta in H.
  assert (Hinfo : forall info,
            first_record (ydl_extract_info w (fst target)) = Some info ->
            normalize_info info (snd target) (logged_ydl st (fst target))
            = (res, st') ->
            yt_cache st' = yt_cache st /\ yt_calls st' = yt_calls st
            /\ (st' = st
                \/ exists url,
                     (url = geturl uc \/ url = twitter_url uc)
                     /\ ydl_calls st' = ydl_calls st ++ [url]
                     /\ ((ytdlp_cache st' = ytdlp_cache st
                          /\ forall r, res = Ok r ->
                                r = invalid "Url doesn't point to a video")
                         \/ exists info partition r,
                              first_record (ydl_extract_info w url) = Some info
                              /\ ytdlp_cache st !! webpage_url_domain info
                                 = Some partition
                              /\ res = Ok r /\ r !! "Invalid" = None
                              /\ ytdlp_cache st'
                                 = <[webpage_url_domain info :=
                                       <[display_id info := r]> partition]>
                                     (ytdlp_cache st)))).
  { intros info Hrec Hn.
    destruct (normalize_info_state _ _ _ _ _ Hn)
      as (H1 & H2 & H3 & [[H4 [e He]] | (part & r & Hpart & Hr & Hinv & H4)]).
    - split; [exact H1|]. split; [exact H2|]. right. exists (fst target).
      split; [exact Hurl|]. split; [exact H3|]. left. split; [exact H4|].
      intros r Hr. congruence.
    - split; [exact H1|]. split; [exact H2|]. right. exists (fst target).
      split; [exact Hurl|]. split; [exact H3|]. right. exists info, part, r.
      auto. }
  destruct (ydl_extract_info w (fst target)) as [|info|[|info rest]] eqn:Ey.
  - apply pair_eq_inv in H as [<- <-]. split; [reflexivity|].
    split; [reflexivity|]. right. exists (fst target).
    split; [exact Hurl|]. split; [reflexivity|]. left. split; [reflexivity|].
    intros r Hr. apply Ok_inj in Hr. congruence.
  - apply (Hinfo info eq_refl H).
  - apply pair_eq_inv in H as [<- <-]. split; [reflexivity|].
    split; [reflexivity|]. right. exists (fst target).
    split; [exact Hurl|]. split; [reflexivity|]. left. split; [reflexivity|].
    intros r Hr. discriminate Hr.
  - apply (Hinfo info eq_refl H).
Qed.

End EffectFacts.

(** All that a call of [fetch_youtube] does to the state, however it
    ends.  The other adapter's cache and call log are not touched.  The
    state is not changed at all, or the video API was asked once, about
    the extracted id, which the cache did not answer; and then the cache
    is left as it was, or the result is a record and the cache has gained
    exactly that record under that id. *)
Theorem fetch_youtube_effect_on_state
    (w : world) (url_components : ParseResult) (st st' : state)
    (res : result pydict) :
  fetch_youtube w url_components st = (res, st') ->
  ytdlp_cache st' = ytdlp_cache st /\ ydl_calls st' = ydl_calls st
  /\ (st' = st
      \/ exists id,
           extract_video_id url_components = Ok (Some id)
           /\ cache_hit (yt_cache st) id = None
           /\ yt_calls st' = yt_calls st ++ [id]
           /\ ((yt_cache st' = yt_cache st
                /\ forall r, res = Ok r -> r = invalid "Url doesn't point to a video")
               \/ exists r,
                    res = Ok r /\ r !! "Invalid" = None
                    /\ yt_cache st' = <[id := r]> (yt_cache st))).
Proof. apply fetch_youtube_state. Qed.

Lemma fetch_youtube_effect_on_state_example :
  ytdlp_cache (mkState {["abc" := sample_video_record]} ytdlp_cache_init
                       ["abc"] [])
  = ytdlp_cache initial_state
  /\ exists id,
       yt_calls (mkState {["abc" := sample_video_record]} ytdlp_cache_init
                         ["abc"] [])
       = yt_calls initial_state ++ [id].
Proof.
  destruct (fetch_youtube_effect_on_state _ _ _ _ _ sample_video_fetch)
    as (Hc & _ & [Hsame | (id & _ & _ & Hcalls & _)]).
  - discriminate Hsame.
  - split; [exact Hc|]. exists id. exact Hcalls.
Defined.

(** All that a call of [fetch_ytdlp] does to the state, however it ends.
    The other adapter's cache and call log are not touched.  The state is
    not changed at all, or the extraction library was asked once, about
    the url of the request or, for an [x.com] request, about the rewritten
    url; and then the cache is left as it was, or the result is a record
    and the cache has gained exactly that record, in the partition and
    under the key that the provider's record names. *)
Theorem fetch_ytdlp_effect_on_state
    (w : world) (url_components : ParseResult) (st st' : state)
    (res : result pydict) :
  fetch_ytdlp w url_components st = (res, st') ->
  yt_cache st' = yt_cache st /\ yt_calls st' = yt_calls st
  /\ (st' = st
      \/ exists url,
           (url = geturl url_components \/ url = twitter_url url_components)
           /\ ydl_calls st' = ydl_calls st ++ [url]
           /\ ((ytdlp_cache st' = ytdlp_cache st
                /\ forall r, res = Ok r -> r = invalid "Url doesn't point to a video")
               \/ exists info partition r,
                    first_record (ydl_extract_info w url) = Some info
                    /\ ytdlp_cache st !! webpage_url_domain info = Some partition
                    /\ res = Ok r /\ r !! "Invalid" = None
                    /\ ytdlp_cache st'
                       = <[webpage_url_domain info :=
                             <[display_id info := r]> partition]>
                           (ytdlp_cache st))).
Proof. apply fetch_ytdlp_state. Qed.

Lemma fetch_ytdlp_effect_on_state_example :
  yt_cache (mkState ∅ (<["twitter.com" := {["7" := sample_post_record]}]>
                         ytdlp_cache_init)
                    [] ["https://twitter.com/u/status/7"])
  = yt_cache initial_state
  /\ exists url,
       ydl_calls (mkState ∅ (<["twitter.com" := {["7" := sample_post_record]}]>
                               ytdlp_cache_init)
                          [] ["https://twitter.com/u/status/7"])
       = ydl_calls initial_state ++ [url].
Proof.
  destruct (fetch_ytdlp_effect_on_state _ _ _ _ _ sample_post_fetch)
    as (Hc & _ & [Hsame | (url & _ & Hcalls & _)]).
  - discriminate Hsame.
  - split; [exact Hc|]. exists url. exact Hcalls.
Defined.

(** ** The caches over a batch *)

Section NoEvictionFacts.

(** What holds between the states of every single call holds between the
    first and the last state of a comprehension, however it ends. *)
Lemma map_M_steps {A B : Type} (f : A -> M B) (R : state -> state -> Prop) :
  (forall st, R st st) ->
  (forall st1 st2 st3, R st1 st2 -> R st2 st3 -> R st1 st3) ->
  (forall a st res st', f a st = (res, st') -> R st st') ->
  forall l st res st', map_M f l st = (res, st') -> R st st'.
Proof.
  intros Hrefl Htrans Hstep. induction l as [|a l IH]; intros st res st'; simpl.
  - unfold ret. intros H. apply pair_eq_inv in H as [_ <-]. apply Hrefl.
  - unfold bind, ret.
    destruct (f a st) as [[b|e] st1] eqn:Ea.
    + pose proof (Hstep _ _ _ _ Ea) as H1.
      destruct (map_M f l st1) as [[bs|e] st2] eqn:El; intros H;
        apply pair_eq_inv in H as [_ <-];
        exact (Htrans _ _ _ H1 (IH _ _ _ El)).
    + intros H. apply pair_eq_inv in H as [_ <-]. exact (Hstep _ _ _ _ Ea).
Qed.

Lemma update_item_steps w (R : state -> state -> Prop) :
  (forall st, R st st) ->
  (forall st1 st2 st3, R st1 st2 -> R st2 st3 -> R st1 st3) ->
  (forall uc st res st', route w uc st = (res, st') -> R st st') ->
  forall urls st res st', update_item w urls st = (res, st') -> R st st'.
Proof.
  intros Hrefl Htrans Hstep urls st res st'. unfold update_item, bind, lift.
  destruct (map_result urlparse urls) as [parsed|e].
  - apply (map_M_steps (route w) R Hrefl Htrans Hstep).
  - intros H. apply pair_eq_inv in H as [_ <-]. apply Hrefl.
Qed.

Lemma cache_hit_truthy (cache : gmap string pydict) k d :
  cache !! k = Some d -> truthy d = true -> cache_hit cache k = Some d.
Proof. intros H Ht. unfold cache_hit. rewrite H, Ht. reflexivity. Qed.

Lemma route_keeps_yt_entries w uc st res st' :
  route w uc st = (res, st') -> yt_entries_kept st st'.
Proof.
  unfold route. destruct (mem (netloc uc) youtube_domains); intros H k d Hk Ht.
  - destruct (fetch_youtube_state _ _ _ _ _ H)
      as (_ & _ & [-> | (id & _ & Hmiss & _ & [[Hc _] | (r & _ & _ & Hc)])]).
    + exact Hk.
    + rewrite Hc. exact Hk.
    + rewrite Hc. destruct (decide (id = k)) as [-> | Hne].
      * rewrite (cache_hit_truthy _ _ _ Hk Ht) in Hmiss. discriminate Hmiss.
      * rewrite lookup_insert_ne by exact Hne. exact Hk.
  - destruct (fetch_ytdlp_state _ _ _ _ _ H) as (Hc & _). rewrite Hc. exact Hk.
Qed.

Lemma route_keeps_ytdlp_keys w uc st res st' :
  route w uc st = (res, st') -> ytdlp_keys_kept st st'.
Proof.
  assert (Hsame : forall st st' : state,
            ytdlp_cache st' = ytdlp_cache st -> ytdlp_keys_kept st st').
  { intros s s' E. split; [rewrite E; reflexivity|].
    intros dm p k Hp Hk. exists p. rewrite E. auto. }
  unfold route. destruct (mem (netloc uc) youtube_domains); intros H.
  - apply Hsame. destruct (fetch_youtube_state _ _ _ _ _ H) as (Hc & _). exact Hc.
  - destruct (fetch_ytdlp_state _ _ _ _ _ H)
      as (_ & _ & [-> | (url & _ & _ &
                         [[Hc _] | (info & p0 & r & _ & Hp0 & _ & _ & Hc)])]).
    + apply Hsame. reflexivity.
    + apply Hsame, Hc.
    + split.
      * rewrite Hc. apply dom_insert_lookup_L. eauto.
      * intros dm p k Hp Hk. rewrite Hc.
        destruct (decide (webpage_url_domain info = dm)) as [<- | Hne].
        -- rewrite lookup_insert_eq. eexists. split; [reflexivity|].
           rewrite Hp0 in Hp. apply (inj Some) in Hp. subst p0.
           destruct (decide (display_id info = k)) as [<- | Hnk].
           ++ rewrite lookup_insert_eq. eauto.
           ++ rewrite lookup_insert_ne by exact Hnk. exact Hk.
        -- rewrite lookup_insert_ne by exact Hne. eauto.
Qed.

Lemma yt_entries_kept_trans st1 st2 st3 :
  yt_entries_kept st1 st2 -> yt_entries_kept st2 st3 -> yt_entries_kept st1 st3.
Proof. intros H1 H2 k d Hk Ht. apply H2; [apply H1|]; assumption. Qed.

Lemma ytdlp_keys_kept_trans st1 st2 st3 :
  ytdlp_keys_kept st1 st2 -> ytdlp_keys_kept st2 st3 -> ytdlp_keys_kept st1 st3.
Proof.
  intros [D1 K1] [D2 K2]. split; [congruence|].
  intros dm p k Hp Hk. destruct (K1 dm p k Hp Hk) as (p' & Hp' & Hk').
  exact (K2 dm p' k Hp' Hk').
Qed.

End NoEvictionFacts.

(** A request that raises leaves both caches as they were, whichever
    adapter it went to and wherever the exception came from. *)
Theorem raising_request_keeps_caches
    (w : world) (url_components : ParseResult) (st st' : state) (e : exn) :
  route w url_components st = (Raise e, st') ->
  yt_cache st' = yt_cache st /\ ytdlp_cache st' = ytdlp_cache st.
Proof.
  unfold route. destruct (mem (netloc url_components) youtube_domains); intros H.
  - destruct (fetch_youtube_state _ _ _ _ _ H)
      as (Hy & _ & [-> | (id & _ & _ & _ & [[Hc _] | (r & Hr & _)])]);
      [auto | auto | discriminate Hr].
  - destruct (fetch_ytdlp_state _ _ _ _ _ H)
      as (Hy & _ & [-> | (url & _ & _ & [[Hc _] | (info & p0 & r & _ & _ & Hr & _)])]);
      [auto | auto | discriminate Hr].
Qed.

Lemma sample_long_fetch :
  route sample_sites (mkParseResult "https" "youtu.be" "/long" "" "" "")
    initial_state
  = (Raise ValueError, mkState ∅ ytdlp_cache_init ["long"] []).
Proof. vm_compute. reflexivity. Qed.

Lemma raising_request_keeps_caches_example :
  yt_cache (mkState ∅ ytdlp_cache_init ["long"] []) = yt_cache initial_state
  /\ ytdlp_cache (mkState ∅ ytdlp_cache_init ["long"] [])
     = ytdlp_cache initial_state.
Proof. exact (raising_request_keeps_caches _ _ _ _ _ sample_long_fetch). Defined.

(** The managed-platform cache never loses or changes an entry that
    answers requests: whatever a batch does, and however it ends, every
    record that was in the cache before is in it afterwards, under the
    same id. *)
Theorem yt_cache_never_evicts
    (w : world) (urls : list string) (st st' : state)
    (res : result (list pydict)) (k : string) (d : pydict) :
  update_item w urls st = (res, st') ->
  yt_cache st !! k = Some d -> truthy d = true ->
  yt_cache st' !! k = Some d.
Proof.
  intros H. revert k d. change (yt_entries_kept st st'). revert H.
  apply (update_item_steps w yt_entries_kept).
  - intros s k d Hk _. exact Hk.
  - apply yt_entries_kept_trans.
  - apply route_keeps_yt_entries.
Qed.

Lemma sample_batch :
  update_item sample_world
    ["https://youtu.be/zzz"; "https://youtu.be/abc"; "https://www.youtube.com/watch"]
    (mkState {["abc" := sample_video_record]} ytdlp_cache_init ["abc"] [])
  = (Raise KeyError,
     mkState {["abc" := sample_video_record]} ytdlp_cache_init ["abc"; "zzz"] []).
Proof. vm_compute. reflexivity. Qed.

Lemma yt_cache_never_evicts_example :
  yt_cache (mkState {["abc" := sample_video_record]} ytdlp_cache_init
                    ["abc"; "zzz"] []) !! "abc"
  = Some sample_video_record.
Proof.
  exact (yt_cache_never_evicts _ _ _ _ _ "abc" sample_video_record
           sample_batch eq_refl eq_refl).
Defined.

(** The generic-extraction cache keeps its partitions and its keys:
    whatever a batch does, and however it ends, the cache has the
    partitions it had before, no more and no fewer, and every key of a
    partition is still a key of it (the record under it may have been
    replaced). *)
Theorem ytdlp_cache_keeps_partitions_and_keys
    (w : world) (urls : list string) (st st' : state)
    (res : result (list pydict)) :
  update_item w urls st = (res, st') ->
  dom (ytdlp_cache st') = dom (ytdlp_cache st)
  /\ forall domain partition k,
       ytdlp_cache st !! domain = Some partition -> is_Some (partition !! k) ->
       exists partition',
         ytdlp_cache st' !! domain = Some partition'
         /\ is_Some (partition' !! k).
Proof.
  change (update_item w urls st = (res, st') -> ytdlp_keys_kept st st').
  apply (update_item_steps w ytdlp_keys_kept).
  - intros s. split; [reflexivity|]. intros dm p k Hp Hk. eauto.
  - apply ytdlp_keys_kept_trans.
  - apply route_keeps_ytdlp_keys.
Qed.

Lemma sample_posts_batch :
  update_item sample_world
    ["https://x.com/u/status/7"; "https://twitter.com/u/status/7/video/2"]
    initial_state
  = (Ok [sample_post_record;
         make_video_data (PStr "X post by abc (2cf24)") (PStr "abc")
                         (PFloat 1714521600%float) PNone],
     mkState ∅
       (<["twitter.com" :=
            {["7" := make_video_data (PStr "X post by abc (2cf24)") (PStr "abc")
                       (PFloat 1714521600%float) PNone]}]> ytdlp_cache_init)
       []
       ["https://twitter.com/u/status/7";
        "https://twitter.com/u/status/7/video/2"]).
Proof. vm_compute. reflexivity. Qed.

Lemma ytdlp_cache_keeps_partitions_and_keys_example :
  dom (<["twitter.com" :=
           {["7" := make_video_data (PStr "X post by abc (2cf24)") (PStr "abc")
                      (PFloat 1714521600%float) PNone]}]> ytdlp_cache_init)
  = dom ytdlp_cache_init.
Proof.
  exact (proj1 (ytdlp_cache_keeps_partitions_and_keys _ _ _ _ _
                  sample_posts_batch)).
Defined.

(** ** Hosts and sites *)

Section HostFacts.

Implicit Types (s t : string) (c : ascii).

Lemma split_one c s b :
  PyStr.split c s = [b] -> s = b /\ PyStr.contains c b = false.
Proof.
  revert b. induction s as [|x s IH]; intros b; simpl.
  - intros H. injection H as <-. split; reflexivity.
  - destruct (PyStr.chr_eqb x c) eqn:E.
    + intros H. injection H as _ H. destruct (split_nonempty _ _ H).
    + destruct (PyStr.split c s) as [|h t] eqn:Es; [destruct (split_nonempty _ _ Es)|].
      intros H. injection H as <- ->. destruct (IH h eq_refl) as [-> Hh].
      split; [reflexivity|]. simpl. rewrite E, Hh. reflexivity.
Qed.

(** Two pieces: the string is the two of them around one separator. *)
Lemma split_two c s a b :
  PyStr.split c s = [a; b] ->
  s = a +:+ String c b /\ PyStr.contains c a = false /\ PyStr.contains c b = false.
Proof.
  revert a. induction s as [|x s IH]; intros a; simpl; [discriminate|].
  destruct (PyStr.chr_eqb x c) eqn:E.
  - intros H. injection H as <- H. apply chr_eqb_eq in E. subst x.
    destruct (split_one _ _ _ H) as [-> Hb]. rewrite app_empty. auto.
  - destruct (PyStr.split c s) as [|h t] eqn:Es; [discriminate|].
    intros H. injection H as <- ->. destruct (IH h eq_refl) as (-> & Hh & Hb).
    rewrite app_cons. split; [reflexivity|]. split; [|exact Hb].
    simpl. rewrite E, Hh. reflexivity.
Qed.

Lemma find_app_first c s t :
  PyStr.contains c s = false -> PyStr.find c (s +:+ String c t) = PyStr.len s.
Proof.
  induction s as [|x s IH]; intros H.
  - rewrite app_empty. simpl. unfold PyStr.chr_eqb. rewrite Ascii.eqb_refl.
    reflexivity.
  - simpl in H. apply orb_false_iff in H as [Hx Hs]. rewrite app_cons. simpl.
    rewrite Hx, (IH Hs). pose proof (len_nonneg s).
    destruct (PyStr.len s <? 0) eqn:E; [lia | reflexivity].
Qed.

Lemma split1_app c s t :
  PyStr.contains c s = false -> PyStr.split1 c (s +:+ String c t) = [s; t].
Proof.
  induction s as [|x s IH]; intros H.
  - rewrite app_empty. simpl. unfold PyStr.chr_eqb. rewrite Ascii.eqb_refl.
    reflexivity.
  - simpl in H. apply orb_false_iff in H as [Hx Hs]. rewrite app_cons. simpl.
    rewrite Hx, (IH Hs). reflexivity.
Qed.

(** Each accepted domain is two labels around one dot. *)
Lemma accepted_two_labels d :
  mem d accepted_domains = true ->
  exists a b, d = a +:+ String "." b
              /\ PyStr.contains "." a = false /\ PyStr.contains "." b = false.
Proof.
  unfold mem, accepted_domains. cbn [existsb]. intros H.
  repeat (apply orb_true_iff in H as [H | H]); try discriminate H;
    apply String.eqb_eq in H; subst d;
    match goal with
    | |- exists a b, ?s = _ /\ _ =>
        destruct (PyStr.split "." s) as [|a [|b [|? ?]]] eqn:E;
        try discriminate E; exists a, b; exact (split_two _ _ _ _ E)
    end.
Qed.

Lemma one_dot_kept a b :
  PyStr.contains "." a = false -> PyStr.contains "." b = false ->
  normalized_netloc (a +:+ String "." b) = Ok (a +:+ String "." b).
Proof.
  intros Ha Hb. unfold normalized_netloc.
  rewrite (find_app_first _ _ _ Ha), (rfind_app_last _ _ _ Hb), Z.eqb_refl.
  reflexivity.
Qed.

Lemma first_label_dropped label a b :
  PyStr.contains "." label = false -> PyStr.contains "." b = false ->
  normalized_netloc (label +:+ String "." (a +:+ String "." b))
  = Ok (a +:+ String "." b).
Proof.
  intros Hl Hb. unfold normalized_netloc.
  rewrite (find_app_first _ _ _ Hl), (split1_app _ _ _ Hl).
  replace (label +:+ String "." (a +:+ String "." b))
    with ((label +:+ String "." a) +:+ String "." b)
    by (rewrite app_assoc, app_cons; reflexivity).
  rewrite (rfind_app_last _ _ _ Hb), len_app. simpl PyStr.len.
  pose proof (len_nonneg a).
  destruct (PyStr.len label =? PyStr.len label + (1 + PyStr.len a)) eqn:E;
    [lia | reflexivity].
Qed.

End HostFacts.

(** The hosts that pass the domain check of the generic-extraction
    adapter: the ten accepted domains themselves, and an accepted domain
    with one more label in front (the label may not contain a dot; case
    and ports are not looked at, so a host in capitals or with a port
    does not pass). *)
Theorem accepted_hosts (host : string) :
  (exists d, normalized_netloc host = Ok d /\ mem d accepted_domains = true)
  <-> (mem host accepted_domains = true
       \/ exists label d,
            host = label +:+ "." +:+ d
            /\ PyStr.contains "." label = false
            /\ mem d accepted_domains = true).
Proof.
  split.
  - intros (d & Hn & Hd). unfold normalized_netloc in Hn.
    destruct (PyStr.find "." host =? PyStr.rfind "." host) eqn:E; cbn [negb] in Hn.
    + apply Ok_inj in Hn. subst d. left. exact Hd.
    + destruct (PyStr.contains "." host) eqn:C.
      * destruct (split1_present _ _ C) as (a & b & Hs & -> & Ha).
        rewrite Hs in Hn. apply Ok_inj in Hn. subst b.
        right. exists a, d. rewrite app_cons, app_empty. auto.
      * rewrite (find_absent _ _ C), (rfind_absent _ _ C) in E. discriminate E.
  - intros [H | (label & d & -> & Hl & Hd)].
    + exists host. split; [|exact H].
      destruct (accepted_two_labels _ H) as (a & b & -> & Ha & Hb).
      apply one_dot_kept; assumption.
    + exists d. split; [|exact Hd].
      destruct (accepted_two_labels _ Hd) as (a & b & -> & Ha & Hb).
      rewrite app_cons, app_empty. apply first_label_dropped; assumption.
Qed.

Lemma accepted_hosts_example :
  exists d,
    normalized_netloc "www.tiktok.com" = Ok d /\ mem d accepted_domains = true.
Proof.
  apply (proj2 (accepted_hosts "www.tiktok.com")). right.
  exists "www", "tiktok.com". repeat split.
Defined.

Example domain_check_samples :
  (rbind (normalized_netloc "www.tiktok.com")
         (fun d => Ok (mem d accepted_domains)) = Ok true)
  /\ (rbind (normalized_netloc "a.b.tiktok.com")
            (fun d => Ok (mem d accepted_domains)) = Ok false)
  /\ (rbind (normalized_netloc "Twitter.com")
            (fun d => Ok (mem d accepted_domains)) = Ok false)
  /\ (rbind (normalized_netloc "twitter.com:443")
            (fun d => Ok (mem d accepted_domains)) = Ok false).
Proof. repeat split; vm_compute; reflexivity. Qed.

(** Past the domain check the site [preprocess] looks at is the first
    label of the accepted domain, whether the host had a further label in
    front or not; in particular its lookup of the label cannot raise
    there. *)
Theorem site_is_first_label_of_accepted_domain
    (url_components : ParseResult) (d : string) :
  normalized_netloc (netloc url_components) = Ok d ->
  mem d accepted_domains = true ->
  exists site suffix,
    d = site +:+ "." +:+ suffix
    /\ PyStr.contains "." site = false /\ PyStr.contains "." suffix = false
    /\ site_of url_components = Ok site.
Proof.
  intros Hn Hd. destruct (accepted_two_labels _ Hd) as (a & b & -> & Ha & Hb).
  exists a, b. rewrite app_cons, app_empty. repeat split; try assumption.
  exact (site_of_normalized url_components a b Ha Hb Hn).
Qed.

Lemma site_is_first_label_of_accepted_domain_example :
  normalized_netloc "www.newgrounds.com" = Ok "newgrounds.com"
  /\ mem "newgrounds.com" accepted_domains = true
  /\ exists site suffix,
       "newgrounds.com" = site +:+ "." +:+ suffix
       /\ PyStr.contains "." site = false /\ PyStr.contains "." suffix = false
       /\ site_of (mkParseResult "https" "www.newgrounds.com"
                                 "/portal/view/759280" "" "" "")
          = Ok site.
Proof.
  split; [reflexivity|]. split; [reflexivity|].
  exact (site_is_first_label_of_accepted_domain
           (mkParseResult "https" "www.newgrounds.com" "/portal/view/759280"
                          "" "" "")
           "newgrounds.com" eq_refl eq_refl).
Defined.

(** ** The key of a path *)

Section SegmentFacts.

Implicit Types (s t : string) (c x : ascii).

Lemma rstrip_app_char c s :
  PyStr.rstrip c (s +:+ String c EmptyString) = PyStr.rstrip c s.
Proof.
  induction s as [|a s IH].
  - rewrite app_empty. simpl. unfold PyStr.chr_eqb. rewrite Ascii.eqb_refl.
    reflexivity.
  - rewrite app_cons. simpl. rewrite IH. reflexivity.
Qed.

Lemma rstrip_keeps_lack c x s :
  PyStr.contains x s = false -> PyStr.contains x (PyStr.rstrip c s) = false.
Proof.
  induction s as [|a s IH]; [reflexivity|]. simpl. intros H.
  apply orb_false_iff in H as [Ha Hs]. specialize (IH Hs).
  destruct (PyStr.rstrip c s) as [|b r].
  - destruct (PyStr.chr_eqb a c); [reflexivity|]. simpl. rewrite Ha. reflexivity.
  - change (PyStr.contains x (String a (String b r)))
      with (PyStr.chr_eqb a x || PyStr.contains x (String b r)).
    rewrite Ha, IH. reflexivity.
Qed.

(** A string that ends with a character other than [c] has nothing to
    strip. *)
Lemma rstrip_app_plain c s t :
  nonempty t = true -> PyStr.contains c t = false ->
  PyStr.rstrip c (s +:+ t) = s +:+ t.
Proof.
  intros Hne Ht.
  assert (Hbase : PyStr.rstrip c t = t /\ nonempty (PyStr.rstrip c t) = true).
  { clear s. induction t as [|a t IH]; [discriminate|]. simpl in Ht |- *.
    apply orb_false_iff in Ht as [Ha Ht].
    destruct t as [|b t].
    - simpl. rewrite Ha. split; reflexivity.
    - destruct (IH eq_refl Ht) as [E N]. rewrite E. split; reflexivity. }
  destruct Hbase as [E N].
  induction s as [|a s IH]; [rewrite app_empty; exact E|].
  rewrite app_cons. simpl. rewrite IH.
  destruct (s +:+ t) eqn:Es; [|reflexivity].
  destruct s; [rewrite app_empty in Es; subst t; discriminate Hne|].
  rewrite app_cons in Es. discriminate Es.
Qed.

Lemma split_pieces_lack c x s :
  PyStr.contains x s = false ->
  Forall (fun p => PyStr.contains x p = false) (PyStr.split c s).
Proof.
  induction s as [|a s IH]; simpl; intros H.
  - constructor; [reflexivity | constructor].
  - apply orb_false_iff in H as [Ha Hs]. specialize (IH Hs).
    destruct (PyStr.chr_eqb a c).
    + constructor; [reflexivity | exact IH].
    + destruct (PyStr.split c s) as [|h t]; [constructor; [|constructor]|].
      * simpl. rewrite Ha. reflexivity.
      * apply Forall_cons in IH as [Hh Ht]. constructor; [|exact Ht].
        simpl. rewrite Ha, Hh. reflexivity.
Qed.

(** No piece of a split holds the separator. *)
Lemma split_pieces_cut c s :
  Forall (fun p => PyStr.contains c p = false) (PyStr.split c s).
Proof.
  induction s as [|a s IH]; simpl.
  - constructor; [reflexivity | constructor].
  - destruct (PyStr.chr_eqb a c) eqn:E.
    + constructor; [reflexivity | exact IH].
    + destruct (PyStr.split c s) as [|h t]; [constructor; [|constructor]|].
      * simpl. rewrite E. reflexivity.
      * apply Forall_cons in IH as [Hh Ht]. constructor; [|exact Ht].
        simpl. rewrite E, Hh. reflexivity.
Qed.

Lemma last_piece_cons a (l : list string) :
  l <> [] -> PyStr.last_piece (a :: l) = PyStr.last_piece l.
Proof.
  intros Hl. unfold PyStr.last_piece. simpl.
  destruct (rev l) as [|y r] eqn:E; [|reflexivity].
  apply (f_equal (@rev string)) in E. rewrite rev_involutive in E. contradiction.
Qed.

Lemma last_piece_some (P : string -> Prop) (l : list string) :
  l <> [] -> Forall P l -> exists p, PyStr.last_piece l = Ok p /\ P p.
Proof.
  intros Hl Hall. unfold PyStr.last_piece.
  destruct (rev l) as [|y r] eqn:E.
  - apply (f_equal (@rev string)) in E. rewrite rev_involutive in E. contradiction.
  - exists y. split; [reflexivity|].
    apply (proj1 (Forall_forall P l) Hall). apply list_elem_of_In, in_rev.
    rewrite E. left. reflexivity.
Qed.

Lemma last_piece_split c s t :
  PyStr.contains c t = false ->
  exists h l, PyStr.split c (s +:+ String c t) = h :: l
              /\ l <> [] /\ PyStr.last_piece l = Ok t.
Proof.
  intros Ht. induction s as [|a s (h & l & E & Hl & Hlast)].
  - rewrite app_empty. simpl. unfold PyStr.chr_eqb. rewrite Ascii.eqb_refl.
    rewrite (split_absent _ _ Ht). exists EmptyString, [t]. repeat split.
    discriminate.
  - rewrite app_cons. simpl. rewrite E.
    destruct (PyStr.chr_eqb a c).
    + exists EmptyString, (h :: l). split; [reflexivity|].
      split; [discriminate|]. rewrite (last_piece_cons _ _ Hl). exact Hlast.
    + exists (String a h), l. auto.
Qed.

Lemma last_segment_some p :
  exists seg, last_segment p = Ok seg
              /\ PyStr.contains "/" seg = false /\ PyStr.contains "?" seg = false.
Proof.
  unfold last_segment.
  pose proof (split_pieces_cut "?" p) as Hq.
  destruct (PyStr.split "?" p) as [|q qs] eqn:E; [destruct (split_nonempty _ _ E)|].
  apply Forall_cons in Hq as [Hq _]. cbn [first_piece rbind].
  pose proof (rstrip_keeps_lack "/" "?" q Hq) as Hr.
  destruct (last_piece_some
              (fun s => PyStr.contains "/" s = false /\ PyStr.contains "?" s = false)
              (PyStr.split "/" (PyStr.rstrip "/" q)))
    as (seg & Hseg & H1 & H2).
  - apply split_nonempty.
  - apply Forall_forall. intros x Hx. split.
    + exact (proj1 (Forall_forall _ _) (split_pieces_cut "/" _) x Hx).
    + exact (proj1 (Forall_forall _ _) (split_pieces_lack "/" "?" _ Hr) x Hx).
  - exists seg. auto.
Qed.

Lemma last_segment_slash p : last_segment (p +:+ "/") = last_segment p.
Proof.
  unfold last_segment.
  destruct (PyStr.contains "?" p) eqn:C.
  - destruct (find_split _ _ C) as (a & b & -> & Ha & _).
    rewrite app_assoc, app_cons, !(split_app _ _ _ Ha). reflexivity.
  - rewrite (split_absent _ _ C), split_absent
      by (rewrite contains_app, C; reflexivity).
    cbn [first_piece rbind]. rewrite rstrip_app_char. reflexivity.
Qed.

Lemma last_segment_last a seg :
  PyStr.contains "?" a = false ->
  nonempty seg = true ->
  PyStr.contains "/" seg = false -> PyStr.contains "?" seg = false ->
  last_segment (a +:+ "/" +:+ seg) = Ok seg.
Proof.
  intros Ha Hne Hs Hq. unfold last_segment.
  rewrite app_cons, app_empty.
  rewrite split_absent by (rewrite contains_app; simpl; rewrite Ha, Hq; reflexivity).
  cbn [first_piece rbind].
  replace (a +:+ String "/" seg) with ((a +:+ "/") +:+ seg)
    by (rewrite app_assoc, app_cons, app_empty; reflexivity).
  rewrite (rstrip_app_plain "/" _ seg Hne Hs).
  rewrite app_assoc, app_cons, app_empty.
  destruct (last_piece_split "/" a seg Hs) as (h & l & -> & Hl & Hlast).
  rewrite (last_piece_cons _ _ Hl). exact Hlast.
Qed.

End SegmentFacts.

(** The key a path is looked up under in its partition.  It is always
    there (the indexing of the pieces never raises) and holds neither a
    slash nor a question mark; slashes at the end of the path do not
    change it; and for a path that ends with a segment that is not empty
    it is that segment, whatever comes before. *)
Theorem last_segment_is_the_key (p : string) :
  (exists seg, last_segment p = Ok seg
               /\ PyStr.contains "/" seg = false
               /\ PyStr.contains "?" seg = false)
  /\ last_segment (p +:+ "/") = last_segment p
  /\ (forall seg,
        PyStr.contains "?" p = false -> nonempty seg = true ->
        PyStr.contains "/" seg = false -> PyStr.contains "?" seg = false ->
        last_segment (p +:+ "/" +:+ seg) = Ok seg).
Proof.
  split; [apply last_segment_some|]. split; [apply last_segment_slash|].
  intros seg. apply last_segment_last.
Qed.

Lemma last_segment_is_the_key_example :
  last_segment "/u/status/7//" = Ok "7"
  /\ last_segment ("/portal/view" +:+ "/" +:+ "759280") = Ok "759280"
  /\ last_segment ("/audio/listen" +:+ "/" +:+ "759280") = Ok "759280".
Proof.
  split; [reflexivity|].
  split.
  - apply (proj2 (proj2 (last_segment_is_the_key "/portal/view")) "759280");
      reflexivity.
  - apply (proj2 (proj2 (last_segment_is_the_key "/audio/listen")) "759280");
      reflexivity.
Defined.

(** ** The rules of the sites, request by request *)

Section RuleFacts.

(** A request that is not answered from the cache, up to the provider's
    record. *)
Lemma fetch_ytdlp_fresh w uc st d chg target info :
  normalized_netloc (netloc uc) = Ok d -> mem d accepted_domains = true ->
  uncached st d (path uc) ->
  preprocess w uc = Ok chg -> fetch_target (geturl uc) chg = Ok target ->
  first_record (ydl_extract_info w (fst target)) = Some info ->
  fetch_ytdlp w uc st =
  match apply_corrections (fields info) (snd target) with
  | Raise e => (Raise e, logged_ydl st (fst target))
  | Ok response =>
      fetched st (fst target) info
        (dict_get response "title") (dict_get response "channel")
        (dict_get response "upload_date") (dict_get response "duration")
  end.
Proof.
  intros Hd Hmem (part & id & Hpart & Hid & Hmiss) Hp Ht Hinfo.
  rewrite fetch_ytdlp_eq, Hd, Hmem. cbn [negb].
  rewrite Hid, Hpart, Hmiss, Hp, Ht. cbv zeta.
  destruct (first_record_cases _ _ Hinfo) as [-> | [rest ->]];
    rewrite normalize_info_eq; unfold fetched;
    destruct (apply_corrections (fields info) (snd target)); reflexivity.
Qed.

Lemma unruled_site uc d :
  normalized_netloc (netloc uc) = Ok d -> mem d unruled_domains = true ->
  mem d accepted_domains = true
  /\ exists site, site_of uc = Ok site
       /\ mem site ["x"; "twitter"; "newgrounds"; "tiktok"; "bilibili"] = false.
Proof.
  intros Hn H. unfold mem, unruled_domains in H. cbn [existsb] in H.
  repeat (apply orb_true_iff in H as [H | H]); try discriminate H;
    apply String.eqb_eq in H; subst d; (split; [reflexivity|]).
  - exists "dailymotion". split; [|reflexivity].
    apply (site_of_normalized uc "dailymotion" "com"); auto.
  - exists "pony". split; [|reflexivity].
    apply (site_of_normalized uc "pony" "tube"); auto.
  - exists "vimeo". split; [|reflexivity].
    apply (site_of_normalized uc "vimeo" "com"); auto.
  - exists "thishorsie". split; [|reflexivity].
    apply (site_of_normalized uc "thishorsie" "rocks"); auto.
  - exists "odysee". split; [|reflexivity].
    apply (site_of_normalized uc "odysee" "com"); auto.
Qed.

Lemma preprocess_no_rule w uc site :
  site_of uc = Ok site ->
  mem site ["x"; "twitter"; "newgrounds"; "tiktok"; "bilibili"] = false ->
  preprocess w uc = Ok [].
Proof.
  intros Hs H. unfold mem in H. cbn [existsb] in H.
  repeat (apply orb_false_iff in H as [? H]).
  unfold preprocess. cbn [preprocess_fuel]. rewrite Hs.
  repeat match goal with
         | E : String.eqb site ?k = false |- _ => rewrite E; clear E
         end.
  reflexivity.
Qed.

Lemma preprocess_uploader_rule w uc site :
  site_of uc = Ok site -> site = "newgrounds" \/ site = "bilibili" ->
  preprocess w uc = Ok [("channel", CStr "uploader")].
Proof.
  intros Hs [-> | ->]; unfold preprocess; cbn [preprocess_fuel]; rewrite Hs;
    reflexivity.
Qed.

Lemma preprocess_tiktok w uc :
  site_of uc = Ok "tiktok" ->
  preprocess w uc
  = Ok [("channel", CStr "uploader"); ("title", CFun (tiktok_title w))].
Proof.
  intros Hs. unfold preprocess. cbn [preprocess_fuel]. rewrite Hs. reflexivity.
Qed.

(** A url that ends with [/video/<tail>]: the text the index is read
    from is [tail]. *)
Lemma video_index_text base tail :
  PyStr.contains "/" tail = false ->
  let url := base +:+ "/video/" +:+ tail in
  PyStr.endswith "/video" (PyStr.slice_to url (PyStr.rfind "/" url)) = true
  /\ PyStr.slice_from url (PyStr.rfind "/" url + 1) = tail.
Proof.
  intros Ht url.
  assert (E1 : url = (base +:+ "/video") +:+ String "/" tail).
  { unfold url. rewrite !app_assoc, !app_cons, !app_empty. reflexivity. }
  assert (E2 : url = ((base +:+ "/video") +:+ "/") +:+ tail).
  { unfold url. rewrite !app_assoc, !app_cons, !app_empty. reflexivity. }
  assert (Hk : PyStr.rfind "/" url = PyStr.len (base +:+ "/video")).
  { rewrite E1. apply rfind_app_last, Ht. }
  rewrite Hk. split.
  - rewrite E1, slice_to_app. unfold PyStr.endswith.
    rewrite len_app. change (PyStr.len "/video") with 6.
    replace (PyStr.len base + 6 - 6) with (PyStr.len base) by lia.
    rewrite slice_from_app. pose proof (len_nonneg base).
    destruct (6 <=? PyStr.len base + 6) eqn:E; [reflexivity | lia].
  - replace (PyStr.len (base +:+ "/video") + 1)
      with (PyStr.len ((base +:+ "/video") +:+ "/"))
      by (rewrite (len_app _ "/"); reflexivity).
    rewrite E2. apply slice_from_app.
Qed.

Lemma preprocess_video_index w uc base tail :
  site_of uc = Ok "twitter" ->
  geturl uc = base +:+ "/video/" +:+ tail -> PyStr.contains "/" tail = false ->
  preprocess w uc =
  match PyStr.int tail with
  | Raise e => Raise e
  | Ok index =>
      if negb (index =? 1)
      then Ok (twitter_base w ++ [("duration", CNull)])
      else Ok (twitter_base w)
  end.
Proof.
  intros Hs Hu Ht. rewrite (preprocess_twitter w uc Hs), Hu.
  destruct (video_index_text base tail Ht) as [-> ->]. reflexivity.
Qed.

End RuleFacts.

(** For the five accepted domains without a rule ([dailymotion.com],
    [pony.tube], [vimeo.com], [thishorsie.rocks], [odysee.com]) a request
    that is not answered from the cache asks the provider about the url as
    it is, and the record is made of the provider's [title], [channel],
    [upload_date] and [duration] as they are. *)
Theorem unruled_domain_fields_pass_through
    (w : world) (url_components : ParseResult) (st : state) (d : string)
    (info : ydl_info) :
  normalized_netloc (netloc url_components) = Ok d ->
  mem d unruled_domains = true ->
  uncached st d (path url_components) ->
  first_record (ydl_extract_info w (geturl url_components)) = Some info ->
  fetch_ytdlp w url_components st
  = fetched st (geturl url_components) info
      (dict_get (fields info) "title") (dict_get (fields info) "channel")
      (dict_get (fields info) "upload_date") (dict_get (fields info) "duration").
Proof.
  intros Hd Hu Hun Hinfo.
  destruct (unruled_site url_components d Hd Hu) as (Hmem & site & Hs & Hrule).
  exact (fetch_ytdlp_fresh w url_components st d []
           (geturl url_components, []) info Hd Hmem Hun
           (preprocess_no_rule w url_components site Hs Hrule) eq_refl Hinfo).
Qed.

Lemma unruled_domain_fields_pass_through_example :
  fetch_ytdlp sample_sites (mkParseResult "https" "vimeo.com" "/1" "" "" "")
    initial_state
  = (Ok (make_video_data (PStr "clip") (PStr "chan")
                         (PFloat 1714521600%float) (PInt 12)),
     mkState ∅
       (<["vimeo.com" :=
            {["1" := make_video_data (PStr "clip") (PStr "chan")
                       (PFloat 1714521600%float) (PInt 12)]}]> ytdlp_cache_init)
       [] ["https://vimeo.com/1"]).
Proof.
  assert (Hmiss : uncached initial_state "vimeo.com" "/1")
    by (exists ∅, "1"; repeat split).
  rewrite (unruled_domain_fields_pass_through sample_sites
             (mkParseResult "https" "vimeo.com" "/1" "" "" "") initial_state
             "vimeo.com" (mkYdlInfo "1" "vimeo.com" sample_clip)
             eq_refl eq_refl Hmiss eq_refl).
  vm_compute. reflexivity.
Defined.

(** For [newgrounds.com] and [bilibili.com] the uploader of the record is
    the provider's [uploader], not its [channel]; the title, the upload
    date and the duration are the provider's. *)
Theorem uploader_rule_of_newgrounds_and_bilibili
    (w : world) (url_components : ParseResult) (st : state) (d : string)
    (info : ydl_info) :
  normalized_netloc (netloc url_components) = Ok d ->
  d = "newgrounds.com" \/ d = "bilibili.com" ->
  uncached st d (path url_components) ->
  first_record (ydl_extract_info w (geturl url_components)) = Some info ->
  fetch_ytdlp w url_components st
  = fetched st (geturl url_components) info
      (dict_get (fields info) "title") (dict_get (fields info) "uploader")
      (dict_get (fields info) "upload_date") (dict_get (fields info) "duration").
Proof.
  intros Hd Hcase Hun Hinfo.
  assert (Hsite : exists site, site_of url_components = Ok site
                    /\ (site = "newgrounds" \/ site = "bilibili")
                    /\ mem d accepted_domains = true).
  { destruct Hcase as [-> | ->].
    - exists "newgrounds". split; [|auto].
      apply (site_of_normalized url_components "newgrounds" "com"); auto.
    - exists "bilibili". split; [|auto].
      apply (site_of_normalized url_components "bilibili" "com"); auto. }
  destruct Hsite as (site & Hs & Hsite & Hmem).
  rewrite (fetch_ytdlp_fresh w url_components st d [("channel", CStr "uploader")]
             (geturl url_components, [("channel", CStr "uploader")]) info Hd Hmem Hun
             (preprocess_uploader_rule w url_components site Hs Hsite) eq_refl Hinfo).
  cbn [fst snd apply_corrections apply_correction rbind].
  rewrite dict_get_insert_eq, !dict_get_insert_ne by discriminate. reflexivity.
Qed.

Lemma uploader_rule_of_newgrounds_and_bilibili_example :
  fetch_ytdlp sample_sites
    (mkParseResult "https" "www.newgrounds.com" "/portal/view/1" "" "" "")
    initial_state
  = (Ok (make_video_data (PStr "clip") (PStr "up")
                         (PFloat 1714521600%float) (PInt 12)),
     mkState ∅
       (<["newgrounds.com" :=
            {["1" := make_video_data (PStr "clip") (PStr "up")
                       (PFloat 1714521600%float) (PInt 12)]}]> ytdlp_cache_init)
       [] ["https://www.newgrounds.com/portal/view/1"]).
Proof.
  assert (Hmiss : uncached initial_state "newgrounds.com" "/portal/view/1")
    by (exists ∅, "1"; repeat split).
  rewrite (uploader_rule_of_newgrounds_and_bilibili sample_sites
             (mkParseResult "https" "www.newgrounds.com" "/portal/view/1"
                            "" "" "")
             initial_state "newgrounds.com"
             (mkYdlInfo "1" "newgrounds.com" sample_clip)
             eq_refl (or_introl eq_refl) Hmiss eq_refl).
  vm_compute. reflexivity.
Defined.

(** For [tiktok.com] the uploader of the record is the provider's
    [uploader] and the title is [Tiktok video by <uploader> (<h>)], where
    [h] is the pseudonym of the provider's title; when the provider's
    record has no title that is a string, the request raises
    [AttributeError] after the provider was asked, and nothing is
    stored. *)
Theorem tiktok_uploader_and_title
    (w : world) (url_components : ParseResult) (st : state) (info : ydl_info) :
  normalized_netloc (netloc url_components) = Ok "tiktok.com" ->
  uncached st "tiktok.com" (path url_components) ->
  first_record (ydl_extract_info w (geturl url_components)) = Some info ->
  fetch_ytdlp w url_components st
  = match dict_get (fields info) "title" with
    | PStr t =>
        fetched st (geturl url_components) info
          (PStr ("Tiktok video by "
                 +:+ py_str w (dict_get (fields info) "uploader")
                 +:+ " (" +:+ PyStr.take 5 (Sha256.hexdigest t) +:+ ")"))
          (dict_get (fields info) "uploader")
          (dict_get (fields info) "upload_date")
          (dict_get (fields info) "duration")
    | _ => (Raise AttributeError, logged_ydl st (geturl url_components))
    end.
Proof.
  intros Hd Hun Hinfo.
  assert (Hs : site_of url_components = Ok "tiktok")
    by (apply (site_of_normalized url_components "tiktok" "com"); auto).
  rewrite (fetch_ytdlp_fresh w url_components st "tiktok.com" _
             (geturl url_components, [("channel", CStr "uploader");
                          ("title", CFun (tiktok_title w))])
             info Hd eq_refl Hun (preprocess_tiktok w url_components Hs) eq_refl Hinfo).
  cbn [fst snd apply_corrections apply_correction rbind].
  unfold tiktok_title. rewrite !dict_get_insert_ne by discriminate.
  destruct (dict_get (fields info) "title") as [| |?|t]; try reflexivity.
  cbn [hash_str rbind].
  rewrite dict_get_insert_eq.
  repeat (rewrite dict_get_insert_ne by discriminate).
  rewrite dict_get_insert_eq.
  repeat (rewrite dict_get_insert_ne by discriminate). reflexivity.
Qed.

Lemma tiktok_uploader_and_title_example :
  fetch_ytdlp sample_sites
    (mkParseResult "https" "www.tiktok.com" "/@u/video/1" "" "" "")
    initial_state
  = (Ok (make_video_data (PStr "Tiktok video by up (67905)") (PStr "up")
                         (PFloat 1714521600%float) (PInt 12)),
     mkState ∅
       (<["tiktok.com" :=
            {["1" := make_video_data (PStr "Tiktok video by up (67905)")
                       (PStr "up") (PFloat 1714521600%float) (PInt 12)]}]>
          ytdlp_cache_init)
       [] ["https://www.tiktok.com/@u/video/1"]).
Proof.
  assert (Hmiss : uncached initial_state "tiktok.com" "/@u/video/1")
    by (exists ∅, "1"; repeat split).
  rewrite (tiktok_uploader_and_title sample_sites
             (mkParseResult "https" "www.tiktok.com" "/@u/video/1" "" "" "")
             initial_state (mkYdlInfo "1" "tiktok.com" sample_clip)
             eq_refl Hmiss eq_refl).
  vm_compute. reflexivity.
Defined.

(** The duration rule of [twitter.com].  For a request whose url ends
    with [/video/<n>], [n] written in decimal with at most 4300 digits:
    the rule set has the duration rule exactly when [n] is not 1, and the
    record then has no duration ([None]); for [n = 1] the duration is the
    provider's.  The uploader is the provider's [uploader_id] and the
    title is [X post by <uploader_id> (<h>)] in both cases; when the
    provider's record has no title that is a string, the request raises
    [AttributeError] after the provider was asked.  With more than 4300
    digits [int] refuses the index: [preprocess] and the request raise
    [ValueError], the provider is not asked and the state stays as it
    was. *)
Theorem twitter_video_index_rule
    (w : world) (url_components : ParseResult) (st : state) (info : ydl_info)
    (base : string) (n : N) :
  normalized_netloc (netloc url_components) = Ok "twitter.com" ->
  uncached st "twitter.com" (path url_components) ->
  geturl url_components = base +:+ "/video/" +:+ decimal n ->
  first_record (ydl_extract_info w (geturl url_components)) = Some info ->
  preprocess w url_components
  = (if readable (Some n)
     then Ok (if (n =? 1)%N then twitter_base w
              else twitter_base w ++ [("duration", CNull)])
     else Raise ValueError)
  /\ fetch_ytdlp w url_components st
     = if readable (Some n)
       then
         match dict_get (fields info) "title" with
         | PStr t =>
             fetched st (geturl url_components) info
               (PStr ("X post by "
                      +:+ py_str w (dict_get (fields info) "uploader_id")
                      +:+ " (" +:+ PyStr.take 5 (Sha256.hexdigest t) +:+ ")"))
               (dict_get (fields info) "uploader_id")
               (dict_get (fields info) "upload_date")
               (if (n =? 1)%N then dict_get (fields info) "duration" else PNone)
         | _ => (Raise AttributeError, logged_ydl st (geturl url_components))
         end
       else (Raise ValueError, st).
Proof.
  intros Hd Hun Hu Hinfo.
  assert (Hs : site_of url_components = Ok "twitter")
    by (apply (site_of_normalized url_components "twitter" "com"); auto).
  assert (Hp : preprocess w url_components
               = if readable (Some n)
                 then Ok (if (n =? 1)%N then twitter_base w
                          else twitter_base w ++ [("duration", CNull)])
                 else Raise ValueError).
  { rewrite (preprocess_video_index w url_components base (decimal n) Hs Hu)
      by (apply digits_lack; [reflexivity | apply decimal_digits]).
    rewrite int_decimal_limit.
    destruct (readable (Some n)); [|reflexivity].
    destruct (N.eqb_spec n 1) as [-> | Hne]; [reflexivity|].
    destruct (Z.eqb_spec (Z.of_N n) 1) as [E | _]; [lia | reflexivity]. }
  split; [exact Hp|].
  destruct (readable (Some n)).
  2:{ destruct Hun as (part & id & Hpart & Hid & Hmiss).
      rewrite fetch_ytdlp_eq, Hd.
      change (negb (mem "twitter.com" accepted_domains)) with false.
      cbv iota. rewrite Hid, Hpart, Hmiss, Hp. reflexivity. }
  assert (Ht : fetch_target (geturl url_components)
                 (if (n =? 1)%N then twitter_base w
                  else twitter_base w ++ [("duration", CNull)])
               = Ok (geturl url_components,
                     if (n =? 1)%N then twitter_base w
                     else twitter_base w ++ [("duration", CNull)]))
    by (destruct (n =? 1)%N; reflexivity).
  rewrite (fetch_ytdlp_fresh w url_components st "twitter.com" _ _ info
             Hd eq_refl Hun Hp Ht
             Hinfo).
  cbn [fst snd]. unfold twitter_base.
  destruct (n =? 1)%N;
    cbn [app apply_corrections apply_correction rbind];
    unfold x_post_title; rewrite !dict_get_insert_ne by discriminate;
    (destruct (dict_get (fields info) "title") as [| |?|t]; try reflexivity);
    cbn [hash_str rbind];
    repeat (rewrite ?dict_get_insert_eq;
            repeat (rewrite dict_get_insert_ne by discriminate));
    reflexivity.
Qed.

Lemma twitter_video_index_rule_example :
  fetch_ytdlp sample_world
    (mkParseResult "https" "twitter.com" "/u/status/7/video/2" "" "" "")
    initial_state
  = (Ok (make_video_data (PStr "X post by abc (2cf24)") (PStr "abc")
                         (PFloat 1714521600%float) PNone),
     mkState ∅
       (<["twitter.com" :=
            {["7" := make_video_data (PStr "X post by abc (2cf24)") (PStr "abc")
                       (PFloat 1714521600%float) PNone]}]> ytdlp_cache_init)
       [] ["https://twitter.com/u/status/7/video/2"]).
Proof.
  assert (Hmiss : uncached initial_state "twitter.com" "/u/status/7/video/2")
    by (exists ∅, "2"; repeat split).
  rewrite (proj2 (twitter_video_index_rule sample_world
                    (mkParseResult "https" "twitter.com" "/u/status/7/video/2"
                                   "" "" "")
                    initial_state (mkYdlInfo "7" "twitter.com" sample_fields)
                    "https://twitter.com/u/status/7" 2
                    eq_refl Hmiss eq_refl eq_refl)).
  vm_compute. reflexivity.
Defined.

(** The index of a [twitter.com] video url must be a number.  When the
    text after [/video/] in the url of the request, query string
    included, is not one that [int] reads, [preprocess] raises
    [ValueError], and so does the request, before the provider is asked
    and with the state left as it was. *)
Theorem twitter_video_index_not_a_number
    (w : world) (url_components : ParseResult) (st : state)
    (base tail : string) :
  normalized_netloc (netloc url_components) = Ok "twitter.com" ->
  uncached st "twitter.com" (path url_components) ->
  geturl url_components = base +:+ "/video/" +:+ tail ->
  PyStr.contains "/" tail = false ->
  PyStr.int tail = Raise ValueError ->
  preprocess w url_components = Raise ValueError
  /\ fetch_ytdlp w url_components st = (Raise ValueError, st).
Proof.
  intros Hd (part & id & Hpart & Hid & Hmiss) Hu Ht Hint.
  assert (Hs : site_of url_components = Ok "twitter")
    by (apply (site_of_normalized url_components "twitter" "com"); auto).
  assert (Hp : preprocess w url_components = Raise ValueError)
    by (rewrite (preprocess_video_index w url_components base tail Hs Hu Ht), Hint;
        reflexivity).
  split; [exact Hp|].
  rewrite fetch_ytdlp_eq, Hd. change (negb (mem "twitter.com" accepted_domains))
    with false. cbv iota. rewrite Hid, Hpart, Hmiss, Hp. reflexivity.
Qed.

Lemma twitter_video_index_not_a_number_example :
  urlparse "https://twitter.com/u/status/7/video/1?s=20"
  = Ok (mkParseResult "https" "twitter.com" "/u/status/7/video/1" "" "s=20" "")
  /\ fetch_ytdlp sample_world
       (mkParseResult "https" "twitter.com" "/u/status/7/video/1" "" "s=20" "")
       initial_state
     = (Raise ValueError, initial_state).
Proof.
  assert (Hmiss : uncached initial_state "twitter.com" "/u/status/7/video/1")
    by (exists ∅, "1"; repeat split).
  split; [vm_compute; reflexivity|].
  exact (proj2 (twitter_video_index_not_a_number sample_world
                  (mkParseResult "https" "twitter.com" "/u/status/7/video/1"
                                 "" "s=20" "")
                  initial_state "https://twitter.com/u/status/7" "1?s=20"
                  eq_refl Hmiss eq_refl eq_refl eq_refl)).
Defined.

(** ** The batch as a whole *)

Section WholeBatchFacts.

Lemma urlsplit_raises url e : urlsplit url = Raise e -> e = ValueError.
Proof.
  unfold urlsplit.
  destruct (split_scheme (remove_unsafe (lstrip_c0 url))) as [sch url2].
  destruct (PyStr.startswith "//" url2); cbn [rbind].
  - destruct (splitnetloc (PyStr.drop 2 url2)) as [nl rest].
    destruct (xorb (PyStr.contains "[" nl) (PyStr.contains "]" nl));
      cbn [rbind]; [congruence|].
    destruct (if PyStr.contains "#" rest then cut "#" rest
              else (rest, EmptyString)) as [url4 frag].
    destruct (if PyStr.contains "?" url4 then cut "?" url4
              else (url4, EmptyString)) as [url5 qry].
    discriminate.
  - destruct (if PyStr.contains "#" url2 then cut "#" url2
              else (url2, EmptyString)) as [url4 frag].
    destruct (if PyStr.contains "?" url4 then cut "?" url4
              else (url4, EmptyString)) as [url5 qry].
    discriminate.
Qed.

Lemma urlparse_raises url e : urlparse url = Raise e -> e = ValueError.
Proof.
  unfold urlparse.
  destruct (urlsplit url) as [[[[[sch nl] p] qry] frag]|e0] eqn:Es; cbn [rbind].
  - destruct (if mem sch uses_params && PyStr.contains ";" p
              then splitparams p else (p, EmptyString)) as [p' prm].
    discriminate.
  - intros H. apply urlsplit_raises in Es. congruence.
Qed.

Lemma map_result_raise {A B : Type} (f : A -> result B) l a e :
  In a l -> f a = Raise e -> exists e', map_result f l = Raise e'.
Proof.
  induction l as [|x l IH]; intros Hin Hf; [destruct Hin|]. simpl.
  destruct (f x) as [b|e0] eqn:Ex; [|eauto]. simpl.
  destruct Hin as [-> | Hin]; [congruence|].
  destruct (IH Hin Hf) as [e' ->]. eauto.
Qed.

Lemma map_result_raised {A B : Type} (f : A -> result B) l e :
  map_result f l = Raise e -> exists a, In a l /\ f a = Raise e.
Proof.
  induction l as [|x l IH]; simpl; [discriminate|].
  destruct (f x) as [b|e0] eqn:Ex; simpl.
  - destruct (map_result f l) as [bs|e1]; simpl; [discriminate|].
    intros H. destruct (IH H) as (a & Ha & Hf). eauto.
  - intros H. exists x. split; [left; reflexivity | congruence].
Qed.

Lemma map_result_repeat {A B : Type} (f : A -> result B) a b n :
  f a = Ok b -> map_result f (repeat a n) = Ok (repeat b n).
Proof.
  intros H. induction n as [|n IH]; [reflexivity|]. simpl.
  rewrite H, IH. reflexivity.
Qed.

Lemma map_M_repeat {A B : Type} (f : A -> M B) a b st n :
  f a st = (Ok b, st) -> map_M f (repeat a n) st = (Ok (repeat b n), st).
Proof.
  intros H. induction n as [|n IH]; [reflexivity|]. simpl.
  unfold bind, ret. rewrite H, IH. reflexivity.
Qed.

Lemma fetch_youtube_shape w uc st r st' :
  caches_hold_records st -> fetch_youtube w uc st = (Ok r, st') ->
  rejection r \/ yt_record r.
Proof.
  intros [Hyt _]. rewrite fetch_youtube_eq. unfold rejection. intros H.
  repeat (case_in H; try discriminate H);
    apply pair_eq_inv in H as [Hr _]; apply Ok_inj in Hr; subst r; auto.
  - right. eapply Hyt, cache_hit_lookup; eassumption.
  - right. apply video_data_yt_record.
Qed.

Lemma fetch_ytdlp_shape w uc st r st' :
  caches_hold_records st -> fetch_ytdlp w uc st = (Ok r, st') ->
  rejection r \/ ytdlp_record r.
Proof.
  intros [_ Hydl]. rewrite fetch_ytdlp_eq. unfold rejection. intros H.
  assert (Hn : forall info chg st0,
            normalize_info info chg st0 = (Ok r, st') -> ytdlp_record r).
  { intros info chg st0. rewrite normalize_info_eq. intros Hn.
    repeat (case_in Hn; try discriminate Hn).
    apply pair_eq_inv in Hn as [Hr _]. apply Ok_inj in Hr. subst r.
    eapply video_data_ytdlp_record, upload_timestamp_midnight. eassumption. }
  repeat (case_in H; try discriminate H);
    try (right; eapply Hn; eassumption);
    apply pair_eq_inv in H as [Hr _]; apply Ok_inj in Hr; subst r; auto.
  right. eapply Hydl; [eassumption | eapply cache_hit_lookup; eassumption].
Qed.

Lemma route_shape w uc st r st' :
  caches_hold_records st -> route w uc st = (Ok r, st') ->
  (rejection r \/ yt_record r \/ ytdlp_record r) /\ caches_hold_records st'.
Proof.
  intros Hinv. unfold route.
  destruct (mem (netloc uc) youtube_domains); intros H.
  - split.
    + destruct (fetch_youtube_shape _ _ _ _ _ Hinv H); auto.
    + exact (proj2 (fetch_youtube_records _ _ _ _ _ Hinv H)).
  - split.
    + destruct (fetch_ytdlp_shape _ _ _ _ _ Hinv H); auto.
    + exact (proj2 (fetch_ytdlp_records _ _ _ _ _ Hinv H)).
Qed.

Lemma map_M_forall {A B : Type} (f : A -> M B) (I : state -> Prop)
    (P : B -> Prop) :
  (forall a st b st', I st -> f a st = (Ok b, st') -> P b /\ I st') ->
  forall l st bs st',
    I st -> map_M f l st = (Ok bs, st') -> Forall P bs /\ I st'.
Proof.
  intros Hstep. induction l as [|a l IH]; intros st bs st' Hi; simpl.
  - unfold ret. intros H. apply pair_eq_inv in H as [H <-].
    apply Ok_inj in H. subst bs. split; [constructor | exact Hi].
  - unfold bind, ret.
    destruct (f a st) as [[b|e] st1] eqn:Ea; [|discriminate].
    destruct (map_M f l st1) as [[bs'|e] st2] eqn:El; [|discriminate].
    intros H. apply pair_eq_inv in H as [H <-]. apply Ok_inj in H. subst bs.
    destruct (Hstep _ _ _ _ Hi Ea) as [Hb Hi1].
    destruct (IH _ _ _ Hi1 El) as [Hbs Hi2].
    split; [constructor; assumption | exact Hi2].
Qed.

End WholeBatchFacts.

(** All urls of a batch are parsed before the first one is fetched: when
    one of them does not parse, wherever it stands, the batch raises
    [ValueError], no provider is asked and the state is left as it
    was. *)
Theorem unparsable_url_stops_batch
    (w : world) (urls : list string) (url : string) (e : exn) (st : state) :
  In url urls -> urlparse url = Raise e ->
  update_item w urls st = (Raise ValueError, st).
Proof.
  intros Hin Hu. unfold update_item, bind, lift.
  destruct (map_result_raise urlparse urls url e Hin Hu) as [e' He'].
  rewrite He'. destruct (map_result_raised _ _ _ He') as (a & _ & Ha).
  rewrite (urlparse_raises _ _ Ha). reflexivity.
Qed.

Lemma unparsable_url_stops_batch_example :
  update_item sample_world ["https://youtu.be/abc"; "http://[::1/x"]
    initial_state
  = (Raise ValueError, initial_state).
Proof.
  apply (unparsable_url_stops_batch sample_world _ "http://[::1/x" ValueError);
    [right; left; reflexivity | reflexivity].
Defined.

(** A url of the managed platform that stands several times in a batch
    is fetched once: when its first request returns a record, every copy
    gets that record and the video API is asked at most once. *)
Theorem repeated_url_fetched_once
    (w : world) (url : string) (url_components : ParseResult)
    (st st1 : state) (r : pydict) (n : nat) :
  urlparse url = Ok url_components ->
  mem (netloc url_components) youtube_domains = true ->
  fetch_youtube w url_components st = (Ok r, st1) ->
  r !! "Invalid" = None ->
  update_item w (repeat url (S n)) st = (Ok (repeat r (S n)), st1)
  /\ (length (yt_calls st1) <= length (yt_calls st) + 1)%nat.
Proof.
  intros Hu Hy Hf Hr.
  destruct (fetch_youtube_twice w url_components st r st1 Hf Hr) as [Hagain Hcalls].
  split; [|exact Hcalls].
  unfold update_item, bind, lift.
  rewrite (map_result_repeat urlparse url url_components (S n) Hu).
  change (repeat url_components (S n)) with (url_components :: repeat url_components n).
  cbn [map_M]. unfold bind, ret, route at 1. rewrite Hy, Hf.
  rewrite (map_M_repeat (route w) url_components r st1 n); [reflexivity|].
  unfold route. rewrite Hy. exact Hagain.
Qed.

Lemma repeated_url_fetched_once_example :
  update_item sample_world
    ["https://youtu.be/abc"; "https://youtu.be/abc"; "https://youtu.be/abc"]
    initial_state
  = (Ok [sample_video_record; sample_video_record; sample_video_record],
     mkState {["abc" := sample_video_record]} ytdlp_cache_init ["abc"] []).
Proof.
  exact (proj1 (repeated_url_fetched_once sample_world "https://youtu.be/abc"
                  (mkParseResult "https" "youtu.be" "/abc" "" "" "")
                  initial_state _ sample_video_record 2
                  eq_refl eq_refl sample_video_fetch eq_refl)).
Defined.

(** What a batch returns.  When the caches hold records of their adapters
    (as they do at start-up), every result of a batch that returns is one
    of the three rejection objects, or a record of the managed-platform
    adapter, or a record of the generic-extraction adapter; and the caches
    still hold records afterwards. *)
Theorem batch_results_are_rejections_or_records
    (w : world) (urls : list string) (st st' : state) (rs : list pydict) :
  caches_hold_records st ->
  update_item w urls st = (Ok rs, st') ->
  Forall (fun r => rejection r \/ yt_record r \/ ytdlp_record r) rs
  /\ caches_hold_records st'.
Proof.
  intros Hinv. unfold update_item, bind, lift.
  destruct (map_result urlparse urls) as [parsed|e]; [|discriminate].
  apply (map_M_forall (route w) caches_hold_records); [|exact Hinv].
  intros uc s r s' Hs. apply route_shape, Hs.
Qed.

Lemma batch_results_are_rejections_or_records_example :
  Forall (fun r => rejection r \/ yt_record r \/ ytdlp_record r)
    [sample_post_record;
     make_video_data (PStr "X post by abc (2cf24)") (PStr "abc")
                     (PFloat 1714521600%float) PNone].
Proof.
  exact (proj1 (batch_results_are_rejections_or_records _ _ _ _ _
                  initial_caches_hold_records sample_posts_batch)).
Defined.

(** ** Upload dates *)

Section DateFacts.

Lemma digit_value_chr d : 0 <= d <= 9 -> PyStr.digit_value (digit_chr d) = Some d.
Proof.
  intros H.
  assert (Hd : d = 0 \/ d = 1 \/ d = 2 \/ d = 3 \/ d = 4 \/ d = 5 \/ d = 6
               \/ d = 7 \/ d = 8 \/ d = 9) by lia.
  repeat (destruct Hd as [-> | Hd]; [reflexivity|]). subst d. reflexivity.
Qed.

Lemma year_digits_token y r :
  0 <= y <= 9999 -> Date.year_digits (four_digits y +:+ r) = Some (y, r).
Proof.
  intros Hy. unfold four_digits. rewrite !app_cons, app_empty.
  unfold Date.year_digits.
  rewrite !digit_value_chr by (Z.div_mod_to_equations; lia).
  f_equal. f_equal. Z.div_mod_to_equations. lia.
Qed.

Lemma month_day_table :
  forallb (fun m => forallb (fun d => month_day_read (Z.of_nat m) (Z.of_nat d))
                      (seq 1 31)) (seq 1 12) = true.
Proof. vm_compute. reflexivity. Qed.

Lemma month_day_token m d :
  1 <= m <= 12 -> 1 <= d <= 31 ->
  exists rest, month_day_found (two_digits m +:+ two_digits d)
               = (m, d, EmptyString) :: rest.
Proof.
  intros Hm Hd.
  pose proof (proj1 (forallb_forall _ _) month_day_table (Z.to_nat m)
                ltac:(apply in_seq; lia)) as H0.
  pose proof (proj1 (forallb_forall _ _) H0 (Z.to_nat d)
                ltac:(apply in_seq; lia)) as H.
  clear H0. rewrite !Z2Nat.id in H by lia.
  unfold month_day_read in H.
  destruct (month_day_found _) as [|[[m' d'] [|? ?]] rest]; try discriminate H.
  apply andb_true_iff in H as [H1 H2].
  apply Z.eqb_eq in H1, H2. subst. eauto.
Qed.

Lemma days_in_month_bounds y m : 28 <= Date.days_in_month y m <= 31.
Proof.
  unfold Date.days_in_month.
  destruct (m =? 2); [destruct (Date.is_leap y); lia|].
  destruct ((m =? 4) || (m =? 6) || (m =? 9) || (m =? 11)); lia.
Qed.

Lemma strptime_token y m d :
  calendar_day y m d ->
  Date.strptime_Ymd (date_token y m d) = Ok (86400 * Date.days_from_civil y m d).
Proof.
  intros (Hy & Hm & Hd). pose proof (days_in_month_bounds y m) as Hb.
  unfold Date.strptime_Ymd, date_token.
  rewrite year_digits_token by lia.
  destruct (month_day_token m d Hm ltac:(lia)) as [rest Hrest].
  unfold month_day_found in Hrest. rewrite Hrest.
  destruct (1 <=? y) eqn:E1; [|lia].
  destruct (d <=? Date.days_in_month y m) eqn:E2; [|lia].
  reflexivity.
Qed.

Lemma leap_step y :
  year_days y
  = year_days (y - 1) + (if Date.is_leap y then 366 else 365).
Proof.
  unfold year_days, Date.is_leap.
  destruct (y mod 4 =? 0) eqn:E4; destruct (y mod 100 =? 0) eqn:E100;
    destruct (y mod 400 =? 0) eqn:E400; cbn [negb andb orb];
    Z.div_mod_to_equations; lia.
Qed.

(** Days since the epoch in closed form. *)
Lemma days_from_civil_alt y m d :
  Date.days_from_civil y m d
  = year_days (if m <=? 2 then y - 1 else y) + month_start m + d - 1 - 719468.
Proof.
  unfold Date.days_from_civil, year_days, month_start. cbv zeta.
  set (y' := if m <=? 2 then y - 1 else y).
  set (doy := (153 * (if 2 <? m then m - 3 else m + 9) + 2) / 5).
  Z.div_mod_to_equations. lia.
Qed.

Lemma month_step y m :
  1 <= m <= 11 ->
  year_days (if m + 1 <=? 2 then y - 1 else y) + month_start (m + 1)
  = year_days (if m <=? 2 then y - 1 else y) + month_start m
    + Date.days_in_month y m.
Proof.
  intros Hm.
  assert (Hcases : m = 1 \/ m = 2 \/ m = 3 \/ m = 4 \/ m = 5 \/ m = 6
                   \/ m = 7 \/ m = 8 \/ m = 9 \/ m = 10 \/ m = 11) by lia.
  destruct Hcases as [-> | [-> | Hcases]].
  - change (1 + 1 <=? 2) with true. change (1 <=? 2) with true.
    change (month_start (1 + 1)) with 337. change (month_start 1) with 306.
    change (Date.days_in_month y 1) with 31. cbv iota. lia.
  - change (2 + 1 <=? 2) with false. change (2 <=? 2) with true.
    change (month_start (2 + 1)) with 0. change (month_start 2) with 337.
    change (Date.days_in_month y 2) with (if Date.is_leap y then 29 else 28).
    cbv iota. rewrite (leap_step y). destruct (Date.is_leap y); lia.
  - assert (Hlate : (m + 1 <=? 2) = false /\ (m <=? 2) = false) by lia.
    destruct Hlate as [-> ->].
    assert (Hms : month_start (m + 1) = month_start m + Date.days_in_month y m)
      by (repeat (destruct Hcases as [-> | Hcases]); try subst m; reflexivity).
    lia.
Qed.

Lemma days_next y m d :
  calendar_day y m d ->
  let '(y', m', d') := next_day y m d in
  Date.days_from_civil y' m' d' = Date.days_from_civil y m d + 1.
Proof.
  intros (Hy & Hm & Hd). unfold next_day.
  destruct (d <? Date.days_in_month y m) eqn:Ed.
  - rewrite !days_from_civil_alt. lia.
  - assert (d = Date.days_in_month y m) by lia. subst d. clear Ed Hd.
    destruct (m <? 12) eqn:Em.
    + rewrite !days_from_civil_alt, month_step by lia. lia.
    + assert (m = 12) by lia. subst m. rewrite !days_from_civil_alt.
      change (Date.days_in_month y 12) with 31.
      change (12 <=? 2) with false. change (1 <=? 2) with true.
      change (month_start 12) with 275. change (month_start 1) with 306.
      cbv iota. replace (y + 1 - 1) with y by lia. lia.
Qed.

End DateFacts.

(** The upload date of the generic-extraction adapter.  For every day of
    the calendar written [YYYYMMDD], the upload timestamp is the float of
    86400 times the number of days from 1970-01-01 to that day, midnight
    UTC: that number is 0 for 1970-01-01, and one more for the day after
    each day. *)
Theorem upload_date_counts_days (y m d : Z) :
  calendar_day y m d ->
  upload_timestamp (PStr (date_token y m d))
  = Ok (PFloat (float_of_Z (86400 * Date.days_from_civil y m d)))
  /\ Date.days_from_civil 1970 1 1 = 0
  /\ (let '(y', m', d') := next_day y m d in
      Date.days_from_civil y' m' d' = Date.days_from_civil y m d + 1).
Proof.
  intros H. split; [|split; [reflexivity | apply days_next, H]].
  unfold upload_timestamp. rewrite (strptime_token y m d H). reflexivity.
Qed.

Lemma upload_date_counts_days_example :
  date_token 2024 2 29 = "20240229"
  /\ upload_timestamp (PStr "20240229")
     = Ok (PFloat (float_of_Z (86400 * 19782)))
  /\ next_day 2024 2 29 = (2024, 3, 1)
  /\ Date.days_from_civil 2024 3 1 = 19782 + 1.
Proof.
  assert (H : calendar_day 2024 2 29).
  { unfold calendar_day. change (Date.days_in_month 2024 2) with 29. lia. }
  destruct (upload_date_counts_days 2024 2 29 H) as (H1 & _ & H2).
  split; [reflexivity|]. split; [exact H1|]. split; [reflexivity | exact H2].
Defined.

(** ** A video of a day or more *)

(** A video of a day or more on the managed platform.  When the video
    API gives a duration with a day component followed by an hour, minute
    or second segment, the request raises [ValueError] after the API was
    asked, and nothing is stored. *)
Theorem day_long_video_raises
    (w : world) (url_components : ParseResult) (st : state) (id : string)
    (item : yt_item) (rest : list yt_item) (ts : Z) (d : N) (h m s : option N) :
  extract_video_id url_components = Ok (Some id) ->
  cache_hit (yt_cache st) id = None ->
  yt_videos_list w id = item :: rest ->
  fromisoformat_timestamp w (snippet_publishedAt item) = Ok ts ->
  contentDetails_duration item = day_token d h m s ->
  h <> None \/ m <> None \/ s <> None ->
  fetch_youtube w url_components st = (Raise ValueError, logged_yt st id).
Proof.
  intros Hid Hmiss Hitem Hts Hdur Hseg.
  destruct (extracted_shape _ _ Hid) as (Hne & _).
  rewrite fetch_youtube_eq, Hid.
  destruct id as [|a id']; [discriminate Hne|].
  rewrite Hmiss. cbv zeta.
  rewrite Hitem, Hts, Hdur, (day_token_raises d h m s Hseg). reflexivity.
Qed.

Lemma day_long_video_raises_example :
  fetch_youtube sample_sites (mkParseResult "https" "youtu.be" "/long" "" "" "")
    initial_state
  = (Raise ValueError, logged_yt initial_state "long").
Proof.
  apply (day_long_video_raises sample_sites _ initial_state "long"
           (mkYtItem "T" "C" "2024-05-01T00:00:00Z" "P1DT2H5S") [] 1714521600
           1 (Some 2%N) None (Some 5%N));
    [reflexivity | reflexivity | reflexivity | reflexivity | reflexivity
    | left; discriminate].
Defined.

(** ** One identity for the forms of a url; rejections are not stored *)

Section SharedIdentityFacts.

(** A run of id characters after one slash is not a live path. *)
Lemma short_path_not_live id :
  all_chars Re.id_char id = true -> Re.livestream_match ("/" +:+ id) = None.
Proof.
  intros Hid. unfold Re.livestream_match, Re.match_after.
  destruct (PyStr.startswith "/live/" ("/" +:+ id)) eqn:E; [|reflexivity].
  exfalso. rewrite app_cons, app_empty in E.
  assert (Hs : PyStr.contains "/" id = false)
    by (apply (all_chars_lacks Re.id_char); [reflexivity | exact Hid]).
  destruct id as [|c1 [|c2 [|c3 [|c4 [|c5 r]]]]];
    cbn [PyStr.startswith] in E;
    repeat (apply andb_true_iff in E as [? E]);
    try discriminate E;
    repeat match goal with
           | H : PyStr.chr_eqb _ _ = true |- _ => apply chr_eqb_eq in H; subst
           end;
    simpl in Hs; discriminate Hs.
Qed.

Lemma forms_share_id uc1 uc2 uc3 id :
  all_chars Re.id_char id = true -> nonempty id = true -> id <> "watch" ->
  path uc1 = "/watch" -> query uc1 = "v=" +:+ id ->
  path uc2 = "/" +:+ id ->
  path uc3 = "/live/" +:+ id ->
  extract_video_id uc1 = Ok (Some id)
  /\ extract_video_id uc2 = Ok (Some id)
  /\ extract_video_id uc3 = Ok (Some id).
Proof.
  intros Hid Hne Hw Hp1 Hq1 Hp2 Hp3.
  assert (H1 : extract_video_id uc1 = Ok (Some id)).
  { unfold extract_video_id. rewrite Hp1, Hq1.
    destruct (parse_qs_v id "" Hid Hne (or_introl eq_refl)) as [l Hl].
    rewrite app_empty_r in Hl. rewrite Hl. reflexivity. }
  assert (H2 : extract_video_id uc2 = Ok (Some id)).
  { unfold extract_video_id. rewrite Hp2.
    destruct (String.eqb ("/" +:+ id) "/watch") eqn:E.
    - apply String.eqb_eq in E. rewrite app_cons, app_empty in E.
      injection E as E. contradiction.
    - rewrite (short_path_not_live id Hid). unfold Re.shortened_match.
      pose proof (match_after_app "/" id "" Hid Hne (or_introl eq_refl)) as Hm.
      rewrite app_empty_r in Hm. rewrite Hm. reflexivity. }
  assert (H3 : extract_video_id uc3 = Ok (Some id)).
  { unfold extract_video_id. rewrite Hp3.
    destruct (String.eqb ("/live/" +:+ id) "/watch") eqn:E.
    - apply String.eqb_eq in E. rewrite !app_cons, app_empty in E.
      discriminate E.
    - unfold Re.livestream_match.
      pose proof (match_after_app "/live/" id "" Hid Hne (or_introl eq_refl)) as Hm.
      rewrite app_empty_r in Hm. rewrite Hm. reflexivity. }
  auto.
Qed.

End SharedIdentityFacts.

(** The three forms of a url of one video share one identity.  For an id
    made of the characters [a-zA-Z0-9_-] (other than the word [watch]),
    the watch url with [v=<id>], the short url [/<id>] and the live url
    [/live/<id>] give the same id, so a request for any of them does what
    a request for another does in the same state: same answer, same cache
    entry, same call of the video API. *)
Theorem url_forms_share_one_identity
    (w : world) (watch short live : ParseResult) (id : string) (st : state) :
  all_chars Re.id_char id = true -> nonempty id = true -> id <> "watch" ->
  path watch = "/watch" -> query watch = "v=" +:+ id ->
  path short = "/" +:+ id ->
  path live = "/live/" +:+ id ->
  extract_video_id watch = Ok (Some id)
  /\ fetch_youtube w watch st = fetch_youtube w short st
  /\ fetch_youtube w short st = fetch_youtube w live st.
Proof.
  intros Hid Hne Hw Hp1 Hq1 Hp2 Hp3.
  destruct (forms_share_id watch short live id Hid Hne Hw Hp1 Hq1 Hp2 Hp3)
    as (H1 & H2 & H3).
  split; [exact H1|]. split; apply fetch_youtube_by_id; congruence.
Qed.

Lemma url_forms_share_one_identity_example :
  fetch_youtube sample_world
    (mkParseResult "https" "www.youtube.com" "/watch" "" "v=abc" "")
    initial_state
  = fetch_youtube sample_world
      (mkParseResult "https" "youtu.be" "/abc" "" "" "") initial_state
  /\ fetch_youtube sample_world
       (mkParseResult "https" "youtu.be" "/abc" "" "" "") initial_state
     = fetch_youtube sample_world
         (mkParseResult "https" "www.youtube.com" "/live/abc" "" "" "")
         initial_state.
Proof.
  apply (url_forms_share_one_identity sample_world
           (mkParseResult "https" "www.youtube.com" "/watch" "" "v=abc" "")
           (mkParseResult "https" "youtu.be" "/abc" "" "" "")
           (mkParseResult "https" "www.youtube.com" "/live/abc" "" "" "")
           "abc" initial_state);
    (reflexivity || discriminate).
Defined.

Section NegativeFacts.

Lemma fetch_youtube_not_found w uc st id :
  extract_video_id uc = Ok (Some id) ->
  cache_hit (yt_cache st) id = None ->
  yt_videos_list w id = [] ->
  fetch_youtube w uc st
  = (Ok (invalid "Url doesn't point to a video"), logged_yt st id).
Proof.
  intros Hid Hmiss Hnone.
  destruct (extracted_shape _ _ Hid) as (Hne & _).
  rewrite fetch_youtube_eq, Hid.
  destruct id as [|a id']; [discriminate Hne|].
  rewrite Hmiss. cbv zeta. rewrite Hnone. reflexivity.
Qed.

Lemma fetch_ytdlp_not_found w uc st d chg target :
  normalized_netloc (netloc uc) = Ok d -> mem d accepted_domains = true ->
  uncached st d (path uc) ->
  preprocess w uc = Ok chg -> fetch_target (geturl uc) chg = Ok target ->
  ydl_extract_info w (fst target) = DownloadError ->
  fetch_ytdlp w uc st
  = (Ok (invalid "Url doesn't point to a video"), logged_ydl st (fst target)).
Proof.
  intros Hd Hmem (part & id & Hpart & Hid & Hmiss) Hp Ht Hdl.
  rewrite fetch_ytdlp_eq, Hd, Hmem. cbn [negb].
  rewrite Hid, Hpart, Hmiss, Hp, Ht. cbv zeta. rewrite Hdl. reflexivity.
Qed.

End NegativeFacts.

(** Rejections by a provider are not remembered.  A request that the
    cache does not answer and that the provider rejects (no item for the
    id, respectively a download error) returns the rejection
    [Url doesn't point to a video] after one call of the provider, and the
    same request made again asks the provider again. *)
Theorem provider_rejection_is_not_cached
    (w : world) (url_components : ParseResult) (st : state) :
  (forall id,
     extract_video_id url_components = Ok (Some id) ->
     cache_hit (yt_cache st) id = None ->
     yt_videos_list w id = [] ->
     fetch_youtube w url_components st
     = (Ok (invalid "Url doesn't point to a video"), logged_yt st id)
     /\ fetch_youtube w url_components (logged_yt st id)
        = (Ok (invalid "Url doesn't point to a video"),
           logged_yt (logged_yt st id) id))
  /\ (forall d chg target,
        normalized_netloc (netloc url_components) = Ok d ->
        mem d accepted_domains = true ->
        uncached st d (path url_components) ->
        preprocess w url_components = Ok chg ->
        fetch_target (geturl url_components) chg = Ok target ->
        ydl_extract_info w (fst target) = DownloadError ->
        fetch_ytdlp w url_components st
        = (Ok (invalid "Url doesn't point to a video"),
           logged_ydl st (fst target))
        /\ fetch_ytdlp w url_components (logged_ydl st (fst target))
           = (Ok (invalid "Url doesn't point to a video"),
              logged_ydl (logged_ydl st (fst target)) (fst target))).
Proof.
  split.
  - intros id Hid Hmiss Hnone.
    split; apply fetch_youtube_not_found; assumption.
  - intros d chg target Hd Hmem Hun Hp Ht Hdl.
    split; eapply fetch_ytdlp_not_found; eassumption.
Qed.

Lemma provider_rejection_is_not_cached_example :
  fetch_youtube sample_world (mkParseResult "https" "youtu.be" "/zzz" "" "" "")
    (logged_yt initial_state "zzz")
  = (Ok (invalid "Url doesn't point to a video"),
     logged_yt (logged_yt initial_state "zzz") "zzz")
  /\ fetch_ytdlp sample_world
       (mkParseResult "https" "vimeo.com" "/1" "" "" "")
       (logged_ydl initial_state "https://vimeo.com/1")
     = (Ok (invalid "Url doesn't point to a video"),
        logged_ydl (logged_ydl initial_state "https://vimeo.com/1")
                   "https://vimeo.com/1").
Proof.
  assert (Hmiss : uncached initial_state "vimeo.com" "/1")
    by (exists ∅, "1"; repeat split).
  destruct (provider_rejection_is_not_cached sample_world
              (mkParseResult "https" "youtu.be" "/zzz" "" "" "") initial_state)
    as [Hyt _].
  destruct (provider_rejection_is_not_cached sample_world
              (mkParseResult "https" "vimeo.com" "/1" "" "" "") initial_state)
    as [_ Hydl].
  split.
  - exact (proj2 (Hyt "zzz" eq_refl eq_refl eq_refl)).
  - exact (proj2 (Hydl "vimeo.com" [] ("https://vimeo.com/1", [])
                    eq_refl eq_refl Hmiss eq_refl eq_refl eq_refl)).
Defined.

(** ** Provider calls of a batch; what the quirk engine raises *)

Section CallFacts.

Lemma calls_between_refl n st : calls_between n st st.
Proof.
  exists [], []. rewrite !app_nil_r.
  split; [reflexivity|]. split; [reflexivity|]. simpl. lia.
Qed.

Lemma calls_between_trans n1 n2 st1 st2 st3 :
  calls_between n1 st1 st2 -> calls_between n2 st2 st3 ->
  calls_between (n1 + n2) st1 st3.
Proof.
  intros (a1 & b1 & Ha1 & Hb1 & H1) (a2 & b2 & Ha2 & Hb2 & H2).
  exists (a1 ++ a2), (b1 ++ b2).
  rewrite Ha2, Ha1, Hb2, Hb1, <- !List.app_assoc, !List.length_app.
  split; [reflexivity|]. split; [reflexivity|]. lia.
Qed.

Lemma route_calls w uc st res st' :
  route w uc st = (res, st') -> calls_between 1 st st'.
Proof.
  unfold route. destruct (mem (netloc uc) youtube_domains); intros H.
  - destruct (fetch_youtube_state _ _ _ _ _ H)
      as (_ & Hl & [-> | (id & _ & _ & Hc & _)]).
    + apply calls_between_refl.
    + exists [id], []. rewrite Hc, Hl, app_nil_r.
      split; [reflexivity|]. split; [reflexivity|]. simpl. lia.
  - destruct (fetch_ytdlp_state _ _ _ _ _ H)
      as (_ & Hl & [-> | (url & _ & Hc & _)]).
    + apply calls_between_refl.
    + exists [], [url]. rewrite Hc, Hl, app_nil_r.
      split; [reflexivity|]. split; [reflexivity|]. simpl. lia.
Qed.

Lemma map_M_calls w l :
  forall st res st',
    map_M (route w) l st = (res, st') -> calls_between (length l) st st'.
Proof.
  induction l as [|uc l IH]; intros st res st'; simpl.
  - unfold ret. intros H. apply pair_eq_inv in H as [_ <-].
    apply calls_between_refl.
  - unfold bind, ret.
    destruct (route w uc st) as [[b|e] st1] eqn:Ea.
    + pose proof (route_calls _ _ _ _ _ Ea) as H1.
      destruct (map_M (route w) l st1) as [[bs|e] st2] eqn:El; intros H;
        apply pair_eq_inv in H as [_ <-];
        exact (calls_between_trans 1 (length l) _ _ _ H1 (IH _ _ _ El)).
    + intros H. apply pair_eq_inv in H as [_ <-].
      destruct (route_calls _ _ _ _ _ Ea) as (a & b & Ha & Hb & Hn).
      exists a, b. split; [exact Ha|]. split; [exact Hb|]. lia.
Qed.

End CallFacts.

(** At most one provider call for each url of a batch.  However a batch
    ends, the two call logs have only gained entries at their ends, and
    no more entries in all than the batch has urls. *)
Theorem one_provider_call_per_url
    (w : world) (urls : list string) (st st' : state)
    (res : result (list pydict)) :
  update_item w urls st = (res, st') ->
  exists to_api to_library,
    yt_calls st' = yt_calls st ++ to_api
    /\ ydl_calls st' = ydl_calls st ++ to_library
    /\ (length to_api + length to_library <= length urls)%nat.
Proof.
  change (update_item w urls st = (res, st') ->
          calls_between (length urls) st st').
  unfold update_item, bind, lift.
  destruct (map_result urlparse urls) as [parsed|e] eqn:Ep.
  - rewrite <- (map_result_length _ _ _ Ep). apply map_M_calls.
  - intros H. apply pair_eq_inv in H as [_ <-]. apply calls_between_refl.
Qed.

Lemma one_provider_call_per_url_example :
  exists to_api to_library : list string,
    [] = [] ++ to_api
    /\ ["https://twitter.com/u/status/7";
        "https://twitter.com/u/status/7/video/2"] = [] ++ to_library
    /\ (length to_api + length to_library <= 2)%nat.
Proof. exact (one_provider_call_per_url _ _ _ _ _ sample_posts_batch). Defined.

Section PreprocessErrorFacts.

Lemma int_raises s e : PyStr.int s = Raise e -> e = ValueError.
Proof.
  unfold PyStr.int.
  match goal with
  | |- match ?x with _ => _ end = _ -> _ => destruct x
  end; [|congruence].
  match goal with
  | |- (if ?c then _ else _) = _ -> _ => destruct c
  end; [congruence | discriminate].
Qed.

Lemma site_of_dotted uc a b :
  netloc uc = a +:+ String "." b -> exists site, site_of uc = Ok site.
Proof.
  intros H. unfold site_of. rewrite H.
  destruct (PyStr.contains "." a) eqn:Ca.
  - destruct (find_split _ _ Ca) as (x & y & -> & Hx & _).
    rewrite app_assoc, app_cons, (split_app _ _ _ Hx).
    destruct (PyStr.split "." (y +:+ String "." b)) as [|p [|q r]] eqn:E.
    + destruct (split_nonempty _ _ E).
    + destruct (split_one _ _ _ E) as [Heq Hc]. subst p.
      rewrite contains_app in Hc. simpl in Hc. rewrite orb_true_r in Hc.
      discriminate Hc.
    + destruct r; eauto.
  - rewrite (split_app _ _ _ Ca).
    destruct (PyStr.split "." b) as [|p [|q r]] eqn:E; eauto.
    destruct (split_nonempty _ _ E).
Qed.

Lemma preprocess_flat_raises w uc e :
  (forall site, site_of uc = Ok site -> String.eqb site "x" = false) ->
  (exists site, site_of uc = Ok site) ->
  preprocess_fuel 1 w uc = Some (Raise e) -> e = ValueError.
Proof.
  intros Hx [site Hs]. cbn [preprocess_fuel]. rewrite Hs, (Hx site Hs).
  cbv zeta.
  repeat match goal with
         | |- context [if ?b then _ else _] => destruct b
         end;
    try discriminate.
  destruct (PyStr.int _) as [index|e0] eqn:Ei.
  - destruct (negb _); discriminate.
  - intros H. apply (inj Some) in H. injection H as <-.
    exact (int_raises _ _ Ei).
Qed.

End PreprocessErrorFacts.

(** What [preprocess] raises.  For a url that passes the domain check it
    raises nothing but [ValueError], and only for [twitter.com] and
    [x.com]: for the other eight accepted domains it always returns a rule
    set. *)
Theorem preprocess_raises_only_for_twitter
    (w : world) (url_components : ParseResult) (d : string) (e : exn) :
  normalized_netloc (netloc url_components) = Ok d ->
  mem d accepted_domains = true ->
  preprocess w url_components = Raise e ->
  e = ValueError /\ (d = "twitter.com" \/ d = "x.com").
Proof.
  intros Hn Hd.
  assert (Hsite : forall a b, d = a +:+ String "." b ->
                    PyStr.contains "." a = false ->
                    PyStr.contains "." b = false -> site_of url_components = Ok a).
  { intros a b -> Ha Hb. exact (site_of_normalized url_components a b Ha Hb Hn). }
  unfold mem, accepted_domains in Hd. cbn [existsb] in Hd.
  repeat (apply orb_true_iff in Hd as [Hd | Hd]); try discriminate Hd;
    apply String.eqb_eq in Hd; subst d.
  all: match type of Hn with
       | _ = Ok ?dom =>
           match eval vm_compute in (PyStr.split "." dom) with
           | [?a; ?b] => pose proof (Hsite a b eq_refl eq_refl eq_refl) as Hs
           end
       end.
  all: clear Hsite.
  all: lazymatch type of Hs with
       | _ = Ok "twitter" =>
           rewrite (preprocess_twitter w url_components Hs);
           (destruct (PyStr.endswith _ _); [|discriminate]);
           destruct (PyStr.int _) as [index|e0] eqn:Ei;
           [ destruct (negb _); discriminate
           | intros H; injection H as <-;
             split; [exact (int_raises _ _ Ei) | auto] ]
       | _ = Ok "x" =>
           unfold preprocess;
           rewrite (preprocess_fuel_x w url_components 1 "x" Hs eq_refl);
           destruct (urlparse (twitter_url url_components)) as [parsed|e0] eqn:Hp;
           [ destruct (urlparse_twitter_netloc _ _ Hp) as [host Hhost];
             assert (Hflat : forall site', site_of parsed = Ok site' ->
                                           String.eqb site' "x" = false)
               by (intros site'; apply (site_of_twitter_host parsed host), Hhost);
             assert (Hdot : exists site, site_of parsed = Ok site)
               by (apply (site_of_dotted parsed "twitter" ("com" +:+ host));
                   rewrite Hhost, !app_cons, !app_empty; reflexivity);
             destruct (preprocess_fuel 1 w parsed) as [[c|e1]|] eqn:E;
             try discriminate;
             intros H; injection H as <-;
             split; [exact (preprocess_flat_raises w parsed e1 Hflat Hdot E) | auto]
           | intros H; injection H as <-;
             split; [exact (urlparse_raises _ _ Hp) | auto] ]
       | _ => unfold preprocess; cbn [preprocess_fuel]; rewrite Hs; discriminate
       end.
Qed.

Lemma preprocess_raises_only_for_twitter_example :
  ValueError = ValueError /\ ("x.com" = "twitter.com" \/ "x.com" = "x.com").
Proof.
  apply (preprocess_raises_only_for_twitter sample_world
           (mkParseResult "https" "x.com" "/u/status/7/video/x" "" "" "")
           "x.com" ValueError);
    [reflexivity | reflexivity | vm_compute; reflexivity].
Defined.
